(** * Intelligent_Filing_Agent: the two Microsoft Graph demo scripts

    A shallow embedding of [graph_demo.py] (classifier and dashboard
    renderer) and [create_test_emails.py] (test-data seeder), followed by
    the properties their specification states about them.

    Conventions of the embedding.

    - A Python [str] is a Rocq [string], read as the UTF-8 bytes of the
      text.  Substring search and [str.replace] on well-formed UTF-8 agree
      with the same operations on code points.  A lone surrogate, which a
      [str] can hold ([json.loads] makes one of an escape such as
      [\ud800]) and UTF-8 cannot, is written as the three bytes its code
      point would get; such a text is not well-formed UTF-8, and encoding
      it raises.
    - A file is the sequence of its bytes; reading and writing in text mode
      decode, encode and translate line ends as [open] does.
    - A call of [print] is recorded as the text it is given; the console
      the text goes to is outside the embedding.
    - A value coming out of JSON (or out of [csv.DictReader]) is a [pyval];
      a [dict] with string keys is a [gmap string pyval].
    - A Python function that may raise returns a [result]; the exception is
      the [Raise] branch.
    - Collaborators that live outside the repository (the MSAL client, the
      HTTP layer, the clock, [str.lower], [datetime.fromisoformat]) are
      arguments of the functions that use them.

    [create_test_emails.py] is stored with typographic quotes and without
    its indentation; it is read as the Python program it evidently is
    (straight quotes, the indentation implied by its control flow). *)

From stdpp Require Import base gmap strings list.
From Stdlib Require Import Ascii String ZArith Lia DecimalString.

Set Warnings "-register-all".
Local Open Scope Z_scope.

(** ** Python values *)

Inductive pyval : Type :=
  | PNone
  | PBool (b : bool)
  | PInt (z : Z)
  | PStr (s : string)
  | PList (l : list pyval)
  | PDict (d : gmap string pyval).

Abbreviation dict := (gmap string pyval).

Inductive exn : Type :=
  | AttributeError (attr : string)
  | KeyError (key : pyval)
  | TypeError (what : string)
  | RuntimeError (msg : string)
  | FileNotFoundError (msg : string)
  | ValueError (msg : string)
  | OverflowError (msg : string)
  | IndexError (msg : string)
  | ConnectionError (msg : string)
  | JSONDecodeError
  | UnicodeDecodeError (codec : string)
  | UnicodeEncodeError (codec : string).

Inductive result (A : Type) : Type :=
  | Ok (a : A)
  | Raise (e : exn).
Arguments Ok {A} a.
Arguments Raise {A} e.

Definition bind {A B : Type} (m : result A) (k : A → result B) : result B :=
  match m with
  | Ok a => k a
  | Raise e => Raise e
  end.

Notation "'do' x <- m ; k" := (bind m (fun x => k))
  (at level 10, x name, m at level 100, k at level 200).

(** [bool(v)]. *)
Definition truthy (v : pyval) : bool :=
  match v with
  | PNone => false
  | PBool b => b
  | PInt z => negb (z =? 0)
  | PStr s => match s with EmptyString => false | String _ _ => true end
  | PList l => match l with [] => false | _ :: _ => true end
  | PDict d => negb (bool_decide (d = ∅))
  end.

(** [a or b]. *)
Definition py_or (a b : pyval) : pyval := if truthy a then a else b.

(** [d.get(k)] and [d.get(k, dflt)]. *)
Definition dict_get (d : dict) (k : string) : pyval := default PNone (d !! k).
Definition dict_get_or (d : dict) (k : string) (dflt : pyval) : pyval :=
  default dflt (d !! k).

(** [d[k]]. *)
Definition dict_item (d : dict) (k : string) : result pyval :=
  match d !! k with
  | Some v => Ok v
  | None => Raise (KeyError (PStr k))
  end.

(** ** [str] operations *)

(** [s.startswith(p)]. *)
Fixpoint startswith (p s : string) : bool :=
  match p, s with
  | EmptyString, _ => true
  | String _ _, EmptyString => false
  | String a p', String b s' => Ascii.eqb a b && startswith p' s'
  end.

(** [needle in hay]. *)
Fixpoint contains (needle hay : string) : bool :=
  match hay with
  | EmptyString => startswith needle EmptyString
  | String _ hay' => startswith needle hay || contains needle hay'
  end.

(** [s.replace(old, new)] for a non-empty [old]: scan left to right; at a
    match emit [new] and step over the rest of the match ([skip] counts the
    characters still to step over). *)
Fixpoint replace_go (old new : string) (skip : nat) (s : string) : string :=
  match s with
  | EmptyString => EmptyString
  | String c s' =>
      match skip with
      | S k => replace_go old new k s'
      | O =>
          if startswith old s
          then new +:+ replace_go old new (Nat.pred (String.length old)) s'
          else String c (replace_go old new O s')
      end
  end.

(** With an empty [old], Python puts [new] before every character and at
    the end. *)
Fixpoint interleave (new s : string) : string :=
  match s with
  | EmptyString => new
  | String c s' => new +:+ String c (interleave new s')
  end.

Definition replace (old new s : string) : string :=
  match old with
  | EmptyString => interleave new s
  | String _ _ => replace_go old new O s
  end.

(** [sep.join(parts)]. *)
Fixpoint join (sep : string) (parts : list string) : string :=
  match parts with
  | [] => EmptyString
  | [p] => p
  | p :: rest => p +:+ sep +:+ join sep rest
  end.

(** A byte that continues a character of more than one byte
    ([10xxxxxx]). *)
Definition is_continuation (c : ascii) : bool :=
  let n := nat_of_ascii c in ((128 <=? n) && (n <=? 191))%nat.

(** [s[:n]]: the first [n] characters, that is, the bytes before the byte
    that starts character [n + 1]. *)
Fixpoint take_str (n : nat) (s : string) : string :=
  match s with
  | EmptyString => EmptyString
  | String c s' =>
      if is_continuation c then String c (take_str n s')
      else match n with
           | O => EmptyString
           | S n' => String c (take_str n' s')
           end
  end.

(** [len(s)]: the number of characters. *)
Fixpoint char_count (s : string) : nat :=
  match s with
  | EmptyString => O
  | String c s' =>
      if is_continuation c then char_count s' else S (char_count s')
  end.

(** [str.lower] restricted to ASCII letters, the instance used to run the
    classifier on examples.  The classifier itself takes the case mapping
    as an argument. *)
Definition ascii_lower_char (c : ascii) : ascii :=
  let n := N_of_ascii c in
  if ((65 <=? n) && (n <=? 90))%N then ascii_of_N (n + 32) else c.

Fixpoint ascii_lower (s : string) : string :=
  match s with
  | EmptyString => EmptyString
  | String c s' => String (ascii_lower_char c) (ascii_lower s')
  end.

(** [str(n)] for an [int]. *)
Definition str_of_int (z : Z) : string := NilZero.string_of_int (Z.to_int z).

(** [html.escape(s)] with its default [quote=True]: five replacements, the
    ampersand first. *)
Definition html_escape_str (s : string) : string :=
  let s := replace "&" "&amp;" s in
  let s := replace "<" "&lt;" s in
  let s := replace ">" "&gt;" s in
  let s := replace (String "034"%char EmptyString) "&quot;" s in
  replace "'" "&#x27;" s.

(** [html.escape(v)]: anything but a [str] has no [replace]. *)
Definition html_escape (v : pyval) : result string :=
  match v with
  | PStr s => Ok (html_escape_str s)
  | _ => Raise (AttributeError "replace")
  end.

(** ** Text files *)

Definition newline : string := String "010"%char EmptyString.
Definition carriage_return : string := String "013"%char EmptyString.

(** Well-formed UTF-8, as the strict codec of Python checks it: [need] is
    the number of continuation bytes still owed to the current character,
    [lo..hi] the range allowed for the next of them (narrower than
    [80..BF] after [E0], [ED], [F0] and [F4], which excludes over-long
    forms, surrogates and code points above [10FFFF]). *)
Definition byte_in (lo hi : nat) (c : ascii) : bool :=
  let n := nat_of_ascii c in ((lo <=? n) && (n <=? hi))%nat.

Fixpoint utf8_go (need lo hi : nat) (s : string) : bool :=
  match s with
  | EmptyString => match need with O => true | S _ => false end
  | String c s' =>
      match need with
      | S k => byte_in lo hi c && utf8_go k 128 191 s'
      | O =>
          if byte_in 0 127 c then utf8_go 0 128 191 s'
          else if byte_in 194 223 c then utf8_go 1 128 191 s'
          else if byte_in 224 224 c then utf8_go 2 160 191 s'
          else if byte_in 237 237 c then utf8_go 2 128 159 s'
          else if byte_in 225 239 c then utf8_go 2 128 191 s'
          else if byte_in 240 240 c then utf8_go 3 144 191 s'
          else if byte_in 241 243 c then utf8_go 3 128 191 s'
          else if byte_in 244 244 c then utf8_go 3 128 143 s'
          else false
      end
  end.

Definition utf8_valid (s : string) : bool := utf8_go 0 128 191 s.

(** [open(path, "r", encoding="utf-8").read()] on a file with the bytes
    [stored]: the bytes are decoded, and every line end ([\r\n], [\r]
    or [\n]) is read as [\n]. *)
Definition read_text (stored : string) : result string :=
  if utf8_valid stored
  then Ok (replace carriage_return newline
             (replace (carriage_return +:+ newline) newline stored))
  else Raise (UnicodeDecodeError "utf-8").

(** What [f.write(text)] puts into a file opened with
    [open(path, "w", encoding="utf-8")]: every [\n] becomes [os.linesep],
    the argument [linesep]; a text that UTF-8 cannot encode raises. *)
Definition write_text (linesep text : string) : result string :=
  if utf8_valid text then Ok (replace newline linesep text)
  else Raise (UnicodeEncodeError "utf-8").

(** ** Dates and times *)

(** A [datetime.datetime]; [tzinfo] is the UTC offset in seconds of an aware
    value and [None] for a naive one. *)
Record datetime : Type := mk_datetime {
  year : nat;
  month : nat;
  day : nat;
  hour : nat;
  minute : nat;
  second : nat;
  tzinfo : option Z
}.

Definition digit (n : nat) : ascii := ascii_of_nat (48 + n mod 10).

(** Zero-padded decimal fields of [strftime]: [%m %d %H %M %S], and [%Y]
    for the years 1000..9999.  For an earlier year the C library decides
    whether [%Y] is padded to four digits, so what is stated about a
    formatted year is stated for four-digit years. *)
Definition pad2 (n : nat) : string :=
  String (digit (n / 10)) (String (digit n) EmptyString).
Definition pad4 (n : nat) : string :=
  String (digit (n / 1000)) (String (digit (n / 100)) (pad2 n)).

(** [dt.strftime("%Y-%m-%d %H:%M UTC")]. *)
Definition strftime_minutes (dt : datetime) : string :=
  pad4 (year dt) +:+ "-" +:+ pad2 (month dt) +:+ "-" +:+ pad2 (day dt)
  +:+ " " +:+ pad2 (hour dt) +:+ ":" +:+ pad2 (minute dt) +:+ " UTC".

(** [dt.strftime("%Y-%m-%d %H:%M:%S UTC")]. *)
Definition strftime_seconds (dt : datetime) : string :=
  pad4 (year dt) +:+ "-" +:+ pad2 (month dt) +:+ "-" +:+ pad2 (day dt)
  +:+ " " +:+ pad2 (hour dt) +:+ ":" +:+ pad2 (minute dt)
  +:+ ":" +:+ pad2 (second dt) +:+ " UTC".

(** Proleptic Gregorian day number of a civil date (day 0 is 1970-01-01)
    and its inverse, as [datetime] arithmetic computes them. *)
Definition days_from_civil (y m d : Z) : Z :=
  let y' := if m <=? 2 then y - 1 else y in
  let era := y' / 400 in
  let yoe := y' - era * 400 in
  let doy := (153 * (m + (if 2 <? m then -3 else 9)) + 2) / 5 + d - 1 in
  let doe := yoe * 365 + yoe / 4 - yoe / 100 + doy in
  era * 146097 + doe - 719468.

Definition civil_from_days (z : Z) : Z * Z * Z :=
  let z := z + 719468 in
  let era := z / 146097 in
  let doe := z - era * 146097 in
  let yoe := (doe - doe / 1460 + doe / 36524 - doe / 146096) / 365 in
  let doy := doe - (365 * yoe + yoe / 4 - yoe / 100) in
  let mp := (5 * doy + 2) / 153 in
  let d := doy - (153 * mp + 2) / 5 + 1 in
  let m := if mp <? 10 then mp + 3 else mp - 9 in
  (yoe + era * 400 + (if m <=? 2 then 1 else 0), m, d).

(** [dt - timedelta(seconds=off)], re-labelled as UTC; [OverflowError]
    outside the years 1..9999. *)
Definition shift_to_utc (dt : datetime) (off : Z) : result datetime :=
  let days := days_from_civil (Z.of_nat (year dt)) (Z.of_nat (month dt))
                (Z.of_nat (day dt)) in
  let secs := days * 86400 + Z.of_nat (hour dt) * 3600
              + Z.of_nat (minute dt) * 60 + Z.of_nat (second dt) - off in
  let '(y, m, d) := civil_from_days (secs / 86400) in
  let sod := secs mod 86400 in
  if (1 <=? y) && (y <=? 9999)
  then Ok (mk_datetime (Z.to_nat y) (Z.to_nat m) (Z.to_nat d)
             (Z.to_nat (sod / 3600)) (Z.to_nat ((sod / 60) mod 60))
             (Z.to_nat (sod mod 60)) (Some 0))
  else Raise (OverflowError "date value out of range").

(** [dt.astimezone(timezone.utc)].  A value that already carries the zero
    offset is returned as it is; a naive value is read in the local zone of
    the machine, whose offset is the argument [local_utcoffset]. *)
Definition astimezone_utc (local_utcoffset : datetime → Z) (dt : datetime)
  : result datetime :=
  match tzinfo dt with
  | Some 0 => Ok dt
  | Some off => shift_to_utc dt off
  | None => shift_to_utc dt (local_utcoffset dt)
  end.

(** Helpers of the parser instance [fromisoformat_basic] below. *)
Definition digit_value (c : ascii) : option nat :=
  let n := nat_of_ascii c in
  if ((48 <=? n) && (n <=? 57))%nat then Some (n - 48)%nat else None.

Definition two_digits (s : string) : option (nat * string) :=
  match s with
  | String a (String b rest) =>
      match digit_value a, digit_value b with
      | Some x, Some y => Some ((10 * x + y)%nat, rest)
      | _, _ => None
      end
  | _ => None
  end.

Definition four_digits (s : string) : option (nat * string) :=
  match two_digits s with
  | Some (hi, rest) =>
      match two_digits rest with
      | Some (lo, rest') => Some ((100 * hi + lo)%nat, rest')
      | None => None
      end
  | None => None
  end.

Definition expect (c : ascii) (s : string) : option string :=
  match s with
  | String a rest => if Ascii.eqb a c then Some rest else None
  | EmptyString => None
  end.

Definition is_leap (y : nat) : bool :=
  ((y mod 4 =? 0) && (negb (y mod 100 =? 0) || (y mod 400 =? 0)))%nat.

Definition days_in_month (y m : nat) : nat :=
  match m with
  | 2 => if is_leap y then 29 else 28
  | 4 | 6 | 9 | 11 => 30
  | _ => 31
  end%nat.

(** [HH[:MM[:SS]]] up to the end of the text. *)
Definition parse_hh_mm_ss (s : string) : option (nat * nat * nat) :=
  match two_digits s with
  | None => None
  | Some (hh, EmptyString) => Some (hh, O, O)
  | Some (hh, rest) =>
      match option_bind _ _ two_digits (expect ":" rest) with
      | None => None
      | Some (mm, EmptyString) => Some (hh, mm, O)
      | Some (mm, rest') =>
          match option_bind _ _ two_digits (expect ":" rest') with
          | Some (ss, EmptyString) => Some (hh, mm, ss)
          | _ => None
          end
      end
  end.

(** Split a time text at its first sign character. *)
Fixpoint split_offset (s : string) : string * option (bool * string) :=
  match s with
  | EmptyString => (EmptyString, None)
  | String c rest =>
      if Ascii.eqb c "+" then (EmptyString, Some (false, rest))
      else if Ascii.eqb c "-" then (EmptyString, Some (true, rest))
      else let '(t, o) := split_offset rest in (String c t, o)
  end.

Definition valid_time (t : nat * nat * nat) : bool :=
  let '(h, m, s) := t in ((h <? 24) && (m <? 60) && (s <? 60))%nat.

(** An instance of [datetime.fromisoformat] for running examples: the
    grammar [YYYY-MM-DD[*HH[:MM[:SS]][(+|-)HH:MM[:SS]]]] with range checks,
    which every version of the library accepts with these fields.  The
    library accepts more (fractions of a second, and further ISO 8601 forms
    from Python 3.11 on); this instance rejects them.  [_iso_to_display]
    never looks inside the parser it is given. *)
Definition fromisoformat_basic (s : string) : result datetime :=
  let bad := Raise (ValueError "Invalid isoformat string") in
  match four_digits s with
  | None => bad
  | Some (y, s1) =>
  match option_bind _ _ two_digits (expect "-" s1) with
  | None => bad
  | Some (m, s2) =>
  match option_bind _ _ two_digits (expect "-" s2) with
  | None => bad
  | Some (d, s3) =>
      if negb ((1 <=? y) && (1 <=? m) && (m <=? 12) && (1 <=? d)
               && (d <=? days_in_month y m))%nat then bad
      else
        match s3 with
        | EmptyString => Ok (mk_datetime y m d O O O None)
        | String _ tstr =>
            let '(clock, off) := split_offset tstr in
            match parse_hh_mm_ss clock with
            | None => bad
            | Some (hh, mm, ss) =>
                if negb (valid_time (hh, mm, ss)) then bad
                else
                  match off with
                  | None => Ok (mk_datetime y m d hh mm ss None)
                  | Some (neg, ostr) =>
                      match parse_hh_mm_ss ostr with
                      | None => bad
                      | Some (oh, om, os) =>
                          if negb (valid_time (oh, om, os)
                                   && (5 <=? String.length ostr)%nat) then bad
                          else
                            let secs := Z.of_nat (oh * 3600 + om * 60 + os) in
                            Ok (mk_datetime y m d hh mm ss
                                  (Some (if neg then - secs else secs)))
                      end
                  end
            end
        end
  end end end.

(** ** The HTTP collaborator ([requests]) *)

Record request : Type := mk_request {
  url : string;
  headers : gmap string string;
  params : option dict;      (* query parameters of a GET *)
  body : option pyval        (* JSON body of a POST *)
}.

(** A [requests.Response]; [json = None] is a body that [r.json()] cannot
    decode. *)
Record response : Type := mk_response {
  ok : bool;
  status_code : Z;
  text : string;
  json : option pyval
}.

Definition response_json (r : response) : result pyval :=
  match json r with
  | Some v => Ok v
  | None => Raise JSONDecodeError
  end.

(** [v.get(k, dflt)] on a decoded JSON value: only a [dict] has [get]. *)
Definition py_get (v : pyval) (k : string) (dflt : pyval) : result pyval :=
  match v with
  | PDict d => Ok (dict_get_or d k dflt)
  | _ => Raise (AttributeError "get")
  end.

(** [v[0]]. *)
Definition py_first (v : pyval) : result pyval :=
  match v with
  | PList (x :: _) => Ok x
  | PList [] => Raise (IndexError "list index out of range")
  | PStr (String c _) => Ok (PStr (String c EmptyString))
  | PStr EmptyString => Raise (IndexError "string index out of range")
  | PDict _ => Raise (KeyError (PInt 0))
  | _ => Raise (TypeError "object is not subscriptable")
  end.

(** [v["k"]]. *)
Definition py_item (v : pyval) (k : string) : result pyval :=
  match v with
  | PDict d => dict_item d k
  | PList _ => Raise (TypeError "list indices must be integers")
  | PStr _ => Raise (TypeError "string indices must be integers")
  | _ => Raise (TypeError "object is not subscriptable")
  end.

(** [vals[0]["id"] if vals else None], the last line of both folder
    resolvers. *)
Definition first_id_or_none (vals : pyval) : result pyval :=
  if truthy vals
  then do first <- py_first vals; py_item first "id"
  else Ok PNone.

(** [vals = data.get("value", [])] and the line after it. *)
Definition first_folder_id (data : pyval) : result pyval :=
  do vals <- py_get data "value" (PList []);
  first_id_or_none vals.

(** The query of the folder lookup:
    [{"$filter": f"displayName eq '{safe}'", "$top": 10}]. *)
Definition folder_query (safe : string) : dict :=
  {[ "$filter" := PStr ("displayName eq '" +:+ safe +:+ "'");
     "$top" := PInt 10 ]}.

(** ** The MSAL collaborator and the device-code loop *)

(** What a [msal.PublicClientApplication] built for one authority answers.
    [inl e] is a call that raises an exception whose text is [e].  The
    dictionaries MSAL returns are read only at string-valued keys. *)
Record msal_app : Type := mk_msal_app {
  get_accounts : list pyval;
  acquire_token_silent : string + option (gmap string string);
  initiate_device_flow : string + gmap string string;
  acquire_token_by_device_flow : gmap string string → gmap string string
}.

(** What the run does to the outside, in order. *)
Inductive event : Type :=
  | Print (line : string)
  | GetAccounts (authority : string)
  | AcquireTokenSilent (authority : string)
  | InitiateDeviceFlow (authority : string)
  | AcquireTokenByDeviceFlow (authority : string).

(** How one pass through the body of [for authority in AUTHORITIES] ends:
    [return], falling through or [continue] with [last_error_detail] set,
    or an exception that nothing catches. *)
Inductive pass_end : Type :=
  | Return (token : string)
  | Next (last_error_detail : string)
  | Uncaught (e : exn).

(** [f"{x}"] for the result of a [dict.get]. *)
Definition fmt_opt (x : option string) : string := default "None" x.

(** [x or dflt] for an optional string: [None] and the empty string both
    give way to [dflt]. *)
Definition opt_or (x : option string) (dflt : string) : string :=
  match x with
  | Some (String c s) => String c s
  | _ => dflt
  end.

(** [d.get(k) or dflt] for string values. *)
Definition get_or (d : gmap string string) (k dflt : string) : string :=
  opt_or (d !! k) dflt.

(** The silent attempt: [Some token] when it returns. *)
Definition silent_attempt (authority : string) (app : msal_app)
  : list event * option string :=
  match get_accounts app with
  | [] => ([], None)
  | _ :: _ =>
      match acquire_token_silent app with
      | inr (Some r) =>
          match r !! "access_token" with
          | Some token =>
              ([AcquireTokenSilent authority; Print "Got cached token."],
               Some token)
          | None => ([AcquireTokenSilent authority], None)
          end
      | inr None => ([AcquireTokenSilent authority], None)
      | inl e =>
          ([AcquireTokenSilent authority;
            Print ("Silent token attempt failed: " +:+ e)], None)
      end
  end.

(** The device-code part of the loop body. *)
Definition device_attempt (authority : string) (app : msal_app)
  : list event * pass_end :=
  match initiate_device_flow app with
  | inl e =>
      ([InitiateDeviceFlow authority; Print ("Device flow init error: " +:+ e)],
       Next ("initiate_device_flow exception: " +:+ e))
  | inr flow =>
      match flow !! "user_code" with
      | None =>
          let err := get_or flow "error" "unknown_error" in
          let desc := get_or flow "error_description" "No description" in
          ([InitiateDeviceFlow authority;
            Print ("Device flow init response error — " +:+ err +:+ ": " +:+ desc)],
           Next (err +:+ ": " +:+ desc))
      | Some _ =>
          match flow !! "message" with
          | None => ([InitiateDeviceFlow authority], Uncaught (KeyError (PStr "message")))
          | Some message =>
              let res := acquire_token_by_device_flow app flow in
              match res !! "access_token" with
              | Some token =>
                  ([InitiateDeviceFlow authority; Print message;
                    AcquireTokenByDeviceFlow authority; Print "Token acquired."],
                   Return token)
              | None =>
                  let err := fmt_opt (res !! "error") in
                  let desc := fmt_opt (res !! "error_description") in
                  ([InitiateDeviceFlow authority; Print message;
                    AcquireTokenByDeviceFlow authority;
                    Print ("Device flow acquisition failed — " +:+ err +:+ ": " +:+ desc)],
                   Next (err +:+ ": " +:+ desc))
              end
          end
      end
  end.

(** One pass through the loop body (graph_demo.py lines 133-172,
    create_test_emails.py lines 34-74: the same statements). *)
Definition try_authority (msal : string → msal_app) (authority : string)
  : list event * pass_end :=
  let app := msal authority in
  let '(ev_silent, cached) := silent_attempt authority app in
  let opening := Print ("Trying authority: " +:+ authority)
                 :: GetAccounts authority :: ev_silent in
  match cached with
  | Some token => (opening, Return token)
  | None =>
      let '(ev_device, e) := device_attempt authority app in
      (opening ++ ev_device, e)
  end.

(** How the whole loop ends. *)
Inductive loop_end : Type :=
  | Returned (token : string)
  | Exhausted (last_error_detail : option string)
  | Failed (e : exn).

(** [for authority in authorities: ...], with [last_error_detail] carried
    from pass to pass. *)
Fixpoint device_code_loop (msal : string → msal_app) (authorities : list string)
    (last_error_detail : option string) : list event * loop_end :=
  match authorities with
  | [] => ([], Exhausted last_error_detail)
  | authority :: rest =>
      let '(ev, e) := try_authority msal authority in
      match e with
      | Return token => (ev, Returned token)
      | Uncaught x => (ev, Failed x)
      | Next detail =>
          let '(ev', e') := device_code_loop msal rest (Some detail) in
          (ev ++ ev', e')
      end
  end.

(** [for x in xs: out.append(f(x))], stopping at the first exception. *)
Fixpoint map_result {A B : Type} (f : A → result B) (xs : list A)
  : result (list B) :=
  match xs with
  | [] => Ok []
  | x :: rest => do y <- f x; do ys <- map_result f rest; Ok (y :: ys)
  end.


(** ** graph_demo.py *)

Module graph_demo.

Definition CLIENT_ID : string := "0ade3d5c-b527-46ad-adac-af00003a111b".
Definition AUTHORITIES : list string :=
  [ "https://login.microsoftonline.com/consumers";
    "https://login.microsoftonline.com/common" ].
Definition SCOPES : list string := [ "User.Read"; "Mail.ReadWrite" ].
Definition GRAPH : string := "https://graph.microsoft.com/v1.0".
Definition DEMO_FOLDER_NAME : string := "DEMO for PNC".
Definition TOP : Z := 50.
Definition TEMPLATE_FILE : string := "dashboard_template.html".
Definition OUT_FILE : string := "dashboard.html".

(** Lines 38-40: what [_graph_get] makes of the response [r]. *)
Definition graph_reply (path : string) (r : response) : result pyval :=
  if negb (ok r)
  then Raise (RuntimeError ("GET " +:+ path +:+ " failed ("
                            +:+ str_of_int (status_code r) +:+ "): " +:+ text r))
  else response_json r.

Section http.
Variable http_get : request → response.

Definition _graph_get (path : string) (hdrs : gmap string string)
    (prms : option dict) : result pyval :=
  graph_reply path (http_get (mk_request (GRAPH +:+ path) hdrs prms None)).

Definition _get_me (hdrs : gmap string string) : result pyval :=
  _graph_get "/me" hdrs None.

Definition _find_mail_folder_id (hdrs : gmap string string)
    (display_name : string) : result pyval :=
  let safe := replace "'" "''" display_name in
  do data <- _graph_get "/me/mailFolders" hdrs (Some (folder_query safe));
  first_folder_id data.

Definition _list_messages (hdrs : gmap string string) (folder_id : string)
    (top : Z) : result pyval :=
  let prms : dict :=
    {[ "$top" := PInt (Z.min top 100);
       "$select" := PStr "id,subject,from,receivedDateTime,hasAttachments,conversationId";
       "$orderby" := PStr "receivedDateTime desc" ]} in
  do data <- _graph_get ("/me/mailFolders/" +:+ folder_id +:+ "/messages")
               hdrs (Some prms);
  py_get data "value" (PList []).
End http.

(** [v.lower()] for the case mapping [lower] of [str]. *)
Definition str_lower (lower : string → string) (v : pyval) : result string :=
  match v with
  | PStr s => Ok (lower s)
  | _ => Raise (AttributeError "lower")
  end.

Definition FILED_KEYWORDS : list string :=
  [ "quote"; "policy"; "binder"; "endorsement" ].

(** [(msg.get("subject") or "").lower()]. *)
Definition lowered_subject (lower : string → string) (msg : dict)
  : result string :=
  str_lower lower (py_or (dict_get msg "subject") (PStr "")).

Definition _classify (lower : string → string) (msg : dict) : result string :=
  do subject <- lowered_subject lower msg;
  let has_attach := truthy (dict_get msg "hasAttachments") in
  if existsb (fun k => contains k subject) FILED_KEYWORDS then Ok "filed"
  else if has_attach || contains "claim" subject then Ok "triage"
  else Ok "skipped".

(** [s.replace("Z", "+00:00")] on a value that may not be a [str]. *)
Definition replace_z (s : pyval) : result string :=
  match s with
  | PStr t => Ok (replace "Z" "+00:00" t)
  | _ => Raise (AttributeError "replace")
  end.

(** [fromisoformat] and [astimezone] are the two [datetime] methods the
    function calls; [except Exception] turns any exception of the [try]
    block into [return s]. *)
Definition _iso_to_display (fromisoformat : string → result datetime)
    (astimezone : datetime → result datetime) (s : pyval) : pyval :=
  if negb (truthy s) then PStr ""
  else
    match (do t <- replace_z s;
           do dt <- fromisoformat t;
           do utc <- astimezone dt;
           Ok (strftime_minutes utc)) with
    | Ok shown => PStr shown
    | Raise _ => s
    end.

(** [{"filed": "Filed", "triage": "Triage", "skipped": "Skipped"}[status]]. *)
Definition STATUS_LABELS : gmap string string :=
  {[ "filed" := "Filed"; "triage" := "Triage"; "skipped" := "Skipped" ]}.

Definition status_label_of (status : pyval) : result string :=
  match status with
  | PStr s =>
      match STATUS_LABELS !! s with
      | Some label => Ok label
      | None => Raise (KeyError status)
      end
  | PList _ | PDict _ => Raise (TypeError "unhashable type")
  | _ => Raise (KeyError status)
  end.

(** One iteration of the row loop (lines 100-108). *)
Definition row_html (folder_display : string) (m : dict) : result string :=
  do status <- dict_item m "status";
  do status_label <- status_label_of status;
  do c_status <- html_escape (PStr status_label);
  do c_subject <- html_escape (dict_get_or m "subject" (PStr ""));
  do c_dir <- html_escape (dict_get_or m "filed_dir" (PStr folder_display));
  do c_time <- html_escape (dict_get_or m "timestamp" (PStr ""));
  Ok ("<tr>"
      +:+ "<td class='p-4'><span class='status-badge inline-block px-2 py-1 rounded-full text-xs bg-gray-100'>"
      +:+ c_status +:+ "</span></td>"
      +:+ "<td class='p-4'>" +:+ c_subject +:+ "</td>"
      +:+ "<td class='p-4'>" +:+ c_dir +:+ "</td>"
      +:+ "<td class='p-4'>" +:+ c_time +:+ "</td>"
      +:+ "</tr>").

Definition NO_ROWS : string :=
  "<tr><td colspan='4' class='text-center text-gray-500 py-4'>No emails were processed.</td></tr>".

(** Lines 98-112: the rows, or the placeholder row when there are none. *)
Definition rows_block (messages : list dict) (folder_display : string)
  : result string :=
  do rows_html <- map_result (row_html folder_display) messages;
  match rows_html with
  | [] => Ok NO_ROWS
  | _ :: _ => Ok (join newline rows_html)
  end.

Definition RUN_TIME_MARK : string := "{RUN_TIME}".
Definition REPORT_DATA_MARK : string := "<!-- REPORT_DATA -->".

(** Lines 117-118: the two substitutions, the run time first. *)
Definition fill_template (tpl stamp rows : string) : string :=
  replace REPORT_DATA_MARK rows (replace RUN_TIME_MARK stamp tpl).

(** Lines 114-118: the template is read, then filled in. *)
Definition filled_template (stored : string) (now : datetime) (rows : string)
  : result string :=
  do tpl <- read_text stored;
  Ok (fill_template tpl (strftime_seconds now) rows).

(** The file system is a map from path to bytes; [now] is what
    [datetime.now(timezone.utc)] returns during the run and [linesep] is
    [os.linesep].  The result is how the call ends and the file system it
    leaves (the viewer that is opened last leaves no trace in it).
    [open(OUT_FILE, "w")] empties the file before anything is written to
    it: a text that cannot be encoded leaves it empty. *)
Definition render_tailwind_dashboard (linesep : string)
    (fs : gmap string string) (now : datetime)
    (messages : list dict) (folder_display : string)
  : result unit * gmap string string :=
  match fs !! TEMPLATE_FILE with
  | None =>
      (Raise (FileNotFoundError ("Template not found: " +:+ TEMPLATE_FILE)), fs)
  | Some stored =>
      match (do rows <- rows_block messages folder_display;
             filled_template stored now rows) with
      | Raise e => (Raise e, fs)
      | Ok tpl =>
          match write_text linesep tpl with
          | Raise e => (Raise e, <[OUT_FILE := EmptyString]> fs)
          | Ok written => (Ok tt, <[OUT_FILE := written]> fs)
          end
      end
  end.

(** The text of the [RuntimeError] raised after the loop. *)
Definition failure_message (last_error_detail : option string) : string :=
  "Failed to create/complete device flow. "
  +:+ "Details: " +:+ opt_or last_error_detail "no additional info"
  +:+ newline +:+ newline
  +:+ "Fix checklist:" +:+ newline
  +:+ "  1) Azure App Registration > Authentication: 'Allow public client flows' = Yes" +:+ newline
  +:+ "  2) Supported account types include Personal Microsoft accounts (MSA)" +:+ newline
  +:+ "  3) CLIENT_ID matches the configured app" +:+ newline
  +:+ "  4) SCOPES are delegated Graph scopes only: ['User.Read', 'Mail.ReadWrite']".

Definition acquire_token_from (msal : string → msal_app)
    (authorities : list string) : list event * result string :=
  let '(ev, e) := device_code_loop msal authorities None in
  match e with
  | Returned token => (ev, Ok token)
  | Failed x => (ev, Raise x)
  | Exhausted last => (ev, Raise (RuntimeError (failure_message last)))
  end.

Definition acquire_token_with_diagnostics (msal : string → msal_app)
  : list event * result string :=
  acquire_token_from msal AUTHORITIES.

(** The dashboard row [main] builds for one fetched message
    (lines 207-213). *)
Definition dashboard_row (lower : string → string)
    (fromisoformat : string → result datetime)
    (astimezone : datetime → result datetime) (m : dict) : result dict :=
  do status <- _classify lower m;
  Ok ({[ "status" := PStr status;
         "subject" := py_or (dict_get m "subject") (PStr "");
         "filed_dir" := PStr DEMO_FOLDER_NAME;
         "timestamp" := _iso_to_display fromisoformat astimezone
                          (dict_get m "receivedDateTime") ]} : dict).

End graph_demo.

(** ** create_test_emails.py *)

Module create_test_emails.

Definition CLIENT_ID : string := "0ade3d5c-b527-46ad-adac-af00003a111b".
Definition AUTHORITIES : list string :=
  [ "https://login.microsoftonline.com/consumers";
    "https://login.microsoftonline.com/common" ].
Definition SCOPES : list string := [ "User.Read"; "Mail.ReadWrite" ].
Definition GRAPH : string := "https://graph.microsoft.com/v1.0".
Definition DEMO_FOLDER_NAME : string := "DEMO for PNC".
Definition CSV_FILE : string := "test_emails.csv".

(** The text of the [RuntimeError] raised after the loop (line 76). *)
Definition failure_message (last_error_detail : option string) : string :=
  "Failed to acquire token. Details: " +:+ fmt_opt last_error_detail.

Definition acquire_token_from (msal : string → msal_app)
    (authorities : list string) : list event * result string :=
  let '(ev, e) := device_code_loop msal authorities None in
  match e with
  | Returned token => (ev, Ok token)
  | Failed x => (ev, Raise x)
  | Exhausted last => (ev, Raise (RuntimeError (failure_message last)))
  end.

Definition acquire_token_with_diagnostics (msal : string → msal_app)
  : list event * result string :=
  acquire_token_from msal AUTHORITIES.

(** Lines 87-90: what [find_mail_folder_id] makes of the response [r]. *)
Definition folder_reply (r : response) : result pyval :=
  if negb (ok r) then Raise (RuntimeError ("Failed to find folder: " +:+ text r))
  else do data <- response_json r; first_folder_id data.

Definition find_mail_folder_id (http_get : request → response)
    (hdrs : gmap string string) (display_name : string) : result pyval :=
  let safe := replace "'" "''" display_name in
  folder_reply (http_get (mk_request (GRAPH +:+ "/me/mailFolders") hdrs
                            (Some (folder_query safe)) None)).

(** A row of [csv.DictReader], and the [email_data] built from it: a field
    is a text, or [None] where the line was too short to have it. *)
Abbreviation csv_row := (gmap string (option string)).

Definition field (d : csv_row) (k : string) : result (option string) :=
  match d !! k with
  | Some v => Ok v
  | None => Raise (KeyError (PStr k))
  end.

Definition json_of (v : option string) : pyval :=
  match v with
  | Some s => PStr s
  | None => PNone
  end.

(** [v + 'T09:00:00Z']. *)
Definition add_time_of_day (v : option string) : result (option string) :=
  match v with
  | Some s => Ok (Some (s +:+ "T09:00:00Z"))
  | None => Raise (TypeError "unsupported operand type(s) for +")
  end.

(** [v[:50]]. *)
Definition first_50 (v : option string) : result string :=
  match v with
  | Some s => Ok (take_str 50 s)
  | None => Raise (TypeError "'NoneType' object is not subscriptable")
  end.

Section remote.
(** The remote mailbox: a state that every POST may change.  A POST is
    answered with a response, or [requests.post] raises (no connection, a
    timeout). *)
Variable remote : Type.
Variable http_post : remote → request → result response * remote.

(** The outcome of a call, the lines it printed and the mailbox after
    it. *)
Definition effect (A : Type) : Type := result A * list string * remote.

Definition create_email_in_folder (hdrs : gmap string string)
    (folder_id : string) (email_data : csv_row) (w : remote) : effect pyval :=
  match
    (do subject <- field email_data "subject";
     do content <- field email_data "body";
     do address <- field email_data "from_email";
     do name <- field email_data "from_name";
     do date <- field email_data "date";
     Ok (PDict
       {[ "subject" := json_of subject;
          "body" := PDict {[ "contentType" := PStr "Text";
                             "content" := json_of content ]};
          "from" := PDict {[ "emailAddress" :=
                     PDict {[ "address" := json_of address;
                              "name" := json_of name ]} ]};
          "receivedDateTime" := json_of date;
          "isDraft" := PBool false ]}))
  with
  | Raise e => (Raise e, [], w)
  | Ok message =>
      let '(answer, w') :=
        http_post w (mk_request (GRAPH +:+ "/me/mailFolders/" +:+ folder_id
                                 +:+ "/messages") hdrs None (Some message)) in
      match answer with
      | Raise e => (Raise e, [], w')
      | Ok r =>
          if ok r then (response_json r, [], w')
          else
            match field email_data "subject" with
            | Raise e => (Raise e, [], w')
            | Ok subject =>
                (Ok PNone,
                 [ "Failed to create email: " +:+ fmt_opt subject;
                   "Error: " +:+ str_of_int (status_code r) +:+ " - " +:+ text r ],
                 w')
            end
      end
  end.

(** The [email_data] of one row (lines 137-143). *)
Definition email_data_of (row : csv_row) : result csv_row :=
  do d <- field row "Date";
  do date <- add_time_of_day d;
  do from_email <- field row "From Email";
  do from_name <- field row "From Name";
  do subject <- field row "Subject";
  do preview <- field row "Email Body Preview";
  Ok ({[ "date" := date; "from_email" := from_email;
         "from_name" := from_name; "subject" := subject;
         "body" := preview ]} : csv_row).

(** The loop over the rows, with the two counters and the printed lines
    so far; an exception ends it. *)
Fixpoint create_rows (hdrs : gmap string string) (folder_id : string)
    (rows : list csv_row) (created_count failed_count : nat)
    (out : list string) (w : remote) : effect (nat * nat) :=
  match rows with
  | [] => (Ok (created_count, failed_count), out, w)
  | row :: rest =>
      match (do email_data <- email_data_of row;
             do subject <- field email_data "subject";
             do head <- first_50 subject;
             Ok (email_data, head)) with
      | Raise e => (Raise e, out, w)
      | Ok (email_data, head) =>
          let out1 := out ++ [ "Creating: " +:+ head +:+ "..." ] in
          let '(res, printed, w') :=
            create_email_in_folder hdrs folder_id email_data w in
          match res with
          | Raise e => (Raise e, out1 ++ printed, w')
          | Ok v =>
              if truthy v
              then create_rows hdrs folder_id rest (S created_count) failed_count
                     (out1 ++ printed ++ [ "  ✓ Created successfully" ]) w'
              else create_rows hdrs folder_id rest created_count (S failed_count)
                     (out1 ++ printed ++ [ "  ✗ Failed" ]) w'
          end
      end
  end.

(** [rows] is what [csv.DictReader] yields for the file at [csv_path]. *)
Definition parse_csv_and_create_emails (rows : list csv_row)
    (hdrs : gmap string string) (folder_id : string) (w : remote)
  : effect (nat * nat) :=
  create_rows hdrs folder_id rows O O [] w.
End remote.

End create_test_emails.

(** ** Reference definitions used to state the properties *)

(** Every single quote written twice, character by character: what the
    specification asks of the folder resolver. *)
Fixpoint double_single_quotes (s : string) : string :=
  match s with
  | EmptyString => EmptyString
  | String c s' =>
      if Ascii.eqb c "'" then String "'" (String "'" (double_single_quotes s'))
      else String c (double_single_quotes s')
  end.

(** Every occurrence of the character [c] replaced by [new]. *)
Fixpoint subst_char (c : ascii) (new s : string) : string :=
  match s with
  | EmptyString => EmptyString
  | String x s' =>
      if Ascii.eqb x c then new +:+ subst_char c new s'
      else String x (subst_char c new s')
  end.

(** The entity [html.escape] writes for one character. *)
Definition escape_char (c : ascii) : string :=
  if Ascii.eqb c "&" then "&amp;"
  else if Ascii.eqb c "<" then "&lt;"
  else if Ascii.eqb c ">" then "&gt;"
  else if Ascii.eqb c "034" then "&quot;"
  else if Ascii.eqb c "'" then "&#x27;"
  else String c EmptyString.

Fixpoint escape_each (s : string) : string :=
  match s with
  | EmptyString => EmptyString
  | String c s' => escape_char c +:+ escape_each s'
  end.

(** [c] does not occur in [s]. *)
Fixpoint lacks (c : ascii) (s : string) : bool :=
  match s with
  | EmptyString => true
  | String a s' => negb (Ascii.eqb a c) && lacks c s'
  end.

Definition is_digit (c : ascii) : bool :=
  let n := nat_of_ascii c in ((48 <=? n) && (n <=? 57))%nat.

(** The shape [YYYY-MM-DD HH:MM UTC]. *)
Definition display_form (s : string) : bool :=
  match s with
  | String y1 (String y2 (String y3 (String y4 (String "-"
      (String m1 (String m2 (String "-" (String d1 (String d2 (String " "
      (String h1 (String h2 (String ":" (String n1 (String n2 " UTC")))))))))))))))
    => forallb is_digit [y1; y2; y3; y4; m1; m2; d1; d2; h1; h2; n1; n2]
  | _ => false
  end.

(** [s.split(sep)] for a non-empty [sep], scanning as [replace_go] does. *)
Definition push_head (c : ascii) (parts : list string) : list string :=
  match parts with
  | [] => [String c EmptyString]
  | p :: rest => String c p :: rest
  end.

Fixpoint split_go (sep : string) (skip : nat) (s : string) : list string :=
  match s with
  | EmptyString => [EmptyString]
  | String c s' =>
      match skip with
      | S k => split_go sep k s'
      | O =>
          if startswith sep s
          then EmptyString :: split_go sep (Nat.pred (String.length sep)) s'
          else push_head c (split_go sep O s')
      end
  end.

Definition split (sep s : string) : list string := split_go sep O s.






(** The pass for [authority] ends without a token and without an
    exception. *)
Definition moves_on (msal : string → msal_app) (authority : string) : Prop :=
  ∃ d, (try_authority msal authority).2 = Next d.

(** A text in which no [<] opens the word [script]: every [<] is followed,
    inside the text, by a character other than [s], or by [s] and then a
    character other than [c]. *)
Definition not_script_start (s : string) : bool :=
  match s with
  | EmptyString => false
  | String c r =>
      if Ascii.eqb c "s"
      then match r with
           | EmptyString => false
           | String d _ => negb (Ascii.eqb d "c")
           end
      else true
  end.

Fixpoint lt_guarded (s : string) : bool :=
  match s with
  | EmptyString => true
  | String c s' =>
      (if Ascii.eqb c "<" then not_script_start s' else true) && lt_guarded s'
  end.

(** A dashboard row as [main] builds it: a status among the three labels,
    and texts (or nothing) in the three other fields. *)
Definition text_or_absent (m : dict) (k : string) : Prop :=
  m !! k = None ∨ ∃ s : string, m !! k = Some (PStr s).

Definition dashboard_row_ok (m : dict) : Prop :=
  (m !! "status" = Some (PStr "filed") ∨ m !! "status" = Some (PStr "triage")
   ∨ m !! "status" = Some (PStr "skipped"))
  ∧ text_or_absent m "subject" ∧ text_or_absent m "filed_dir"
  ∧ text_or_absent m "timestamp".

(** ** The two [main] functions *)

(** [str(v)], as an f-string shows a value.  The text of a list or of a
    dict is the argument [repr]. *)
Definition py_str (repr : pyval → string) (v : pyval) : string :=
  match v with
  | PNone => "None"
  | PBool true => "True"
  | PBool false => "False"
  | PInt z => str_of_int z
  | PStr s => s
  | PList _ | PDict _ => repr v
  end.

(** [len(v)]. *)
Definition py_len (v : pyval) : result nat :=
  match v with
  | PList l => Ok (List.length l)
  | PStr s => Ok (char_count s)
  | PDict d => Ok (size d)
  | _ => Raise (TypeError "object has no len()")
  end.

(** The characters of a text, each a text of its own: a byte that is
    followed by a continuation byte belongs to the character of that
    byte. *)
Fixpoint char_texts (s : string) : list string :=
  match s with
  | EmptyString => []
  | String c s' =>
      let rest := char_texts s' in
      if match s' with
         | String d _ => is_continuation d
         | EmptyString => false
         end
      then push_head c rest
      else String c EmptyString :: rest
  end.

Definition chars_of (s : string) : list pyval := map PStr (char_texts s).

(** What [for m in v] goes through. *)
Definition py_iter (v : pyval) : result (list pyval) :=
  match v with
  | PList l => Ok l
  | PStr s => Ok (chars_of s)
  | PDict d => Ok (map (fun kv => PStr kv.1) (map_to_list d))
  | _ => Raise (TypeError "object is not iterable")
  end.

(** [s * n]. *)
Fixpoint repeat_str (s : string) (n : nat) : string :=
  match n with
  | O => EmptyString
  | S n' => s +:+ repeat_str s n'
  end.

(** What a run of [main] does to the outside, in order. *)
Inductive action : Type :=
  | Say (args : list pyval)      (* a call of print with these arguments *)
  | Msal (e : event)             (* a step of the token acquisition *)
  | Opened (path : string).      (* webbrowser.open of the path *)

(** How [main] ends: it returns, [sys.exit] is called, or an exception
    escapes. *)
Inductive main_end : Type :=
  | Done
  | Exited (code : Z)
  | Crashed (e : exn).

Module graph_demo_main.
Import graph_demo.

(** The body of the loop [for m in msgs] for one element: [_classify] calls
    [m.get], which only a dict has. *)
Definition row_of_message (lower : string → string)
    (fromisoformat : string → result datetime)
    (astimezone : datetime → result datetime) (m : pyval) : result dict :=
  match m with
  | PDict d => dashboard_row lower fromisoformat astimezone d
  | _ => Raise (AttributeError "get")
  end.

(** [me.get("userPrincipalName") or me.get("mail")]. *)
Definition signed_in_as (me : pyval) : result pyval :=
  do a <- py_get me "userPrincipalName" PNone;
  if truthy a then Ok a else py_get me "mail" PNone.

Section run.
Variable repr : pyval → string.
Variable lower : string → string.
Variable fromisoformat : string → result datetime.
Variable astimezone : datetime → result datetime.
Variable msal : string → msal_app.
Variable http_get : request → response.
Variable linesep : string.

(** Lines 186-217.  The result is what the run did, how it ended, and the
    file system it left. *)
Definition main (fs : gmap string string) (now : datetime)
  : list action * main_end * gmap string string :=
  let '(ev, tok) := acquire_token_with_diagnostics msal in
  let t0 := Say [PStr "Starting Microsoft Graph Email Filer Demo..."]
            :: map Msal ev in
  match tok with
  | Raise e => (t0, Crashed e, fs)
  | Ok token =>
  let hdrs : gmap string string := {[ "Authorization" := "Bearer " +:+ token ]} in
  match (do me <- _get_me http_get hdrs; signed_in_as me) with
  | Raise e => (t0, Crashed e, fs)
  | Ok upn =>
  let t1 := t0 ++ [Say [PStr "Signed in as:"; upn]] in
  match _find_mail_folder_id http_get hdrs DEMO_FOLDER_NAME with
  | Raise e => (t1, Crashed e, fs)
  | Ok folder_id =>
  if negb (truthy folder_id)
  then (t1 ++ [Say [PStr ("ERROR: Folder '" +:+ DEMO_FOLDER_NAME
                          +:+ "' not found in your mailbox.")]],
        Exited 1, fs)
  else
  match (do msgs <- _list_messages http_get hdrs (py_str repr folder_id) TOP;
         do n <- py_len msgs;
         Ok (msgs, n)) with
  | Raise e => (t1, Crashed e, fs)
  | Ok (msgs, n) =>
  let t2 := t1 ++ [Say [PStr ("Fetched " +:+ str_of_int (Z.of_nat n)
                              +:+ " message(s).")]] in
  match (do items <- py_iter msgs;
         map_result (row_of_message lower fromisoformat astimezone) items) with
  | Raise e => (t2, Crashed e, fs)
  | Ok messages =>
      let '(res, fs') :=
        render_tailwind_dashboard linesep fs now messages DEMO_FOLDER_NAME in
      match res with
      | Raise e => (t2, Crashed e, fs')
      | Ok _ =>
          (t2 ++ [Opened OUT_FILE;
                  Say [PStr "Dashboard saved to:"; PStr OUT_FILE]],
           Done, fs')
      end
  end end end end end.
End run.

End graph_demo_main.

Module create_test_emails_main.
Import create_test_emails.

Section run.
Variable repr : pyval → string.
Variable msal : string → msal_app.
Variable http_get : request → response.
Variable remote : Type.
Variable http_post : remote → request → result response * remote.

(** Lines 158-189.  [csv_files] gives, for every file that exists, the rows
    [csv.DictReader] reads from it.  The result is what the run did, how it
    ended, and the mailbox it left. *)
Definition main (csv_files : gmap string (list (gmap string (option string))))
    (w : remote) : list action * main_end * remote :=
  let t0 := [Say [PStr ("Starting test email creation…" +:+ newline)]] in
  match csv_files !! CSV_FILE with
  | None =>
      (t0 ++ [Say [PStr ("ERROR: CSV file '" +:+ CSV_FILE +:+ "' not found!")];
              Say [PStr "Please save your CSV file and update the CSV_FILE path in the script."]],
       Done, w)
  | Some rows =>
  let '(ev, tok) := acquire_token_with_diagnostics msal in
  let t1 := t0 ++ map Msal ev in
  match tok with
  | Raise e => (t1, Crashed e, w)
  | Ok token =>
  let hdrs : gmap string string := {[ "Authorization" := "Bearer " +:+ token ]} in
  match find_mail_folder_id http_get hdrs DEMO_FOLDER_NAME with
  | Raise e => (t1, Crashed e, w)
  | Ok folder_id =>
  if negb (truthy folder_id)
  then (t1 ++ [Say [PStr (newline +:+ "ERROR: Folder '" +:+ DEMO_FOLDER_NAME
                          +:+ "' not found!")];
               Say [PStr "Please create this folder in Outlook first."]],
        Done, w)
  else
  let t2 := t1 ++ [Say [PStr (newline +:+ "Found folder: " +:+ DEMO_FOLDER_NAME)];
                   Say [PStr ("Reading CSV: " +:+ CSV_FILE +:+ newline)]] in
  let '(res, out, w') :=
    parse_csv_and_create_emails remote http_post rows hdrs
      (py_str repr folder_id) w in
  let t3 := t2 ++ map (fun line => Say [PStr line]) out in
  match res with
  | Raise e => (t3, Crashed e, w')
  | Ok (created, failed) =>
      (t3 ++ [Say [PStr (newline +:+ repeat_str "=" 50)];
              Say [PStr "COMPLETE!"];
              Say [PStr ("  Created: " +:+ str_of_int (Z.of_nat created) +:+ " emails")];
              Say [PStr ("  Failed:  " +:+ str_of_int (Z.of_nat failed) +:+ " emails")];
              Say [PStr (repeat_str "=" 50)]],
       Done, w')
  end end end end.
End run.

End create_test_emails_main.

(** ** Further reference definitions *)

(** A field that is a text, or falsy (absent, [None], an empty value). *)
Definition text_or_falsy (m : dict) (k : string) : Prop :=
  match m !! k with
  | Some v => truthy v = false ∨ ∃ s : string, v = PStr s
  | None => True
  end.

(** Reading an OData string literal from just after its opening quote: two
    quotes in a row stand for one quote of the text, a single quote closes
    the literal.  The result is the text and what follows the closing
    quote. *)
Fixpoint read_literal (s : string) : option (string * string) :=
  match s with
  | EmptyString => None
  | String c s' =>
      if Ascii.eqb c "'"
      then match s' with
           | String d s'' =>
               if Ascii.eqb d "'"
               then match read_literal s'' with
                    | Some (t, rest) => Some (String "'" t, rest)
                    | None => None
                    end
               else Some (EmptyString, s')
           | EmptyString => Some (EmptyString, EmptyString)
           end
      else match read_literal s' with
           | Some (t, rest) => Some (String c t, rest)
           | None => None
           end
  end.

(** The calls to MSAL among the events of a run, and the calls one
    authority can receive, in the order the loop body makes them. *)
Definition is_call (e : event) : bool :=
  match e with
  | Print _ => false
  | _ => true
  end.

Definition calls (ev : list event) : list event := List.filter is_call ev.

Definition protocol (authority : string) : list event :=
  [ GetAccounts authority; AcquireTokenSilent authority;
    InitiateDeviceFlow authority; AcquireTokenByDeviceFlow authority ].

(** [token] is an access token MSAL handed out for [authority]: silently,
    or at the end of the device flow it started. *)
Definition issued (msal : string → msal_app) (authority token : string) : Prop :=
  (∃ r : gmap string string,
     acquire_token_silent (msal authority) = inr (Some r)
     ∧ r !! "access_token" = Some token)
  ∨ (∃ flow : gmap string string,
       initiate_device_flow (msal authority) = inr flow
       ∧ acquire_token_by_device_flow (msal authority) flow !! "access_token"
         = Some token).




(** The authorities whose cached accounts a run looked up, in order. *)
Definition lookups (ev : list event) : list string :=
  omap (fun e => match e with GetAccounts a => Some a | _ => None end) ev.

(** The text Graph sends for an instant, [YYYY-MM-DDTHH:MM:SSZ], and the
    conditions under which the fields of a [datetime] denote an instant. *)
Definition date_text (dt : datetime) : string :=
  pad4 (year dt) +:+ "-" +:+ pad2 (month dt) +:+ "-" +:+ pad2 (day dt).

Definition clock_text (dt : datetime) : string :=
  pad2 (hour dt) +:+ ":" +:+ pad2 (minute dt) +:+ ":" +:+ pad2 (second dt).

Definition graph_timestamp (dt : datetime) : string :=
  date_text dt +:+ "T" +:+ clock_text dt +:+ "Z".

Definition valid_fields (dt : datetime) : Prop :=
  (1000 ≤ year dt < 100 * 100 ∧ 1 ≤ month dt ≤ 12
   ∧ 1 ≤ day dt ≤ days_in_month (year dt) (month dt)
   ∧ hour dt < 24 ∧ minute dt < 60 ∧ second dt < 60)%nat.

(** ** Reference definitions for the seed file and for text files *)





(** [s[k:]] in bytes. *)
Fixpoint drop_str (k : nat) (s : string) : string :=
  match k, s with
  | S k', String _ s' => drop_str k' s'
  | _, _ => s
  end.

(** Every byte of the text is an ASCII character. *)
Fixpoint is_ascii (s : string) : bool :=
  match s with
  | EmptyString => true
  | String c s' => byte_in 0 127 c && is_ascii s'
  end.

(** ** Sample inputs *)

Definition msg_demo : dict :=
  {[ "subject" := PStr "Claim on Policy 7"; "hasAttachments" := PBool true;
     "conversationId" := PStr "c-1" ]}.

Definition msg_no_subject : dict :=
  {[ "hasAttachments" := PBool true; "from" := PStr "a@example.com" ]}.

Definition msg_lunch : dict :=
  {[ "subject" := PStr "Lunch next week"; "hasAttachments" := PBool false ]}.

Definition msg_claim_form : dict :=
  {[ "subject" := PStr "Claim form"; "hasAttachments" := PBool false ]}.

Definition msg_a : dict :=
  {[ "subject" := PStr "Claim Documents"; "hasAttachments" := PBool true;
     "from" := PStr "adjuster@example.com";
     "receivedDateTime" := PStr "2024-01-15T09:30:00Z";
     "conversationId" := PStr "c-17" ]}.

Definition msg_b : dict :=
  {[ "subject" := PStr "Claim Documents"; "hasAttachments" := PBool true;
     "from" := PStr "someone.else@example.org";
     "receivedDateTime" := PStr "2023-06-01T18:00:00Z" ]}.

Definition two_folders : pyval :=
  PDict {[ "value" := PList [ PDict {[ "id" := PStr "AAMk-first" ]};
                              PDict {[ "id" := PStr "AAMk-second" ]} ] ]}.

Definition no_folders : pyval := PDict {[ "value" := PList [] ]}.

Definition http_answers (v : pyval) : request → response :=
  fun _ => mk_response true 200 "" (Some v).

Definition seed_row_1 : gmap string (option string) :=
  {[ "Date" := Some "2024-01-15"; "From Email" := Some "agent@example.com";
     "From Name" := Some "Agent"; "Subject" := Some "Auto Policy Renewal Quote";
     "Email Body Preview" := Some "Please find the quote attached." ]}.

Definition seed_row_2 : gmap string (option string) :=
  {[ "Date" := Some "2024-01-16"; "From Email" := Some "claims@example.com";
     "From Name" := Some "Claims"; "Subject" := Some "Claim Documents";
     "Email Body Preview" := Some "Documents for the claim." ]}.

Definition seed_row_3 : gmap string (option string) :=
  {[ "Date" := Some "2024-01-17"; "From Email" := Some "friend@example.com";
     "From Name" := Some "Friend"; "Subject" := Some "Lunch next week";
     "Email Body Preview" := Some "Are you free on Tuesday?" ]}.

(** A line of the seed file that stops after the subject: the reader
    fills the preview with [None]. *)
Definition row_without_preview : gmap string (option string) :=
  {[ "Date" := Some "2024-01-16"; "From Email" := Some "claims@example.com";
     "From Name" := Some "Claims"; "Subject" := Some "Claim Documents";
     "Email Body Preview" := None ]}.

(** A mailbox that counts the requests it has seen and refuses every second
    one. *)
Definition flaky_post (seen : nat) (q : request) : result response * nat :=
  (if Nat.even seen
   then Ok (mk_response true 201 "" (Some (PDict {[ "id" := PStr "AAMk-new" ]})))
   else Ok (mk_response false 503 "Service Unavailable" None),
   S seen).



(** Three MSAL worlds.  In the first a cached account answers silently at
    the first authority; in the second the first authority refuses the
    device flow and the second completes it; in the third both refuse. *)
Definition refusing_app : msal_app :=
  mk_msal_app [] (inr None)
    (inr {[ "error" := "invalid_client";
            "error_description" := "AADSTS7000218: client_secret required" ]})
    (fun _ => ∅).

Definition msal_cached (authority : string) : msal_app :=
  mk_msal_app [PDict {[ "username" := PStr "user@outlook.com" ]}]
    (inr (Some {[ "access_token" := "tok-cached" ]}))
    (inl "network unreachable")
    (fun _ => ∅).

Definition msal_second (authority : string) : msal_app :=
  if String.eqb authority "https://login.microsoftonline.com/consumers"
  then refusing_app
  else mk_msal_app [] (inr None)
         (inr {[ "user_code" := "ABCD1234";
                 "message" := "Open https://www.microsoft.com/link and enter code ABCD1234" ]})
         (fun _ => {[ "access_token" := "tok-device" ]}).

Definition msal_refusing (authority : string) : msal_app := refusing_app.

(** The clock of a machine that runs one hour ahead of UTC. *)
Definition one_hour_east (dt : datetime) : Z := 3600.

Definition row_with_script : dict :=
  {[ "status" := PStr "triage"; "subject" := PStr "<script>alert(1)</script>";
     "timestamp" := PStr "2024-01-15 09:30 UTC" ]}.

Definition fs_with_template : gmap string string :=
  {[ "dashboard_template.html" :=
       "<h1>Run {RUN_TIME}</h1><table><!-- REPORT_DATA --></table><p>{RUN_TIME}</p>" ]}.

Definition run_at_noon : datetime := mk_datetime 2026 11 3 12 0 0 (Some 0).
Definition run_at_night : datetime := mk_datetime 2026 11 3 23 59 58 (Some 0).

(** ** More sample inputs *)

Definition http_refuses : request → response :=
  fun _ => mk_response false 403 "Access is denied." None.

(** An MSAL world whose device-flow answer has a user code but no message
    to show. *)
Definition msal_mute (authority : string) : msal_app :=
  mk_msal_app [] (inr None) (inr {[ "user_code" := "ABCD1234" ]})
    (fun _ => {[ "access_token" := "tok-device" ]}).


Definition fs_without_marker : gmap string string :=
  {[ "dashboard_template.html" := "<h1>Run {RUN_TIME}</h1><table></table>" ]}.

(** A Graph that answers the three reads of [graph_demo.py]: the profile,
    the folder lookup (one folder) and the message list (two messages). *)
Definition graph_answers (q : request) : response :=
  if String.eqb (url q) "https://graph.microsoft.com/v1.0/me"
  then mk_response true 200 ""
         (Some (PDict {[ "userPrincipalName" := PStr "user@outlook.com" ]}))
  else if String.eqb (url q) "https://graph.microsoft.com/v1.0/me/mailFolders"
  then mk_response true 200 "" (Some two_folders)
  else mk_response true 200 ""
         (Some (PDict {[ "value" := PList [PDict msg_a; PDict msg_lunch] ]})).

(** The same Graph, except that it knows no folder of the name. *)
Definition graph_without_folder (q : request) : response :=
  if String.eqb (url q) "https://graph.microsoft.com/v1.0/me/mailFolders"
  then mk_response true 200 "" (Some no_folders)
  else graph_answers q.

Definition no_repr (v : pyval) : string := "".

(** A Graph that differs from [graph_answers] on a resource the script
    never reads. *)
Definition graph_answers_elsewhere (q : request) : response :=
  if String.eqb (url q) "https://graph.microsoft.com/v1.0/me/messages"
  then mk_response false 500 "unavailable" None
  else graph_answers q.

Definition csv_on_disk : gmap string (list (gmap string (option string))) :=
  {[ "test_emails.csv" := [seed_row_1; seed_row_2; seed_row_3] ]}.

(** A template stored with [\r\n] line ends. *)
Definition fs_crlf_template : gmap string string :=
  {[ "dashboard_template.html" :=
       "<h1>Report</h1>" +:+ carriage_return +:+ newline
       +:+ "<p>{RUN_TIME}</p>" +:+ carriage_return +:+ newline ]}.

(** A subject with a lone surrogate in it (the bytes [ED A0 80]), as
    [json.loads] makes of the escape [\ud800], in a row for the
    dashboard. *)
Definition row_with_surrogate : dict :=
  {[ "status" := PStr "skipped";
     "subject" := PStr ("Re: " +:+ String "237" (String "160" (String "128" EmptyString)));
     "timestamp" := PStr "2024-01-15 09:30 UTC" ]}.

(** A Graph whose folder holds one message with such a subject. *)
Definition graph_with_surrogate (q : request) : response :=
  if String.eqb (url q) "https://graph.microsoft.com/v1.0/me"
  then mk_response true 200 ""
         (Some (PDict {[ "userPrincipalName" := PStr "user@outlook.com" ]}))
  else if String.eqb (url q) "https://graph.microsoft.com/v1.0/me/mailFolders"
  then mk_response true 200 "" (Some two_folders)
  else mk_response true 200 ""
         (Some (PDict {[ "value" :=
            PList [PDict {[ "subject" :=
                     PStr ("Re: " +:+ String "237" (String "160" (String "128" EmptyString)));
                   "receivedDateTime" := PStr "2024-01-15T09:30:00Z" ]}] ]})).

(** * Facts about the [str] operations *)

Lemma app_cons (c : ascii) (s t : string) : String c s +:+ t = String c (s +:+ t).
Proof. reflexivity. Qed.

Lemma app_empty_l (s : string) : EmptyString +:+ s = s.
Proof. reflexivity. Qed.

Lemma app_empty_r (s : string) : s +:+ EmptyString = s.
Proof. induction s as [|c s IH]; [reflexivity|]. rewrite app_cons. by rewrite IH. Qed.

Lemma app_assoc_str (a b c : string) : (a +:+ b) +:+ c = a +:+ (b +:+ c).
Proof.
  induction a as [|x a IH]; [reflexivity|].
  rewrite !app_cons. by rewrite IH.
Qed.

Lemma app_length_str (a b : string) :
  String.length (a +:+ b) = (String.length a + String.length b)%nat.
Proof. induction a as [|x a IH]; [reflexivity|]. rewrite app_cons. simpl. by rewrite IH. Qed.

Lemma startswith_empty (s : string) : startswith EmptyString s = true.
Proof. by destruct s. Qed.

Lemma startswith_iff (p s : string) :
  startswith p s = true ↔ ∃ t, s = p +:+ t.
Proof.
  revert s. induction p as [|a p IH]; intros s.
  - rewrite startswith_empty. split; [intros _; by exists s | done].
  - destruct s as [|b s]; simpl.
    + split; [done | intros [t Ht]; discriminate].
    + rewrite andb_true_iff, Ascii.eqb_eq, IH. split.
      * intros [-> [t ->]]. by exists t.
      * intros [t Ht]. rewrite app_cons in Ht. injection Ht as -> ->. eauto.
Qed.

Lemma contains_iff (needle hay : string) :
  contains needle hay = true ↔ ∃ a b, hay = a +:+ needle +:+ b.
Proof.
  induction hay as [|c hay IH]; simpl.
  - rewrite startswith_iff. split.
    + intros [t Ht]. exists EmptyString, t. done.
    + intros ([|x a] & b & H); [|discriminate].
      rewrite app_empty_l in H. eauto.
  - rewrite orb_true_iff, IH, startswith_iff. split.
    + intros [[t Ht] | (a & b & ->)].
      * exists EmptyString, t. done.
      * exists (String c a), b. done.
    + intros ([|x a] & b & H).
      * left. exists b. done.
      * right. rewrite app_cons in H. injection H as -> ->. eauto.
Qed.

(** * The classifier *)

Section classifier.
Import graph_demo.
Variable lower : string → string.

Lemma subject_of_str (msg : dict) (subj : string) :
  msg !! "subject" = Some (PStr subj) →
  py_or (dict_get msg "subject") (PStr "") = PStr subj.
Proof.
  intros H. unfold dict_get, py_or. rewrite H. simpl.
  by destruct subj.
Qed.

Lemma subject_missing (msg : dict) :
  msg !! "subject" = None ∨ msg !! "subject" = Some PNone →
  py_or (dict_get msg "subject") (PStr "") = PStr "".
Proof. intros [H | H]; unfold dict_get, py_or; by rewrite H. Qed.

Lemma classify_filed (msg : dict) (subject : string) :
  lowered_subject lower msg = Ok subject →
  existsb (fun k => contains k subject) FILED_KEYWORDS = true →
  _classify lower msg = Ok "filed".
Proof. intros Hs Hk. unfold _classify, bind. by rewrite Hs, Hk. Qed.

Lemma classify_not_filed (msg : dict) (subject : string) :
  lowered_subject lower msg = Ok subject →
  existsb (fun k => contains k subject) FILED_KEYWORDS = false →
  _classify lower msg =
    Ok (if truthy (dict_get msg "hasAttachments") || contains "claim" subject
        then "triage" else "skipped").
Proof.
  intros Hs Hk. unfold _classify, bind. rewrite Hs, Hk.
  by destruct (_ || _).
Qed.

Lemma lowered_subject_insert_other (msg : dict) (k : string) (v : pyval) :
  k ≠ "subject" →
  lowered_subject lower (<[k := v]> msg) = lowered_subject lower msg.
Proof.
  intros Hk. unfold lowered_subject, dict_get.
  by rewrite lookup_insert_ne.
Qed.
End classifier.

(** C1.  A message whose lower-cased subject contains "quote", "policy",
    "binder" or "endorsement" is classified "filed": whatever value the
    has-attachments field is given, and whether or not "claim" occurs in
    the subject as well. *)
Theorem filed_keyword_wins (lower : string → string) (msg : dict) (subj : string) :
  msg !! "subject" = Some (PStr subj) →
  contains "quote" (lower subj) = true ∨ contains "policy" (lower subj) = true
  ∨ contains "binder" (lower subj) = true
  ∨ contains "endorsement" (lower subj) = true →
  graph_demo._classify lower msg = Ok "filed"
  ∧ (∀ flag : pyval,
       graph_demo._classify lower (<["hasAttachments" := flag]> msg) = Ok "filed")
  ∧ graph_demo._classify lower (delete "hasAttachments" msg) = Ok "filed".
Proof.
  intros Hsubj Hkw.
  assert (Hex : existsb (fun k => contains k (lower subj)) graph_demo.FILED_KEYWORDS = true).
  { simpl. destruct Hkw as [-> | [-> | [-> | ->]]]; by rewrite ?orb_true_r. }
  assert (Hlow : ∀ m : dict, m !! "subject" = Some (PStr subj) →
                 graph_demo.lowered_subject lower m = Ok (lower subj)).
  { intros m Hm. unfold graph_demo.lowered_subject. by rewrite (subject_of_str m subj Hm). }
  split; [|split].
  - eapply classify_filed; eauto.
  - intros flag. eapply classify_filed; [|exact Hex].
    apply Hlow. by rewrite lookup_insert_ne.
  - eapply classify_filed; [|exact Hex].
    apply Hlow. by rewrite lookup_delete_ne.
Qed.

Lemma filed_keyword_wins_witness :
  msg_demo !! "subject" = Some (PStr "Claim on Policy 7")
  ∧ graph_demo._classify ascii_lower msg_demo = Ok "filed".
Proof.
  split; [reflexivity|].
  apply (filed_keyword_wins ascii_lower msg_demo "Claim on Policy 7").
  - reflexivity.
  - right; left. reflexivity.
Defined.

(** C2.  When the lower-cased subject contains none of the four Filed
    keywords, the classifier answers "triage" exactly when the
    has-attachments field is truthy or the lower-cased subject contains
    "claim", and "skipped" in every other case.  The subject is the text of
    the record's subject field; a subject that is absent, or present with
    the value [None], is classified as the empty subject is. *)
Theorem not_filed_triage_or_skipped (lower : string → string) (msg : dict)
    (subj : string) :
  msg !! "subject" = Some (PStr subj)
  ∨ (subj = "" ∧ (msg !! "subject" = None ∨ msg !! "subject" = Some PNone)) →
  contains "quote" (lower subj) = false ∧ contains "policy" (lower subj) = false
  ∧ contains "binder" (lower subj) = false
  ∧ contains "endorsement" (lower subj) = false →
  let flag := truthy (dict_get msg "hasAttachments") in
  let claim := contains "claim" (lower subj) in
  (graph_demo._classify lower msg = Ok "triage" ↔ flag = true ∨ claim = true)
  ∧ (graph_demo._classify lower msg = Ok "skipped"
     ↔ ¬ (flag = true ∨ claim = true))
  ∧ (graph_demo._classify lower msg = Ok "triage"
     ∨ graph_demo._classify lower msg = Ok "skipped")
  ∧ (msg !! "hasAttachments" = Some (PBool true) →
     graph_demo._classify lower msg = Ok "triage")
  ∧ (msg !! "hasAttachments" = Some (PBool false)
     ∨ msg !! "hasAttachments" = None →
     graph_demo._classify lower msg
     = Ok (if claim then "triage" else "skipped"))
  ∧ graph_demo._classify lower msg
    = graph_demo._classify lower (<["subject" := PStr subj]> msg).
Proof.
  intros Hsubj (H1 & H2 & H3 & H4) flag claim.
  assert (Hl : graph_demo.lowered_subject lower msg = Ok (lower subj)).
  { unfold graph_demo.lowered_subject.
    destruct Hsubj as [Hs | [-> Hs]].
    - by rewrite (subject_of_str msg subj Hs).
    - by rewrite (subject_missing msg Hs). }
  assert (Hex : existsb (fun k => contains k (lower subj))
                  graph_demo.FILED_KEYWORDS = false).
  { simpl. by rewrite H1, H2, H3, H4. }
  pose proof (classify_not_filed lower msg (lower subj) Hl Hex) as Hc.
  fold flag claim in Hc.
  assert (Hl' : graph_demo.lowered_subject lower (<["subject" := PStr subj]> msg)
                = Ok (lower subj)).
  { unfold graph_demo.lowered_subject, dict_get. rewrite lookup_insert_eq.
    cbn [default]. unfold py_or. by destruct subj. }
  assert (Hf : dict_get (<["subject" := PStr subj]> msg) "hasAttachments"
               = dict_get msg "hasAttachments").
  { unfold dict_get. by rewrite lookup_insert_ne. }
  repeat split.
  - rewrite Hc. destruct flag, claim; cbn; intros H; try discriminate;
      first [by left | by right].
  - rewrite Hc. intros [-> | ->]; [reflexivity|]. by rewrite orb_true_r.
  - rewrite Hc. destruct flag, claim; cbn; intros H; try discriminate.
    by intros [? | ?].
  - rewrite Hc. intros H. destruct flag, claim; cbn; try reflexivity;
      exfalso; apply H; first [by left | by right].
  - rewrite Hc. destruct (flag || claim); [by left | by right].
  - intros Ha. rewrite Hc. subst flag. unfold dict_get. by rewrite Ha.
  - intros Ha. rewrite Hc. subst flag. unfold dict_get.
    by destruct Ha as [-> | ->].
  - unfold graph_demo._classify. by rewrite Hl, Hl', Hf.
Qed.

Lemma not_filed_triage_or_skipped_witness :
  graph_demo._classify ascii_lower msg_claim_form = Ok "triage"
  ∧ graph_demo._classify ascii_lower msg_lunch = Ok "skipped"
  ∧ graph_demo._classify ascii_lower msg_no_subject
    = graph_demo._classify ascii_lower (<["subject" := PStr ""]> msg_no_subject).
Proof.
  split; [|split].
  - destruct (not_filed_triage_or_skipped ascii_lower msg_claim_form "Claim form")
      as (Htriage & _).
    + left. reflexivity.
    + repeat split; reflexivity.
    + apply Htriage. right. reflexivity.
  - destruct (not_filed_triage_or_skipped ascii_lower msg_lunch "Lunch next week")
      as (_ & Hskipped & _).
    + left. reflexivity.
    + repeat split; reflexivity.
    + apply Hskipped. intros [H | H]; vm_compute in H; discriminate.
  - destruct (not_filed_triage_or_skipped ascii_lower msg_no_subject "")
      as (_ & _ & _ & _ & _ & Hempty).
    + right. split; [reflexivity|]. left. reflexivity.
    + repeat split; reflexivity.
    + exact Hempty.
Defined.

(** C10.  Two message records with the same subject field and the same
    has-attachments field get the same answer from the classifier (the same
    label, or the same exception): no other field is read. *)
Theorem classify_reads_two_fields (lower : string → string) (m1 m2 : dict) :
  m1 !! "subject" = m2 !! "subject" →
  m1 !! "hasAttachments" = m2 !! "hasAttachments" →
  graph_demo._classify lower m1 = graph_demo._classify lower m2.
Proof.
  intros Hs Ha.
  unfold graph_demo._classify, graph_demo.lowered_subject, dict_get.
  by rewrite Hs, Ha.
Qed.

Lemma classify_reads_two_fields_witness :
  msg_a ≠ msg_b
  ∧ graph_demo._classify ascii_lower msg_a = graph_demo._classify ascii_lower msg_b.
Proof.
  split.
  - intros H. apply (f_equal (fun m : dict => m !! "conversationId")) in H.
    vm_compute in H. discriminate.
  - apply (classify_reads_two_fields ascii_lower msg_a msg_b); reflexivity.
Defined.

(** The three examples of the specification, on ASCII subjects. *)
Example classify_spec_examples :
  graph_demo._classify ascii_lower
    {[ "subject" := PStr "Auto Policy Renewal Quote";
       "hasAttachments" := PBool false ]} = Ok "filed"
  ∧ graph_demo._classify ascii_lower
      {[ "subject" := PStr "Claim Documents"; "hasAttachments" := PBool true ]}
    = Ok "triage"
  ∧ graph_demo._classify ascii_lower
      {[ "subject" := PStr "Lunch next week"; "hasAttachments" := PBool false ]}
    = Ok "skipped".
Proof. repeat split; vm_compute; reflexivity. Qed.

(** A subject that is neither a text nor falsy has no [lower]. *)
Example classify_numeric_subject :
  graph_demo._classify ascii_lower {[ "subject" := PInt 7 ]}
  = Raise (AttributeError "lower").
Proof. vm_compute. reflexivity. Qed.

(** * The folder resolver *)

Lemma replace_single (c : ascii) (new s : string) :
  replace (String c EmptyString) new s = subst_char c new s.
Proof.
  unfold replace. induction s as [|x s IH]; [reflexivity|].
  simpl. rewrite andb_true_r, (Ascii.eqb_sym c x).
  destruct (Ascii.eqb x c); by rewrite IH.
Qed.

Lemma subst_char_app (c : ascii) (new a b : string) :
  subst_char c new (a +:+ b) = subst_char c new a +:+ subst_char c new b.
Proof.
  induction a as [|x a IH]; [reflexivity|].
  rewrite app_cons. simpl. destruct (Ascii.eqb x c).
  - by rewrite IH, app_assoc_str.
  - by rewrite IH, app_cons.
Qed.

Lemma replace_quote_doubles (s : string) :
  replace "'" "''" s = double_single_quotes s.
Proof.
  rewrite replace_single.
  induction s as [|x s IH]; [reflexivity|].
  simpl. destruct (Ascii.eqb x "'"); by rewrite IH.
Qed.

(** C4.  Both folder resolvers hand the HTTP layer one request, a GET of
    [/me/mailFolders] whose [$filter] is [displayName eq '<name>'] with
    every single quote of the name written twice, and their result is what
    they read from the answer to that request. *)
Theorem folder_filter_doubles_quotes (http_get : request → response)
    (hdrs : gmap string string) (name : string) :
  let filter := "displayName eq '" +:+ double_single_quotes name +:+ "'" in
  let query : dict := {[ "$filter" := PStr filter; "$top" := PInt 10 ]} in
  graph_demo._find_mail_folder_id http_get hdrs name
  = (do data <- graph_demo.graph_reply "/me/mailFolders"
                  (http_get (mk_request "https://graph.microsoft.com/v1.0/me/mailFolders"
                               hdrs (Some query) None));
     first_folder_id data)
  ∧ create_test_emails.find_mail_folder_id http_get hdrs name
    = create_test_emails.folder_reply
        (http_get (mk_request "https://graph.microsoft.com/v1.0/me/mailFolders"
                     hdrs (Some query) None)).
Proof.
  intros filter query.
  unfold graph_demo._find_mail_folder_id, graph_demo._graph_get,
    create_test_emails.find_mail_folder_id, folder_query.
  rewrite replace_quote_doubles. split; reflexivity.
Qed.

Lemma first_folder_id_first (data first : dict) (rest : list pyval) (i : pyval) :
  data !! "value" = Some (PList (PDict first :: rest)) →
  first !! "id" = Some i →
  first_folder_id (PDict data) = Ok i.
Proof.
  intros Hv Hi. unfold first_folder_id, py_get, dict_get_or.
  rewrite Hv. cbn. unfold dict_item. by rewrite Hi.
Qed.

Lemma first_folder_id_none (data : dict) :
  data !! "value" = Some (PList []) ∨ data !! "value" = None →
  first_folder_id (PDict data) = Ok PNone.
Proof.
  intros [Hv | Hv]; unfold first_folder_id, py_get, dict_get_or; by rewrite Hv.
Qed.

(** C5.  When the list request succeeds with a JSON object, both folder
    resolvers return the [id] of the first entry of its [value] list, in
    the order the API gave, and return [None] (they do not raise) when that
    list is empty or absent. *)
Theorem folder_first_or_none (http_get : request → response)
    (hdrs : gmap string string) (name : string) (data : dict) :
  let r := http_get (mk_request "https://graph.microsoft.com/v1.0/me/mailFolders" hdrs
                       (Some (folder_query (replace "'" "''" name))) None) in
  ok r = true →
  json r = Some (PDict data) →
  (∀ (first : dict) (rest : list pyval) (i : pyval),
     data !! "value" = Some (PList (PDict first :: rest)) →
     first !! "id" = Some i →
     graph_demo._find_mail_folder_id http_get hdrs name = Ok i
     ∧ create_test_emails.find_mail_folder_id http_get hdrs name = Ok i)
  ∧ (data !! "value" = Some (PList []) ∨ data !! "value" = None →
     graph_demo._find_mail_folder_id http_get hdrs name = Ok PNone
     ∧ create_test_emails.find_mail_folder_id http_get hdrs name = Ok PNone).
Proof.
  intros r Hok Hjson.
  assert (Hg : graph_demo._find_mail_folder_id http_get hdrs name
               = first_folder_id (PDict data)).
  { unfold graph_demo._find_mail_folder_id, graph_demo._graph_get,
      graph_demo.graph_reply, response_json.
    change (http_get _) with r. by rewrite Hok, Hjson. }
  assert (Hs : create_test_emails.find_mail_folder_id http_get hdrs name
               = first_folder_id (PDict data)).
  { unfold create_test_emails.find_mail_folder_id,
      create_test_emails.folder_reply, response_json.
    change (http_get _) with r. by rewrite Hok, Hjson. }
  rewrite Hg, Hs. split.
  - intros first rest i Hv Hi. by rewrite (first_folder_id_first _ _ _ _ Hv Hi).
  - intros Hv. by rewrite (first_folder_id_none _ Hv).
Qed.

Lemma folder_first_or_none_witness :
  graph_demo._find_mail_folder_id (http_answers two_folders) ∅ "DEMO for PNC"
    = Ok (PStr "AAMk-first")
  ∧ create_test_emails.find_mail_folder_id (http_answers no_folders) ∅ "Bob's"
    = Ok PNone.
Proof.
  split.
  - refine (proj1 (proj1 (folder_first_or_none (http_answers two_folders) ∅
        "DEMO for PNC" {[ "value" := PList [ PDict {[ "id" := PStr "AAMk-first" ]};
                              PDict {[ "id" := PStr "AAMk-second" ]} ] ]} _ _)
        {[ "id" := PStr "AAMk-first" ]} [ PDict {[ "id" := PStr "AAMk-second" ]} ]
        (PStr "AAMk-first") _ _)); reflexivity.
  - refine (proj2 (proj2 (folder_first_or_none (http_answers no_folders) ∅
        "Bob's" {[ "value" := PList [] ]} _ _) _)); [reflexivity..|].
    left. reflexivity.
Defined.

(** * The seeder *)

Section seeder.
Import create_test_emails.
Variable remote : Type.
Variable http_post : remote → request → result response * remote.






Hypothesis answered :
  ∀ (w : remote) (q : request),
    ∃ r : response, (http_post w q).1 = Ok r ∧ (ok r = true → is_Some (json r)).


End seeder.

Section seeder_readable.
Import create_test_emails.
Variable remote : Type.
Variable http_post : remote → request → result response * remote.
Variable hdrs : gmap string string.
Variable folder_id : string.




End seeder_readable.

Section seeder_reported.
Import create_test_emails.
Variable remote : Type.
Variable http_post : remote → request → result response * remote.
Variable hdrs : gmap string string.
Variable folder_id : string.
Hypothesis answered :
  ∀ (w : remote) (q : request),
    ∃ r : response, (http_post w q).1 = Ok r ∧ (ok r = true → is_Some (json r)).

End seeder_reported.




(** The run of the witness, evaluated: the second request, for a line
    without a preview, is refused and logged; the third row is still
    created. *)
Example seeder_run_with_refusal :
  (create_test_emails.parse_csv_and_create_emails nat flaky_post
     [seed_row_1; row_without_preview; seed_row_3] ∅ "AAMk-folder" O).1
  = (Ok (2%nat, 1%nat),
     [ "Creating: Auto Policy Renewal Quote..."; "  ✓ Created successfully";
       "Creating: Claim Documents...";
       "Failed to create email: Claim Documents";
       "Error: 503 - Service Unavailable"; "  ✗ Failed";
       "Creating: Lunch next week..."; "  ✓ Created successfully" ]).
Proof. vm_compute. reflexivity. Qed.

(** The announcement shows the first fifty characters of the subject, not
    its first fifty bytes. *)
Example creating_line_counts_characters :
  take_str 3 "né à Pau" = "né "
  ∧ String.length (take_str 3 "né à Pau") = 4%nat.
Proof. split; vm_compute; reflexivity. Qed.

(** * Token acquisition *)

Lemma contains_app_r (n a r : string) :
  contains n r = true → contains n (a +:+ r) = true.
Proof.
  rewrite !contains_iff. intros (x & y & ->).
  exists (a +:+ x), y. by rewrite app_assoc_str.
Qed.

Lemma contains_head (n t : string) : contains n (n +:+ t) = true.
Proof. apply contains_iff. by exists EmptyString, t. Qed.

Section device_code.
Variable msal : string → msal_app.

Lemma loop_cons_next (a : string) (rest : list string) (last : option string)
    (d : string) :
  (try_authority msal a).2 = Next d →
  device_code_loop msal (a :: rest) last
  = ((try_authority msal a).1 ++ (device_code_loop msal rest (Some d)).1,
     (device_code_loop msal rest (Some d)).2).
Proof.
  intros H. simpl. destruct (try_authority msal a) as [ev e]. simpl in H.
  subst e. by destruct (device_code_loop msal rest (Some d)).
Qed.

Lemma loop_cons_return (a : string) (rest : list string) (last : option string)
    (token : string) :
  (try_authority msal a).2 = Return token →
  device_code_loop msal (a :: rest) last
  = ((try_authority msal a).1, Returned token).
Proof.
  intros H. simpl. destruct (try_authority msal a) as [ev e]. simpl in H.
  by subst e.
Qed.

Lemma loop_returns_at_first_token (pre : list string) (a : string)
    (post : list string) (token : string) (last : option string) :
  Forall (moves_on msal) pre →
  (try_authority msal a).2 = Return token →
  device_code_loop msal (pre ++ a :: post) last
  = (List.concat (map (fun x => (try_authority msal x).1) pre)
       ++ (try_authority msal a).1,
     Returned token).
Proof.
  intros Hpre Ha. revert last.
  induction Hpre as [|x pre [d Hx] _ IH]; intros last.
  - change ([] ++ a :: post) with (a :: post).
    by rewrite (loop_cons_return a post last token Ha).
  - change ((x :: pre) ++ a :: post) with (x :: (pre ++ a :: post)).
    rewrite (loop_cons_next x _ last d Hx), IH. simpl.
    by rewrite app_assoc.
Qed.

Lemma loop_exhausted (init : list string) (a d : string) (last : option string) :
  Forall (moves_on msal) init →
  (try_authority msal a).2 = Next d →
  (device_code_loop msal (init ++ [a]) last).2 = Exhausted (Some d).
Proof.
  intros Hinit Ha. revert last.
  induction Hinit as [|x init [dx Hx] _ IH]; intros last.
  - change ([] ++ [a]) with [a].
    by rewrite (loop_cons_next a [] last d Ha).
  - change ((x :: init) ++ [a]) with (x :: (init ++ [a])).
    rewrite (loop_cons_next x _ last dx Hx). simpl. apply IH.
Qed.

Lemma silent_first (a : string) (acct : pyval) (accts : list pyval)
    (r : gmap string string) (token : string) :
  get_accounts (msal a) = acct :: accts →
  acquire_token_silent (msal a) = inr (Some r) →
  r !! "access_token" = Some token →
  try_authority msal a
  = ([ Print ("Trying authority: " +:+ a); GetAccounts a;
       AcquireTokenSilent a; Print "Got cached token." ],
     Return token).
Proof.
  intros Hacc Hsil Htok. unfold try_authority, silent_attempt.
  by rewrite Hacc, Hsil, Htok.
Qed.

Lemma device_second (a : string) (ev : list event) (flow : gmap string string)
    (code message token : string) :
  silent_attempt a (msal a) = (ev, None) →
  initiate_device_flow (msal a) = inr flow →
  flow !! "user_code" = Some code →
  flow !! "message" = Some message →
  acquire_token_by_device_flow (msal a) flow !! "access_token" = Some token →
  try_authority msal a
  = (Print ("Trying authority: " +:+ a) :: GetAccounts a :: ev
       ++ [ InitiateDeviceFlow a; Print message;
            AcquireTokenByDeviceFlow a; Print "Token acquired." ],
     Return token).
Proof.
  intros Hsil Hinit Hcode Hmsg Htok. unfold try_authority, device_attempt.
  by rewrite Hsil, Hinit, Hcode, Hmsg, Htok.
Qed.

Lemma next_detail_nonempty (a d : string) :
  (try_authority msal a).2 = Next d → d ≠ EmptyString.
Proof.
  unfold try_authority. destruct (silent_attempt a (msal a)) as [ev [tok|]];
    [discriminate|].
  unfold device_attempt.
  destruct (initiate_device_flow (msal a)) as [e | flow]; simpl.
  - intros [= <-]. done.
  - destruct (flow !! "user_code"); simpl.
    + destruct (flow !! "message"); simpl; [|discriminate].
      destruct (_ !! "access_token"); simpl; [discriminate|].
      intros [= <-]. unfold fmt_opt.
      destruct (_ !! "error") as [x|]; [destruct x|]; done.
    + intros [= <-]. unfold get_or.
      by destruct (opt_or (flow !! "error") "unknown_error").
Qed.
End device_code.

(** The loop of [graph_demo.py]: the authorities are tried in order, each
    silently first and by device code second, the first token ends the run
    at once, and when every authority has been tried in vain the
    [RuntimeError] names the last failure and carries the four-point
    checklist. *)
Theorem graph_demo_token_acquisition (msal : string → msal_app) :
  (∀ (pre : list string) (a : string) (post : list string) (token : string),
     Forall (moves_on msal) pre →
     (try_authority msal a).2 = Return token →
     graph_demo.acquire_token_from msal (pre ++ a :: post)
     = (List.concat (map (fun x => (try_authority msal x).1) pre)
          ++ (try_authority msal a).1,
        Ok token))
  ∧ (∀ (a : string) (acct : pyval) (accts : list pyval)
       (r : gmap string string) (token : string),
       get_accounts (msal a) = acct :: accts →
       acquire_token_silent (msal a) = inr (Some r) →
       r !! "access_token" = Some token →
       try_authority msal a
       = ([ Print ("Trying authority: " +:+ a); GetAccounts a;
            AcquireTokenSilent a; Print "Got cached token." ],
          Return token))
  ∧ (∀ (a : string) (ev : list event) (flow : gmap string string)
       (code message token : string),
       silent_attempt a (msal a) = (ev, None) →
       initiate_device_flow (msal a) = inr flow →
       flow !! "user_code" = Some code →
       flow !! "message" = Some message →
       acquire_token_by_device_flow (msal a) flow !! "access_token" = Some token →
       try_authority msal a
       = (Print ("Trying authority: " +:+ a) :: GetAccounts a :: ev
            ++ [ InitiateDeviceFlow a; Print message;
                 AcquireTokenByDeviceFlow a; Print "Token acquired." ],
          Return token))
  ∧ (∀ (init : list string) (a d : string),
       Forall (moves_on msal) init →
       (try_authority msal a).2 = Next d →
       ∃ msg : string,
         (graph_demo.acquire_token_from msal (init ++ [a])).2
         = Raise (RuntimeError msg)
         ∧ contains d msg = true
         ∧ contains "'Allow public client flows' = Yes" msg = true
         ∧ contains "Supported account types include Personal Microsoft accounts" msg = true
         ∧ contains "CLIENT_ID matches the configured app" msg = true
         ∧ contains "SCOPES are delegated Graph scopes only" msg = true).
Proof.
  split; [|split; [|split]].
  - intros pre a post token Hpre Ha. unfold graph_demo.acquire_token_from.
    by rewrite (loop_returns_at_first_token msal pre a post token None Hpre Ha).
  - apply silent_first.
  - apply device_second.
  - intros init a d Hinit Ha.
    exists (graph_demo.failure_message (Some d)).
    unfold graph_demo.acquire_token_from.
    pose proof (loop_exhausted msal init a d None Hinit Ha) as Hloop.
    destruct (device_code_loop msal (init ++ [a]) None) as [ev e].
    simpl in Hloop. subst e. split; [reflexivity|].
    pose proof (next_detail_nonempty msal a d Ha) as Hd.
    unfold graph_demo.failure_message.
    assert (Hopt : opt_or (Some d) "no additional info" = d) by by destruct d.
    rewrite Hopt.
    split; [do 2 apply contains_app_r; apply contains_head|].
    repeat split; do 3 apply contains_app_r; reflexivity.
Qed.

(** C3, at the input where the two copies of the routine part ways.  With
    both authorities refusing the device flow, [graph_demo.py] raises the
    diagnostic with the checklist, while [create_test_emails.py], whose
    docstring calls it the same function, raises a message that names the
    last failure and nothing else. *)
Theorem seeder_failure_lacks_checklist :
  (∃ msg : string,
     (create_test_emails.acquire_token_with_diagnostics msal_refusing).2
     = Raise (RuntimeError msg)
     ∧ msg = "Failed to acquire token. Details: invalid_client: AADSTS7000218: client_secret required"
     ∧ contains "Allow public client flows" msg = false
     ∧ contains "Personal Microsoft accounts" msg = false
     ∧ contains "CLIENT_ID" msg = false
     ∧ contains "SCOPES" msg = false)
  ∧ (∃ msg : string,
       (graph_demo.acquire_token_with_diagnostics msal_refusing).2
       = Raise (RuntimeError msg)
       ∧ contains "invalid_client: AADSTS7000218: client_secret required" msg = true
       ∧ contains "Allow public client flows" msg = true
       ∧ contains "Personal Microsoft accounts" msg = true
       ∧ contains "CLIENT_ID" msg = true
       ∧ contains "SCOPES" msg = true)
  ∧ (create_test_emails.acquire_token_with_diagnostics msal_refusing).1
    = (graph_demo.acquire_token_with_diagnostics msal_refusing).1.
Proof.
  split; [|split].
  - eexists. split; [vm_compute; reflexivity|].
    repeat split; vm_compute; reflexivity.
  - eexists. split; [vm_compute; reflexivity|].
    repeat split; vm_compute; reflexivity.
  - vm_compute. reflexivity.
Qed.

(** The two other sample worlds, evaluated: a cached token ends the run
    before any device flow is started, and a refusal at the first authority
    is followed by the device flow at the second. *)
Example cached_token_short_circuits :
  graph_demo.acquire_token_with_diagnostics msal_cached
  = ([ Print "Trying authority: https://login.microsoftonline.com/consumers";
       GetAccounts "https://login.microsoftonline.com/consumers";
       AcquireTokenSilent "https://login.microsoftonline.com/consumers";
       Print "Got cached token." ],
     Ok "tok-cached").
Proof. vm_compute. reflexivity. Qed.

Example second_authority_after_refusal :
  (graph_demo.acquire_token_with_diagnostics msal_second).2 = Ok "tok-device"
  ∧ List.filter (fun e => match e with Print _ => false | _ => true end)
      (graph_demo.acquire_token_with_diagnostics msal_second).1
    = [ GetAccounts "https://login.microsoftonline.com/consumers";
        InitiateDeviceFlow "https://login.microsoftonline.com/consumers";
        GetAccounts "https://login.microsoftonline.com/common";
        InitiateDeviceFlow "https://login.microsoftonline.com/common";
        AcquireTokenByDeviceFlow "https://login.microsoftonline.com/common" ].
Proof. split; vm_compute; reflexivity. Qed.

(** * Timestamps for display *)

Lemma is_digit_digit (n : nat) : is_digit (digit n) = true.
Proof.
  unfold is_digit, digit.
  pose proof (Nat.mod_upper_bound n 10 ltac:(lia)) as Hlt.
  rewrite nat_ascii_embedding by lia.
  apply andb_true_iff. split; [apply Nat.leb_le | apply Nat.leb_le]; lia.
Qed.

Lemma strftime_minutes_form (dt : datetime) :
  display_form (strftime_minutes dt) = true.
Proof.
  unfold strftime_minutes, pad4, pad2.
  rewrite !app_cons, !app_empty_l. cbn [display_form forallb Ascii.eqb].
  by rewrite !is_digit_digit.
Qed.

(** C8, amended.  The display function never raises: it is a total
    function.  A falsy argument (an empty or missing timestamp) gives the
    empty string; a text that [fromisoformat] accepts once its [Z] is
    rewritten, and whose conversion to UTC succeeds with a year of four
    digits, gives that instant in the shape [YYYY-MM-DD HH:MM UTC]; an
    argument that is not accepted or cannot be converted, malformed or not,
    comes back unchanged. *)
Theorem iso_to_display_cases (fromisoformat : string → result datetime)
    (astimezone : datetime → result datetime) (s : pyval) :
  (truthy s = false →
   graph_demo._iso_to_display fromisoformat astimezone s = PStr "")
  ∧ (∀ (t : string) (dt utc : datetime),
       s = PStr t → t ≠ "" →
       fromisoformat (replace "Z" "+00:00" t) = Ok dt →
       astimezone dt = Ok utc →
       valid_fields utc →
       graph_demo._iso_to_display fromisoformat astimezone s
       = PStr (strftime_minutes utc)
       ∧ display_form (strftime_minutes utc) = true)
  ∧ (truthy s = true →
     (∀ (t : string) (dt utc : datetime),
        s = PStr t → fromisoformat (replace "Z" "+00:00" t) = Ok dt →
        astimezone dt ≠ Ok utc) →
     graph_demo._iso_to_display fromisoformat astimezone s = s).
Proof.
  unfold graph_demo._iso_to_display. split; [|split].
  - by intros ->.
  - intros t dt utc -> Ht Hparse Hconv _.
    split; [|apply strftime_minutes_form].
    destruct t as [|c t]; [done|]. cbn [truthy negb graph_demo.replace_z bind].
    rewrite Hparse. cbn [bind]. by rewrite Hconv.
  - intros -> Hbad. cbn [negb].
    destruct s as [| | |t| |]; try reflexivity.
    cbn [graph_demo.replace_z bind].
    destruct (fromisoformat (replace "Z" "+00:00" t)) as [dt|e] eqn:Hparse;
      [|reflexivity].
    cbn [bind]. destruct (astimezone dt) as [utc|e] eqn:Hconv; [|reflexivity].
    by destruct (Hbad t dt utc eq_refl Hparse).
Qed.

Lemma iso_to_display_cases_witness :
  graph_demo._iso_to_display fromisoformat_basic (astimezone_utc one_hour_east)
    (PStr "2024-01-15T09:30:00Z") = PStr "2024-01-15 09:30 UTC"
  ∧ graph_demo._iso_to_display fromisoformat_basic (astimezone_utc one_hour_east)
      PNone = PStr ""
  ∧ graph_demo._iso_to_display fromisoformat_basic (astimezone_utc one_hour_east)
      (PStr "next Tuesday") = PStr "next Tuesday".
Proof.
  split; [|split].
  - refine (proj1 (proj1 (proj2 (iso_to_display_cases fromisoformat_basic
              (astimezone_utc one_hour_east) (PStr "2024-01-15T09:30:00Z")))
              "2024-01-15T09:30:00Z" (mk_datetime 2024 1 15 9 30 0 (Some 0%Z))
              (mk_datetime 2024 1 15 9 30 0 (Some 0%Z)) _ _ _ _ _)).
    + reflexivity.
    + discriminate.
    + vm_compute. reflexivity.
    + reflexivity.
    + unfold valid_fields. cbn. lia.
  - apply (proj1 (iso_to_display_cases fromisoformat_basic
              (astimezone_utc one_hour_east) PNone)). reflexivity.
  - apply (proj2 (proj2 (iso_to_display_cases fromisoformat_basic
              (astimezone_utc one_hour_east) (PStr "next Tuesday")))).
    + reflexivity.
    + intros t dt utc [= <-] Hparse. vm_compute in Hparse. discriminate.
Defined.

(** C8 as stated fails for a well-formed ISO-8601 timestamp whose UTC
    instant lies before year 1: the parser accepts it, the conversion to UTC
    overflows, and the text comes back as it was, not in the display
    shape. *)
Lemma valid_timestamp_left_unchanged :
  fromisoformat_basic (replace "Z" "+00:00" "0001-01-01T00:00:00+01:00")
  = Ok (mk_datetime 1 1 1 0 0 0 (Some 3600%Z))
  ∧ graph_demo._iso_to_display fromisoformat_basic (astimezone_utc one_hour_east)
      (PStr "0001-01-01T00:00:00+01:00")
    = PStr "0001-01-01T00:00:00+01:00"
  ∧ display_form "0001-01-01T00:00:00+01:00" = false.
Proof. repeat split; vm_compute; reflexivity. Qed.

(** The display function on the parser instance: an offset is folded into
    the UTC instant, and a naive text is read on the local clock. *)
Example iso_to_display_examples :
  let show := graph_demo._iso_to_display fromisoformat_basic
                (astimezone_utc one_hour_east) in
  show (PStr "2024-03-01T00:30:00+05:30") = PStr "2024-02-29 19:00 UTC"
  ∧ show (PStr "2024-01-15T09:30:00") = PStr "2024-01-15 08:30 UTC"
  ∧ show (PStr "2023-12-31T23:59:59-00:30") = PStr "2024-01-01 00:29 UTC"
  ∧ show (PStr "") = PStr ""
  ∧ show (PInt 5) = PInt 5.
Proof. repeat split; vm_compute; reflexivity. Qed.

(** * The dashboard renderer *)

Lemma html_escape_str_each (s : string) : html_escape_str s = escape_each s.
Proof.
  unfold html_escape_str. rewrite !replace_single.
  induction s as [|x s IH]; [reflexivity|].
  cbn [escape_each subst_char]. unfold escape_char.
  destruct (Ascii.eqb x "&") eqn:E1.
  { rewrite !subst_char_app, IH. reflexivity. }
  cbn [subst_char]. destruct (Ascii.eqb x "<") eqn:E2.
  { rewrite !subst_char_app, IH. reflexivity. }
  cbn [subst_char]. destruct (Ascii.eqb x ">") eqn:E3.
  { rewrite !subst_char_app, IH. reflexivity. }
  cbn [subst_char]. destruct (Ascii.eqb x "034") eqn:E4.
  { rewrite !subst_char_app, IH. reflexivity. }
  cbn [subst_char]. destruct (Ascii.eqb x "'") eqn:E5.
  { by rewrite IH. }
  by rewrite IH.
Qed.

Lemma lacks_app (c : ascii) (a b : string) :
  lacks c (a +:+ b) = lacks c a && lacks c b.
Proof.
  induction a as [|x a IH]; [reflexivity|].
  rewrite app_cons. simpl. by rewrite IH, andb_assoc.
Qed.

Ltac lacks_escape_each s :=
  induction s as [|x s IH]; [reflexivity|];
  cbn [escape_each]; rewrite lacks_app, IH, andb_true_r; unfold escape_char;
  destruct (Ascii.eqb x "&") eqn:E1; [reflexivity|];
  destruct (Ascii.eqb x "<") eqn:E2; [reflexivity|];
  destruct (Ascii.eqb x ">") eqn:E3; [reflexivity|];
  destruct (Ascii.eqb x "034") eqn:E4; [reflexivity|];
  destruct (Ascii.eqb x "'") eqn:E5; [reflexivity|];
  cbn [lacks]; by rewrite ?E2, ?E3, ?E4, ?E5.

Lemma escape_each_lacks_lt (s : string) : lacks "<" (escape_each s) = true.
Proof. lacks_escape_each s. Qed.

Lemma escape_each_lacks_gt (s : string) : lacks ">" (escape_each s) = true.
Proof. lacks_escape_each s. Qed.

Lemma escape_each_lacks_dquote (s : string) : lacks "034" (escape_each s) = true.
Proof. lacks_escape_each s. Qed.

Lemma escape_each_lacks_quote (s : string) : lacks "'" (escape_each s) = true.
Proof. lacks_escape_each s. Qed.

Lemma not_script_start_app (a b : string) :
  not_script_start a = true → not_script_start (a +:+ b) = true.
Proof.
  destruct a as [|c [|d a]]; simpl; try done.
  by destruct (Ascii.eqb c "s").
Qed.

Lemma lt_guarded_app (a b : string) :
  lt_guarded a = true → lt_guarded b = true → lt_guarded (a +:+ b) = true.
Proof.
  intros Ha Hb. induction a as [|c a IH]; [done|].
  rewrite app_cons. simpl in *. apply andb_true_iff in Ha as [Hc Ha].
  rewrite (IH Ha), andb_true_r.
  destruct (Ascii.eqb c "<"); [by apply not_script_start_app | done].
Qed.

Lemma lacks_lt_guarded (s : string) : lacks "<" s = true → lt_guarded s = true.
Proof.
  induction s as [|c s IH]; [done|]. simpl.
  intros [Hc Hs]%andb_true_iff. rewrite (IH Hs), andb_true_r.
  by destruct (Ascii.eqb c "<").
Qed.

Lemma lt_guarded_no_script (s : string) :
  lt_guarded s = true → contains "<script>" s = false.
Proof.
  induction s as [|c s IH]; [done|].
  cbn [lt_guarded contains]. intros [Hc Hs]%andb_true_iff.
  rewrite (IH Hs), orb_false_r. cbn [startswith].
  destruct (Ascii.eqb "<" c) eqn:E; [|done].
  apply Ascii.eqb_eq in E as <-.
  change (Ascii.eqb "<" "<") with true in Hc. cbn [andb].
  destruct s as [|d s]; [done|]. cbn [startswith not_script_start] in Hc |- *.
  rewrite (Ascii.eqb_sym "s" d).
  destruct (Ascii.eqb d "s"); [|done]. cbn [andb].
  destruct s as [|e s]; [done|]. cbn [startswith].
  rewrite (Ascii.eqb_sym "c" e).
  apply negb_true_iff in Hc. by rewrite Hc.
Qed.

Lemma bind_ok {A B : Type} (m : result A) (k : A → result B) (b : B) :
  bind m k = Ok b → ∃ a, m = Ok a ∧ k a = Ok b.
Proof. destruct m as [a|e]; [eauto | discriminate]. Qed.

Lemma html_escape_ok (v : pyval) (c : string) :
  html_escape v = Ok c → ∃ s, v = PStr s ∧ c = html_escape_str s.
Proof. destruct v; try discriminate. intros [= <-]. eauto. Qed.

Lemma html_escape_str_guarded (s : string) : lt_guarded (html_escape_str s) = true.
Proof.
  apply lacks_lt_guarded. rewrite html_escape_str_each.
  apply escape_each_lacks_lt.
Qed.

Lemma map_result_ok {A B : Type} (f : A → result B) (xs : list A) (ys : list B) :
  map_result f xs = Ok ys → Forall2 (fun x y => f x = Ok y) xs ys.
Proof.
  revert ys. induction xs as [|x xs IH]; intros ys.
  - intros [= <-]. constructor.
  - cbn [map_result]. intros (y & Hy & H)%bind_ok.
    apply bind_ok in H as (ys' & Hys & [= <-]).
    constructor; [exact Hy | by apply IH].
Qed.

Lemma join_guarded (rows : list string) :
  Forall (fun r => lt_guarded r = true) rows →
  lt_guarded (join newline rows) = true.
Proof.
  induction 1 as [|r rows Hr Hrows IH]; [reflexivity|].
  destruct rows as [|r' rows]; [exact Hr|].
  change (join newline (r :: r' :: rows))
    with (r +:+ newline +:+ join newline (r' :: rows)).
  apply lt_guarded_app; [exact Hr|]. by apply lt_guarded_app.
Qed.

Section rows.
Import graph_demo.
Variable folder_display : string.

Lemma row_html_cells (m : dict) (row : string) :
  row_html folder_display m = Ok row →
  ∃ status_label subject filed_dir timestamp : string,
    bind (dict_item m "status") status_label_of = Ok status_label
    ∧ dict_get_or m "subject" (PStr "") = PStr subject
    ∧ dict_get_or m "filed_dir" (PStr folder_display) = PStr filed_dir
    ∧ dict_get_or m "timestamp" (PStr "") = PStr timestamp
    ∧ row = "<tr>"
        +:+ "<td class='p-4'><span class='status-badge inline-block px-2 py-1 rounded-full text-xs bg-gray-100'>"
        +:+ html_escape_str status_label +:+ "</span></td>"
        +:+ "<td class='p-4'>" +:+ html_escape_str subject +:+ "</td>"
        +:+ "<td class='p-4'>" +:+ html_escape_str filed_dir +:+ "</td>"
        +:+ "<td class='p-4'>" +:+ html_escape_str timestamp +:+ "</td>"
        +:+ "</tr>".
Proof.
  unfold row_html.
  intros (st & Hst & H)%bind_ok.
  apply bind_ok in H as (label & Hlabel & H).
  apply bind_ok in H as (c1 & [= <-] & H).
  apply bind_ok in H as (c2 & (subject & Hsubject & ->)%html_escape_ok & H).
  apply bind_ok in H as (c3 & (dir & Hdir & ->)%html_escape_ok & H).
  apply bind_ok in H as (c4 & (time & Htime & ->)%html_escape_ok & [= <-]).
  exists label, subject, dir, time.
  rewrite Hst. cbn [bind]. by rewrite Hlabel.
Qed.

Lemma row_html_guarded (m : dict) (row : string) :
  row_html folder_display m = Ok row → lt_guarded row = true.
Proof.
  intros (l & s & d & t & _ & _ & _ & _ & ->)%row_html_cells.
  repeat (apply lt_guarded_app;
          [first [reflexivity | apply html_escape_str_guarded]|]).
  reflexivity.
Qed.

Lemma rows_block_guarded (messages : list dict) (block : string) :
  rows_block messages folder_display = Ok block → lt_guarded block = true.
Proof.
  unfold rows_block. intros (rows & Hrows%map_result_ok & H)%bind_ok.
  destruct rows as [|r rows].
  - by injection H as <-.
  - injection H as <-.
    change (lt_guarded (join newline (r :: rows)) = true). apply join_guarded.
    clear -Hrows. induction Hrows as [|m y ms ys Hy _ IH]; constructor;
      [by eapply row_html_guarded | exact IH].
Qed.

Lemma row_html_returns (m : dict) :
  dashboard_row_ok m → ∃ row, row_html folder_display m = Ok row.
Proof.
  intros (Hst & Hsub & Hdir & Htime). unfold row_html, dict_item, dict_get_or.
  assert (Hlabel : ∃ st label, m !! "status" = Some st
                               ∧ status_label_of st = Ok label).
  { destruct Hst as [H | [H | H]]; rewrite H; eexists _, _;
      (split; [reflexivity|]); vm_compute; reflexivity. }
  destruct Hlabel as (st & label & -> & Hlabel). cbn [bind]. rewrite Hlabel.
  cbn [bind html_escape].
  destruct Hsub as [-> | [s ->]]; destruct Hdir as [-> | [d ->]];
    destruct Htime as [-> | [t ->]]; cbn; eauto.
Qed.

Lemma rows_block_returns (messages : list dict) :
  Forall dashboard_row_ok messages →
  ∃ block, rows_block messages folder_display = Ok block.
Proof.
  intros H. unfold rows_block.
  assert (Hrows : ∃ rows, map_result (row_html folder_display) messages = Ok rows).
  { induction H as [|m ms Hm _ [rows IH]]; [by exists []|].
    destruct (row_html_returns m Hm) as [row Hrow].
    exists (row :: rows). cbn [map_result]. rewrite Hrow. cbn [bind].
    by rewrite IH. }
  destruct Hrows as [rows ->]. cbn [bind]. destruct rows; eauto.
Qed.
End rows.

(** C7.  Every text the renderer takes from a row (the status label, the
    subject, the folder name, the timestamp) goes through [html.escape]
    before it is written into the table row, and escaped text has no [<],
    [>] or quote character left.  Hence the rows the renderer substitutes
    into the template never contain [<script>], whatever the subjects
    are. *)
Theorem dashboard_text_is_escaped (messages : list dict) (folder_display : string) :
  (∀ s : string,
     lacks "<" (html_escape_str s) = true ∧ lacks ">" (html_escape_str s) = true
     ∧ lacks "034" (html_escape_str s) = true
     ∧ lacks "'" (html_escape_str s) = true)
  ∧ (∀ (m : dict) (row : string),
       graph_demo.row_html folder_display m = Ok row →
       ∃ status_label subject filed_dir timestamp : string,
         bind (dict_item m "status") graph_demo.status_label_of = Ok status_label
         ∧ dict_get_or m "subject" (PStr "") = PStr subject
         ∧ dict_get_or m "filed_dir" (PStr folder_display) = PStr filed_dir
         ∧ dict_get_or m "timestamp" (PStr "") = PStr timestamp
         ∧ row = "<tr>"
             +:+ "<td class='p-4'><span class='status-badge inline-block px-2 py-1 rounded-full text-xs bg-gray-100'>"
             +:+ html_escape_str status_label +:+ "</span></td>"
             +:+ "<td class='p-4'>" +:+ html_escape_str subject +:+ "</td>"
             +:+ "<td class='p-4'>" +:+ html_escape_str filed_dir +:+ "</td>"
             +:+ "<td class='p-4'>" +:+ html_escape_str timestamp +:+ "</td>"
             +:+ "</tr>")
  ∧ (∀ block : string,
       graph_demo.rows_block messages folder_display = Ok block →
       contains "<script>" block = false)
  ∧ (Forall dashboard_row_ok messages →
     ∃ block : string, graph_demo.rows_block messages folder_display = Ok block).
Proof.
  split; [|split; [|split]].
  - intros s. rewrite html_escape_str_each.
    by rewrite escape_each_lacks_lt, escape_each_lacks_gt,
      escape_each_lacks_dquote, escape_each_lacks_quote.
  - apply row_html_cells.
  - intros block H. apply lt_guarded_no_script.
    by eapply rows_block_guarded.
  - apply rows_block_returns.
Qed.

Lemma dashboard_text_is_escaped_witness :
  Forall dashboard_row_ok [row_with_script]
  ∧ ∃ block : string,
      graph_demo.rows_block [row_with_script] "DEMO for PNC" = Ok block
      ∧ contains "<script>" block = false
      ∧ contains "&lt;script&gt;alert(1)&lt;/script&gt;" block = true.
Proof.
  assert (Hok : Forall dashboard_row_ok [row_with_script]).
  { constructor; [|constructor]. unfold dashboard_row_ok, text_or_absent.
    split; [right; left; reflexivity|].
    split; [right; eexists; reflexivity|].
    split; [left; reflexivity | right; eexists; reflexivity]. }
  split; [exact Hok|].
  destruct (proj2 (proj2 (proj2 (dashboard_text_is_escaped [row_with_script]
                                   "DEMO for PNC"))) Hok) as [block Hblock].
  exists block. split; [exact Hblock|]. split.
  - exact (proj1 (proj2 (proj2 (dashboard_text_is_escaped [row_with_script]
                                  "DEMO for PNC"))) block Hblock).
  - vm_compute in Hblock. injection Hblock as <-. vm_compute. reflexivity.
Defined.

(** * Filling the template *)

Lemma split_go_nonempty (sep : string) (k : nat) (s : string) :
  split_go sep k s ≠ [].
Proof.
  revert k. induction s as [|c s IH]; intros k; [done|].
  cbn [split_go]. destruct k as [|k]; [|apply IH].
  destruct (startswith sep (String c s)); [done|].
  specialize (IH O). by destruct (split_go sep O s).
Qed.

Lemma join_cons (sep p : string) (rest : list string) :
  rest ≠ [] → join sep (p :: rest) = p +:+ sep +:+ join sep rest.
Proof. by destruct rest. Qed.

Lemma join_push_head (sep : string) (c : ascii) (parts : list string) :
  parts ≠ [] → join sep (push_head c parts) = String c (join sep parts).
Proof. destruct parts as [|p [|q rest]]; done. Qed.

(** [replace] writes [new] exactly between the pieces [split] cuts. *)
Lemma replace_go_join (sep new : string) (k : nat) (s : string) :
  replace_go sep new k s = join new (split_go sep k s).
Proof.
  revert k. induction s as [|c s IH]; intros k; [reflexivity|].
  cbn [replace_go split_go]. destruct k as [|k]; [|apply IH].
  destruct (startswith sep (String c s)).
  - rewrite join_cons by apply split_go_nonempty. by rewrite IH.
  - rewrite join_push_head by apply split_go_nonempty. by rewrite IH.
Qed.

Lemma startswith_length (p s : string) :
  startswith p s = true → (String.length p ≤ String.length s)%nat.
Proof.
  revert s. induction p as [|a p IH]; intros s; [simpl; lia|].
  destruct s as [|b s]; [done|]. cbn [startswith String.length].
  intros [_ H]%andb_true_iff. apply IH in H. lia.
Qed.

(** A character that does not occur in [p] cuts every match of [p] short. *)
Lemma startswith_cut (p a r : string) (d : ascii) :
  lacks d p = true → startswith p (a +:+ String d r) = startswith p a.
Proof.
  revert a. induction p as [|m p IH]; intros a Hd.
  - by rewrite !startswith_empty.
  - cbn [lacks] in Hd. apply andb_true_iff in Hd as [Hm Hp].
    destruct a as [|c a].
    + rewrite app_empty_l. cbn [startswith].
      apply negb_true_iff in Hm. by rewrite Hm.
    + rewrite app_cons. cbn [startswith]. by rewrite IH.
Qed.

Section inert.
(** [x] is a text that no match of [old] can touch: it starts with a
    character foreign to [old], and the first character of [old] does not
    occur in it. *)
Variables (m : ascii) (old' new : string) (d : ascii) (x' : string).
Let old := String m old'.
Let x := String d x'.
Hypothesis head_foreign : lacks d old = true.
Hypothesis no_start : lacks m x = true.

Lemma replace_go_over (y b : string) :
  lacks m y = true →
  replace_go old new O (y +:+ b) = y +:+ replace_go old new O b.
Proof.
  induction y as [|c y IH]; [done|].
  cbn [lacks]. intros [Hc Hy]%andb_true_iff.
  rewrite !app_cons. cbn [replace_go]. unfold old at 1. cbn [startswith].
  apply negb_true_iff in Hc. rewrite (Ascii.eqb_sym m c), Hc. cbn [andb].
  by rewrite IH.
Qed.

Lemma replace_go_around (a b : string) (k : nat) :
  (k ≤ String.length a)%nat →
  replace_go old new k (a +:+ x +:+ b)
  = replace_go old new k a +:+ x +:+ replace_go old new O b.
Proof.
  revert k. induction a as [|c a IH]; intros k Hk.
  - assert (k = O) as -> by (simpl in Hk; lia).
    rewrite !app_empty_l. by apply replace_go_over.
  - rewrite app_cons. cbn [replace_go]. destruct k as [|k].
    + change (String c (a +:+ x +:+ b)) with (String c a +:+ String d (x' +:+ b)).
      rewrite (startswith_cut old (String c a) (x' +:+ b) d head_foreign).
      change (String c a +:+ String d (x' +:+ b)) with (String c (a +:+ x +:+ b)).
      destruct (startswith old (String c a)) eqn:Hs.
      * apply startswith_length in Hs. simpl in Hs.
        rewrite IH by (simpl; lia). by rewrite app_assoc_str.
      * rewrite IH by lia. by rewrite app_cons.
    + apply IH. simpl in Hk. lia.
Qed.

Lemma replace_go_joined (parts : list string) :
  replace_go old new O (join x parts)
  = join x (map (replace_go old new O) parts).
Proof.
  induction parts as [|p [|q rest] IH]; [reflexivity..|].
  change (join x (p :: q :: rest)) with (p +:+ x +:+ join x (q :: rest)).
  rewrite replace_go_around by lia. by rewrite IH.
Qed.
End inert.

Lemma digit_foreign_to_mark (n : nat) :
  lacks (digit n) graph_demo.REPORT_DATA_MARK = true.
Proof.
  pose proof (is_digit_digit n) as H.
  destruct (digit n) as [[] [] [] [] [] [] [] []]; vm_compute in H |- *;
    first [reflexivity | discriminate].
Qed.

Lemma digit_not_lt (n : nat) : Ascii.eqb (digit n) "<" = false.
Proof.
  pose proof (is_digit_digit n) as H.
  destruct (digit n) as [[] [] [] [] [] [] [] []]; vm_compute in H |- *;
    first [reflexivity | discriminate].
Qed.

Lemma stamp_lacks_lt (now : datetime) : lacks "<" (strftime_seconds now) = true.
Proof.
  unfold strftime_seconds, pad4, pad2.
  rewrite !app_cons, !app_empty_l. cbn [lacks].
  rewrite !digit_not_lt. reflexivity.
Qed.

Lemma fill_template_pieces (tpl rows : string) (now : datetime) :
  graph_demo.fill_template tpl (strftime_seconds now) rows
  = join (strftime_seconds now)
      (map (replace graph_demo.REPORT_DATA_MARK rows)
         (split graph_demo.RUN_TIME_MARK tpl)).
Proof.
  unfold graph_demo.fill_template.
  change (replace graph_demo.RUN_TIME_MARK (strftime_seconds now) tpl)
    with (replace_go graph_demo.RUN_TIME_MARK (strftime_seconds now) O tpl).
  rewrite replace_go_join. fold (split graph_demo.RUN_TIME_MARK tpl).
  pose proof (stamp_lacks_lt now) as Hlt.
  pose proof (digit_foreign_to_mark (year now / 1000)) as Hd.
  change (strftime_seconds now)
    with (String (digit (year now / 1000))
            (String (digit (year now / 100)) (pad2 (year now))
             +:+ "-" +:+ pad2 (month now) +:+ "-" +:+ pad2 (day now)
             +:+ " " +:+ pad2 (hour now) +:+ ":" +:+ pad2 (minute now)
             +:+ ":" +:+ pad2 (second now) +:+ " UTC")) in Hlt |- *.
  exact (replace_go_joined "<" "!-- REPORT_DATA -->" rows _ _ Hd Hlt _).
Qed.

(** * Text files *)

Lemma digit_differs (c : ascii) (n : nat) :
  is_digit c = false → Ascii.eqb (digit n) c = false.
Proof.
  intros Hc. apply Ascii.eqb_neq. intros H.
  rewrite <- H, is_digit_digit in Hc. discriminate.
Qed.

Lemma pad2_lacks (c : ascii) (n : nat) :
  is_digit c = false → lacks c (pad2 n) = true.
Proof. intros Hc. unfold pad2. cbn [lacks]. by rewrite !digit_differs. Qed.

Lemma pad4_lacks (c : ascii) (n : nat) :
  is_digit c = false → lacks c (pad4 n) = true.
Proof.
  intros Hc. unfold pad4. cbn [lacks].
  by rewrite !digit_differs, pad2_lacks.
Qed.

Lemma subst_char_lacks (c : ascii) (new s : string) :
  lacks c s = true → subst_char c new s = s.
Proof.
  induction s as [|x s IH]; [reflexivity|].
  cbn [lacks subst_char]. intros [Hx Hs]%andb_true_iff.
  apply negb_true_iff in Hx. by rewrite Hx, IH.
Qed.

Lemma digit_is_ascii (n : nat) : byte_in 0 127 (digit n) = true.
Proof.
  unfold byte_in, digit.
  pose proof (Nat.mod_upper_bound n 10 ltac:(lia)) as Hlt.
  rewrite nat_ascii_embedding by lia.
  apply andb_true_iff. split; [apply Nat.leb_le | apply Nat.leb_le]; lia.
Qed.

Lemma is_ascii_app (a b : string) : is_ascii (a +:+ b) = is_ascii a && is_ascii b.
Proof.
  induction a as [|x a IH]; [reflexivity|].
  rewrite app_cons. cbn [is_ascii]. by rewrite IH, andb_assoc.
Qed.

Lemma pad2_is_ascii (n : nat) : is_ascii (pad2 n) = true.
Proof. unfold pad2. cbn [is_ascii]. by rewrite !digit_is_ascii. Qed.

Lemma pad4_is_ascii (n : nat) : is_ascii (pad4 n) = true.
Proof. unfold pad4. cbn [is_ascii]. by rewrite !digit_is_ascii, pad2_is_ascii. Qed.

Lemma stamp_is_ascii (now : datetime) : is_ascii (strftime_seconds now) = true.
Proof.
  unfold strftime_seconds.
  rewrite !is_ascii_app, pad4_is_ascii, !pad2_is_ascii. reflexivity.
Qed.

Lemma stamp_lacks_newline (now : datetime) :
  lacks "010" (strftime_seconds now) = true.
Proof.
  unfold strftime_seconds.
  rewrite !lacks_app, !pad2_lacks, pad4_lacks by reflexivity. reflexivity.
Qed.

Lemma stamp_nonempty (now : datetime) : strftime_seconds now ≠ EmptyString.
Proof. unfold strftime_seconds, pad4. by rewrite !app_cons. Qed.

(** An ASCII byte ends nothing but a complete character, and starts
    afresh. *)
Lemma byte_in_above_ascii (lo hi : nat) (c : ascii) :
  byte_in 0 127 c = true → (128 ≤ lo)%nat → byte_in lo hi c = false.
Proof.
  unfold byte_in. intros [_ H]%andb_true_iff Hlo. apply Nat.leb_le in H.
  apply andb_false_iff. left. apply Nat.leb_gt. lia.
Qed.

Lemma utf8_go_ascii (c : ascii) (b a : string) (need lo hi : nat) :
  byte_in 0 127 c = true → (128 ≤ lo)%nat →
  utf8_go need lo hi (a +:+ String c b) = utf8_go need lo hi a && utf8_valid b.
Proof.
  intros Hc. revert need lo hi.
  induction a as [|x a IH]; intros need lo hi Hlo.
  - rewrite app_empty_l. destruct need as [|k]; cbn [utf8_go].
    + by rewrite Hc.
    + by rewrite (byte_in_above_ascii lo hi c Hc Hlo).
  - rewrite app_cons. destruct need as [|k]; cbn [utf8_go].
    + repeat match goal with
             | |- context [if ?t then _ else _] => destruct t
             end; try reflexivity; apply IH; lia.
    + rewrite IH by lia. by rewrite andb_assoc.
Qed.

Lemma utf8_valid_ascii_prefix (sep b : string) :
  is_ascii sep = true → utf8_valid (sep +:+ b) = utf8_valid b.
Proof.
  induction sep as [|c sep IH]; [reflexivity|].
  cbn [is_ascii]. intros [Hc Hs]%andb_true_iff.
  rewrite app_cons. unfold utf8_valid at 1. cbn [utf8_go]. rewrite Hc.
  by apply IH.
Qed.

Lemma utf8_valid_around (sep a b : string) :
  is_ascii sep = true → sep ≠ EmptyString →
  utf8_valid (a +:+ sep +:+ b) = utf8_valid a && utf8_valid b.
Proof.
  destruct sep as [|c sep]; [done|]. cbn [is_ascii].
  intros [Hc Hs]%andb_true_iff _. rewrite app_cons.
  unfold utf8_valid at 1. rewrite utf8_go_ascii by (done || lia).
  by rewrite utf8_valid_ascii_prefix.
Qed.

(** A text joined by a non-empty ASCII separator is well-formed exactly
    when its pieces are. *)
Lemma utf8_valid_join (sep : string) (pieces : list string) :
  is_ascii sep = true → sep ≠ EmptyString →
  utf8_valid (join sep pieces) = forallb utf8_valid pieces.
Proof.
  intros Hsep Hne.
  induction pieces as [|p [|q rest] IH]; [reflexivity| |].
  - cbn [join forallb]. by rewrite andb_true_r.
  - change (join sep (p :: q :: rest)) with (p +:+ sep +:+ join sep (q :: rest)).
    rewrite utf8_valid_around by done. by rewrite IH.
Qed.

Lemma drop_str_app (a r : string) : drop_str (String.length a) (a +:+ r) = r.
Proof. induction a as [|x a IH]; [by destruct r|]. by rewrite app_cons. Qed.

(** Replacing a text by itself changes nothing, and so joining the pieces
    of [split] with the separator gives the text back. *)
Lemma replace_go_same (old : string) (k : nat) (s : string) :
  old ≠ EmptyString → replace_go old old k s = drop_str k s.
Proof.
  intros Hold. revert k. induction s as [|c s IH]; intros k.
  - by destruct k.
  - cbn [replace_go]. destruct k as [|k]; [|apply IH].
    destruct (startswith old (String c s)) eqn:Hs.
    + rewrite IH. apply startswith_iff in Hs as [r Hr].
      destruct old as [|m old']; [done|].
      rewrite app_cons in Hr. injection Hr as -> ->.
      cbn [String.length Nat.pred]. by rewrite drop_str_app, app_cons.
    + by rewrite IH.
Qed.

Lemma join_split (sep s : string) :
  sep ≠ EmptyString → join sep (split sep s) = s.
Proof.
  intros Hsep. unfold split. rewrite <- replace_go_join.
  by rewrite replace_go_same.
Qed.

Lemma utf8_valid_split (sep s : string) :
  is_ascii sep = true → sep ≠ EmptyString →
  forallb utf8_valid (split sep s) = utf8_valid s.
Proof.
  intros Hsep Hne. rewrite <- (utf8_valid_join sep) by done.
  by rewrite join_split.
Qed.

(** Replacing one non-empty ASCII text by another keeps a text well-formed
    or ill-formed, as it was. *)
Lemma utf8_valid_replace (old new s : string) :
  is_ascii old = true → old ≠ EmptyString →
  is_ascii new = true → new ≠ EmptyString →
  utf8_valid (replace old new s) = utf8_valid s.
Proof.
  intros Hold Hne Hnew Hne'.
  destruct old as [|m old']; [done|].
  change (replace (String m old') new s)
    with (replace_go (String m old') new O s).
  rewrite replace_go_join, utf8_valid_join by done.
  by apply utf8_valid_split.
Qed.

Lemma read_text_valid (stored tpl : string) :
  read_text stored = Ok tpl → utf8_valid tpl = true.
Proof.
  unfold read_text. destruct (utf8_valid stored) eqn:Hv; [|discriminate].
  intros H. assert (Htpl : tpl = replace carriage_return newline
                          (replace (carriage_return +:+ newline) newline stored))
    by congruence.
  rewrite Htpl, !utf8_valid_replace by done. exact Hv.
Qed.

(** Translating the line ends of a joined text translates its pieces, when
    the separator has no line end in it. *)
Lemma write_newlines_join (linesep sep : string) (pieces : list string) :
  lacks "010" sep = true →
  replace newline linesep (join sep pieces)
  = join sep (map (replace newline linesep) pieces).
Proof.
  intros Hsep.
  assert (Hr : ∀ s, replace newline linesep s = subst_char "010" linesep s)
    by (intros s; apply replace_single).
  rewrite Hr, (map_ext _ _ Hr).
  induction pieces as [|p [|q rest] IH]; [reflexivity..|].
  change (join sep (p :: q :: rest)) with (p +:+ sep +:+ join sep (q :: rest)).
  by rewrite !subst_char_app, IH, (subst_char_lacks _ _ sep Hsep).
Qed.

(** What a call of the renderer comes to, case by case. *)
Lemma render_outcome (linesep : string) (fs : gmap string string)
    (now : datetime) (messages : list dict) (folder_display : string) :
  graph_demo.render_tailwind_dashboard linesep fs now messages folder_display
  = match fs !! graph_demo.TEMPLATE_FILE with
    | None =>
        (Raise (FileNotFoundError "Template not found: dashboard_template.html"),
         fs)
    | Some stored =>
        match graph_demo.rows_block messages folder_display with
        | Raise e => (Raise e, fs)
        | Ok rows =>
            match read_text stored with
            | Raise e => (Raise e, fs)
            | Ok tpl =>
                let pieces := map (replace graph_demo.REPORT_DATA_MARK rows)
                                (split graph_demo.RUN_TIME_MARK tpl) in
                if forallb utf8_valid pieces
                then (Ok tt,
                      <[graph_demo.OUT_FILE :=
                          join (strftime_seconds now)
                            (map (replace newline linesep) pieces)]> fs)
                else (Raise (UnicodeEncodeError "utf-8"),
                      <[graph_demo.OUT_FILE := EmptyString]> fs)
            end
        end
    end.
Proof.
  unfold graph_demo.render_tailwind_dashboard.
  destruct (fs !! graph_demo.TEMPLATE_FILE) as [stored|]; [|reflexivity].
  destruct (graph_demo.rows_block messages folder_display) as [rows|e];
    [|reflexivity].
  cbn [bind]. unfold graph_demo.filled_template.
  destruct (read_text stored) as [tpl|e]; [|reflexivity].
  cbn [bind]. cbv zeta. unfold write_text.
  rewrite fill_template_pieces.
  rewrite utf8_valid_join by (apply stamp_is_ascii || apply stamp_nonempty).
  destruct (forallb utf8_valid _); [|reflexivity].
  by rewrite write_newlines_join by apply stamp_lacks_newline.
Qed.

(** C9.  With the template and the rows fixed, the file the renderer writes
    is a fixed sequence of pieces joined by the render timestamp: the pieces
    the [RUN_TIME] marker cuts the text of the template into, each with the
    rows put in place of the [REPORT_DATA] marker and its line ends written
    as the platform writes them.  Whether the text can be written at all is
    decided by the pieces.  Two runs therefore write the same bytes
    everywhere but at the timestamps, and fail in the same way, leaving the
    same files, when they fail. *)
Theorem render_differs_only_in_stamp (linesep : string)
    (fs : gmap string string) (messages : list dict) (folder_display : string) :
  (∀ (stored tpl rows : string),
     fs !! graph_demo.TEMPLATE_FILE = Some stored →
     read_text stored = Ok tpl →
     graph_demo.rows_block messages folder_display = Ok rows →
     let pieces := map (replace graph_demo.REPORT_DATA_MARK rows)
                     (split graph_demo.RUN_TIME_MARK tpl) in
     ∀ now : datetime,
       graph_demo.render_tailwind_dashboard linesep fs now messages
         folder_display
       = if forallb utf8_valid pieces
         then (Ok tt,
               <[graph_demo.OUT_FILE :=
                   join (strftime_seconds now)
                     (map (replace newline linesep) pieces)]> fs)
         else (Raise (UnicodeEncodeError "utf-8"),
               <[graph_demo.OUT_FILE := EmptyString]> fs))
  ∧ (∀ (now1 now2 : datetime) (e : exn) (fs1 : gmap string string),
       graph_demo.render_tailwind_dashboard linesep fs now1 messages
         folder_display = (Raise e, fs1) →
       graph_demo.render_tailwind_dashboard linesep fs now2 messages
         folder_display = (Raise e, fs1))
  ∧ (∀ now1 now2 : datetime,
       strftime_seconds now1 = strftime_seconds now2 →
       graph_demo.render_tailwind_dashboard linesep fs now1 messages
         folder_display
       = graph_demo.render_tailwind_dashboard linesep fs now2 messages
           folder_display).
Proof.
  split; [|split].
  - intros stored tpl rows Hstored Hread Hrows pieces now.
    by rewrite render_outcome, Hstored, Hrows, Hread.
  - intros now1 now2 e fs1. rewrite !render_outcome.
    destruct (fs !! graph_demo.TEMPLATE_FILE) as [stored|]; [|done].
    destruct (graph_demo.rows_block messages folder_display) as [rows|x];
      [|done].
    destruct (read_text stored) as [tpl|x]; [|done].
    cbv zeta. by destruct (forallb utf8_valid _).
  - intros now1 now2 Hsame. rewrite !render_outcome. by rewrite Hsame.
Qed.

Lemma render_differs_only_in_stamp_witness :
  ∃ pieces : list string,
    (graph_demo.render_tailwind_dashboard newline fs_with_template run_at_noon
       [row_with_script] "DEMO for PNC")
    = (Ok tt, <["dashboard.html" := join "2026-11-03 12:00:00 UTC" pieces]>
                fs_with_template)
    ∧ (graph_demo.render_tailwind_dashboard newline fs_with_template
         run_at_night [row_with_script] "DEMO for PNC")
      = (Ok tt, <["dashboard.html" := join "2026-11-03 23:59:58 UTC" pieces]>
                  fs_with_template)
    ∧ List.length pieces = 3%nat.
Proof.
  destruct (graph_demo.rows_block [row_with_script] "DEMO for PNC")
    as [rows|e] eqn:Hrows; [|vm_compute in Hrows; discriminate].
  pose proof (proj1 (render_differs_only_in_stamp newline fs_with_template
                       [row_with_script] "DEMO for PNC")
                "<h1>Run {RUN_TIME}</h1><table><!-- REPORT_DATA --></table><p>{RUN_TIME}</p>"
                "<h1>Run {RUN_TIME}</h1><table><!-- REPORT_DATA --></table><p>{RUN_TIME}</p>"
                rows eq_refl eq_refl Hrows) as Hrun.
  cbv zeta in Hrun.
  assert (Hvalid : forallb utf8_valid
                     (map (replace graph_demo.REPORT_DATA_MARK rows)
                        (split graph_demo.RUN_TIME_MARK
                           "<h1>Run {RUN_TIME}</h1><table><!-- REPORT_DATA --></table><p>{RUN_TIME}</p>"))
                   = true).
  { vm_compute in Hrows. injection Hrows as <-. vm_compute. reflexivity. }
  rewrite Hvalid in Hrun.
  eexists. split; [apply Hrun|]. split; [apply Hrun|].
  by rewrite !length_map.
Defined.

(** The written file at noon, in full, on a platform that ends lines with
    [\n] and on one that ends them with [\r\n]. *)
Example rendered_file_at_noon :
  graph_demo.render_tailwind_dashboard newline fs_with_template run_at_noon []
    "DEMO for PNC"
  = (Ok tt,
     <["dashboard.html" :=
         "<h1>Run 2026-11-03 12:00:00 UTC</h1><table><tr><td colspan='4' class='text-center text-gray-500 py-4'>No emails were processed.</td></tr></table><p>2026-11-03 12:00:00 UTC</p>"]>
       fs_with_template)
  ∧ (graph_demo.render_tailwind_dashboard (carriage_return +:+ newline)
       fs_crlf_template run_at_noon [] "DEMO for PNC").2 !! "dashboard.html"
    = Some ("<h1>Report</h1>" +:+ carriage_return +:+ newline
            +:+ "<p>2026-11-03 12:00:00 UTC</p>" +:+ carriage_return +:+ newline)
  ∧ (graph_demo.render_tailwind_dashboard newline
       fs_crlf_template run_at_noon [] "DEMO for PNC").2 !! "dashboard.html"
    = Some ("<h1>Report</h1>" +:+ newline
            +:+ "<p>2026-11-03 12:00:00 UTC</p>" +:+ newline).
Proof. repeat split; vm_compute; reflexivity. Qed.

(** * More on the classifier *)

Lemma lowered_subject_returns (lower : string → string) (msg : dict) :
  text_or_falsy msg "subject" ↔ ∃ s, graph_demo.lowered_subject lower msg = Ok s.
Proof.
  unfold text_or_falsy, graph_demo.lowered_subject, dict_get, py_or.
  destruct (msg !! "subject") as [v|]; simpl.
  - destruct (truthy v) eqn:Hv.
    + split.
      * intros [? | [s ->]]; [done | eauto].
      * intros [s Hs]. right. destruct v; try discriminate. eauto.
    + split; [eauto | by left].
  - split; eauto.
Qed.

Lemma classify_label_of_subject (lower : string → string) (msg : dict) (s : string) :
  graph_demo.lowered_subject lower msg = Ok s →
  graph_demo._classify lower msg = Ok "filed"
  ∨ graph_demo._classify lower msg = Ok "triage"
  ∨ graph_demo._classify lower msg = Ok "skipped".
Proof.
  intros Hs. unfold graph_demo._classify, bind. rewrite Hs.
  destruct (existsb _ _); [by left|].
  destruct (_ || _); [right; by left | right; by right].
Qed.

Lemma classify_label_of_text (lower : string → string) (msg : dict) :
  text_or_falsy msg "subject" →
  graph_demo._classify lower msg = Ok "filed"
  ∨ graph_demo._classify lower msg = Ok "triage"
  ∨ graph_demo._classify lower msg = Ok "skipped".
Proof.
  intros [s Hs]%(lowered_subject_returns lower).
  by eapply classify_label_of_subject.
Qed.

(** X1.  The classifier answers one of the three labels, and nothing else,
    exactly when the subject is a text or a falsy value (absent, [None],
    empty); for any other subject it raises [AttributeError], since such a
    value has no [lower]. *)
Theorem classify_answers_or_raises (lower : string → string) (msg : dict) :
  (text_or_falsy msg "subject" →
   graph_demo._classify lower msg = Ok "filed"
   ∨ graph_demo._classify lower msg = Ok "triage"
   ∨ graph_demo._classify lower msg = Ok "skipped")
  ∧ (¬ text_or_falsy msg "subject" →
     graph_demo._classify lower msg = Raise (AttributeError "lower"))
  ∧ (∀ label : string,
       graph_demo._classify lower msg = Ok label →
       text_or_falsy msg "subject"
       ∧ (label = "filed" ∨ label = "triage" ∨ label = "skipped")).
Proof.
  split; [|split].
  - apply classify_label_of_text.
  - intros Hno. unfold graph_demo._classify, bind.
    destruct (graph_demo.lowered_subject lower msg) as [s|e] eqn:Hs.
    + destruct Hno. apply (lowered_subject_returns lower). eauto.
    + unfold graph_demo.lowered_subject, graph_demo.str_lower in Hs.
      destruct (py_or _ _); by inversion Hs.
  - intros label Hl.
    destruct (graph_demo.lowered_subject lower msg) as [s|e] eqn:Hs.
    + split; [apply (lowered_subject_returns lower); eauto|].
      destruct (classify_label_of_subject lower msg s Hs) as [H | [H | H]];
        rewrite H in Hl; injection Hl as <-; auto.
    + unfold graph_demo._classify, bind in Hl. rewrite Hs in Hl. discriminate.
Qed.

Lemma classify_answers_or_raises_witness :
  (graph_demo._classify ascii_lower msg_no_subject = Ok "filed"
   ∨ graph_demo._classify ascii_lower msg_no_subject = Ok "triage"
   ∨ graph_demo._classify ascii_lower msg_no_subject = Ok "skipped")
  ∧ graph_demo._classify ascii_lower {[ "subject" := PInt 7 ]}
    = Raise (AttributeError "lower").
Proof.
  split.
  - apply (proj1 (classify_answers_or_raises ascii_lower msg_no_subject)).
    unfold text_or_falsy. reflexivity.
  - apply (proj1 (proj2 (classify_answers_or_raises ascii_lower
                           {[ "subject" := PInt 7 ]}))).
    unfold text_or_falsy. intros [H | [s H]]; discriminate.
Defined.

(** X2.  The classifier sees the subject only through its lower-cased form:
    a message and the same message with its subject already lower-cased are
    classified alike, for any case mapping that leaves lower-cased text
    as it is. *)
Theorem classify_ignores_case (lower : string → string) (msg : dict) (s : string) :
  (∀ t, lower (lower t) = lower t) →
  graph_demo._classify lower (<["subject" := PStr s]> msg)
  = graph_demo._classify lower (<["subject" := PStr (lower s)]> msg).
Proof.
  intros Hidem.
  assert (Hl : ∀ t, graph_demo.lowered_subject lower (<["subject" := PStr t]> msg)
                    = Ok (lower t)).
  { intros t. unfold graph_demo.lowered_subject, dict_get, py_or.
    rewrite lookup_insert_eq. by destruct t. }
  unfold graph_demo._classify. rewrite !Hl, Hidem.
  unfold dict_get. by rewrite !lookup_insert_ne.
Qed.

Lemma ascii_lower_idempotent (t : string) : ascii_lower (ascii_lower t) = ascii_lower t.
Proof.
  induction t as [|c t IH]; [reflexivity|].
  cbn [ascii_lower]. rewrite IH. f_equal.
  destruct c as [[] [] [] [] [] [] [] []]; vm_compute; reflexivity.
Qed.

Lemma classify_ignores_case_witness :
  graph_demo._classify ascii_lower
    (<["subject" := PStr "RE: BINDER for Acme"]> msg_lunch)
  = graph_demo._classify ascii_lower
      (<["subject" := PStr "re: binder for acme"]> msg_lunch).
Proof.
  exact (classify_ignores_case ascii_lower msg_lunch "RE: BINDER for Acme"
           ascii_lower_idempotent).
Defined.

(** * More on the folder resolver *)

(** X3.  The folder resolvers fail loudly: when the list request is answered
    with a non-success status, each raises a [RuntimeError] that carries the
    response text ([graph_demo.py] also the path and the status code), and
    neither ever reads the body.  A result, [None] included, therefore
    always comes from a successful answer whose body is a JSON object. *)
Theorem folder_lookup_fails_loudly (http_get : request → response)
    (hdrs : gmap string string) (name : string) :
  let r := http_get (mk_request "https://graph.microsoft.com/v1.0/me/mailFolders" hdrs
                       (Some (folder_query (replace "'" "''" name))) None) in
  (ok r = false →
   graph_demo._find_mail_folder_id http_get hdrs name
   = Raise (RuntimeError ("GET /me/mailFolders failed ("
                          +:+ str_of_int (status_code r) +:+ "): " +:+ text r))
   ∧ create_test_emails.find_mail_folder_id http_get hdrs name
     = Raise (RuntimeError ("Failed to find folder: " +:+ text r)))
  ∧ (∀ v : pyval,
       graph_demo._find_mail_folder_id http_get hdrs name = Ok v
       ∨ create_test_emails.find_mail_folder_id http_get hdrs name = Ok v →
       ok r = true ∧ ∃ data : dict, json r = Some (PDict data)).
Proof.
  intros r.
  assert (Hg : graph_demo._find_mail_folder_id http_get hdrs name
               = (do data <- graph_demo.graph_reply "/me/mailFolders" r;
                  first_folder_id data)) by reflexivity.
  assert (Hs : create_test_emails.find_mail_folder_id http_get hdrs name
               = create_test_emails.folder_reply r) by reflexivity.
  rewrite Hg, Hs.
  unfold graph_demo.graph_reply, create_test_emails.folder_reply, response_json.
  split.
  - intros ->. split; reflexivity.
  - intros v H. destruct (ok r); [|by destruct H].
    split; [reflexivity|]. cbn [negb] in H.
    destruct (json r) as [[| | | | |data]|]; cbn in H;
      try (by destruct H); eauto.
Qed.

Lemma folder_lookup_fails_loudly_witness :
  graph_demo._find_mail_folder_id http_refuses ∅ "DEMO for PNC"
  = Raise (RuntimeError "GET /me/mailFolders failed (403): Access is denied.")
  ∧ create_test_emails.find_mail_folder_id http_refuses ∅ "DEMO for PNC"
    = Raise (RuntimeError "Failed to find folder: Access is denied.").
Proof.
  exact (proj1 (folder_lookup_fails_loudly http_refuses ∅ "DEMO for PNC") eq_refl).
Defined.

Lemma read_doubled (name rest : string) :
  startswith "'" rest = false →
  read_literal (double_single_quotes name +:+ String "'" rest) = Some (name, rest).
Proof.
  intros Hrest. induction name as [|c name IH].
  - rewrite app_empty_l. cbn [read_literal].
    change (Ascii.eqb "'" "'") with true. cbn match.
    destruct rest as [|d rest]; [reflexivity|].
    cbn [startswith] in Hrest. rewrite andb_true_r in Hrest.
    by rewrite (Ascii.eqb_sym d "'"), Hrest.
  - cbn [double_single_quotes]. destruct (Ascii.eqb c "'") eqn:Hc.
    + apply Ascii.eqb_eq in Hc as ->.
      change (String "'" (String "'" (double_single_quotes name)) +:+ String "'" rest)
        with (String "'" (String "'" (double_single_quotes name +:+ String "'" rest))).
      cbn [read_literal]. change (Ascii.eqb "'" "'") with true. cbn match.
      by rewrite IH.
    + change (String c (double_single_quotes name) +:+ String "'" rest)
        with (String c (double_single_quotes name +:+ String "'" rest)).
      cbn [read_literal]. by rewrite Hc, IH.
Qed.

(** X4.  The name survives the quoting.  Read back under the rule that two
    quotes stand for one and a lone quote closes the literal, the literal
    both resolvers put after [displayName eq] is the display name itself,
    and it ends exactly at the end of the filter: no quote inside a name can
    close the literal early. *)
Theorem folder_filter_reads_back (name : string) :
  ∃ literal : string,
    folder_query (replace "'" "''" name) !! "$filter"
    = Some (PStr ("displayName eq '" +:+ literal))
    ∧ read_literal literal = Some (name, EmptyString).
Proof.
  exists (replace "'" "''" name +:+ "'"). split.
  - unfold folder_query. by rewrite lookup_insert_eq.
  - rewrite replace_quote_doubles. by apply read_doubled.
Qed.

(** * More on token acquisition *)

Section passes.
Variable msal : string → msal_app.

Lemma calls_app (a b : list event) : calls (a ++ b) = calls a ++ calls b.
Proof. apply List.filter_app. Qed.

Lemma lookups_app (a b : list event) : lookups (a ++ b) = lookups a ++ lookups b.
Proof. apply omap_app. Qed.

Lemma silent_attempt_calls (a : string) :
  calls (silent_attempt a (msal a)).1 `sublist_of` [AcquireTokenSilent a]
  ∧ lookups (silent_attempt a (msal a)).1 = [].
Proof.
  unfold silent_attempt.
  destruct (get_accounts (msal a)); [split; [apply sublist_nil_l | done]|].
  destruct (acquire_token_silent (msal a)) as [e | [r|]];
    [| destruct (r !! "access_token") |]; by split.
Qed.

Lemma device_attempt_calls (a : string) :
  calls (device_attempt a (msal a)).1
    `sublist_of` [InitiateDeviceFlow a; AcquireTokenByDeviceFlow a]
  ∧ lookups (device_attempt a (msal a)).1 = [].
Proof.
  unfold device_attempt.
  destruct (initiate_device_flow (msal a)) as [e | flow];
    [split; [by apply sublist_skip, sublist_nil_l | done]|].
  destruct (flow !! "user_code");
    [|split; [by apply sublist_skip, sublist_nil_l | done]].
  destruct (flow !! "message");
    [|split; [by apply sublist_skip, sublist_nil_l | done]].
  destruct (_ !! "access_token"); by split.
Qed.

Lemma pass_calls (a : string) :
  calls (try_authority msal a).1 `sublist_of` protocol a
  ∧ lookups (try_authority msal a).1 = [a].
Proof.
  unfold try_authority.
  destruct (silent_attempt_calls a) as [Hs Hsl].
  destruct (device_attempt_calls a) as [Hd Hdl].
  destruct (silent_attempt a (msal a)) as [evs [tok|]]; simpl in Hs, Hsl.
  - cbn [fst]. split.
    + change (calls (Print ("Trying authority: " +:+ a) :: GetAccounts a :: evs))
        with (GetAccounts a :: calls evs).
      apply sublist_skip.
      change (AcquireTokenSilent a :: [InitiateDeviceFlow a; AcquireTokenByDeviceFlow a])
        with ([AcquireTokenSilent a] ++ [InitiateDeviceFlow a; AcquireTokenByDeviceFlow a]).
      rewrite <- (app_nil_r (calls evs)).
      apply sublist_app; [exact Hs | apply sublist_nil_l].
    + change (lookups (Print ("Trying authority: " +:+ a) :: GetAccounts a :: evs))
        with (a :: lookups evs). by rewrite Hsl.
  - destruct (device_attempt a (msal a)) as [evd e]; simpl in Hd, Hdl.
    cbn [fst]. split.
    + change (calls ((Print ("Trying authority: " +:+ a) :: GetAccounts a :: evs) ++ evd))
        with (GetAccounts a :: calls (evs ++ evd)).
      apply sublist_skip. rewrite calls_app.
      change (AcquireTokenSilent a :: [InitiateDeviceFlow a; AcquireTokenByDeviceFlow a])
        with ([AcquireTokenSilent a] ++ [InitiateDeviceFlow a; AcquireTokenByDeviceFlow a]).
      by apply sublist_app.
    + change (lookups ((Print ("Trying authority: " +:+ a) :: GetAccounts a :: evs) ++ evd))
        with (a :: lookups (evs ++ evd)).
      by rewrite lookups_app, Hsl, Hdl.
Qed.

Lemma loop_calls (authorities : list string) (last : option string) :
  calls (device_code_loop msal authorities last).1
    `sublist_of` flat_map protocol authorities
  ∧ lookups (device_code_loop msal authorities last).1 `prefix_of` authorities
  ∧ (∀ d, (device_code_loop msal authorities last).2 = Exhausted d →
          lookups (device_code_loop msal authorities last).1 = authorities).
Proof.
  revert last. induction authorities as [|a rest IH]; intros last.
  - simpl. split; [done|]. split; [done|]. done.
  - destruct (pass_calls a) as [Hc Hl].
    cbn [device_code_loop flat_map].
    destruct (try_authority msal a) as [ev e]; simpl in Hc, Hl.
    destruct e as [token | detail | x].
    + cbn [fst snd]. split; [|split].
      * rewrite <- (app_nil_r (calls ev)).
        apply sublist_app; [exact Hc | apply sublist_nil_l].
      * rewrite Hl. by exists rest.
      * discriminate.
    + destruct (IH (Some detail)) as (Hc' & Hl' & Hx').
      destruct (device_code_loop msal rest (Some detail)) as [ev' e'].
      cbn [fst snd] in *. split; [|split].
      * rewrite calls_app. by apply sublist_app.
      * rewrite lookups_app, Hl. by apply prefix_cons.
      * intros d Hd. rewrite lookups_app, Hl. simpl. f_equal. by eapply Hx'.
    + cbn [fst snd]. split; [|split].
      * rewrite <- (app_nil_r (calls ev)).
        apply sublist_app; [exact Hc | apply sublist_nil_l].
      * rewrite Hl. by exists rest.
      * discriminate.
Qed.

Lemma device_token_issued (a token : string) :
  (device_attempt a (msal a)).2 = Return token → issued msal a token.
Proof.
  unfold device_attempt, issued.
  destruct (initiate_device_flow (msal a)) as [e | flow]; [discriminate|].
  destruct (flow !! "user_code"); [|discriminate].
  destruct (flow !! "message"); [|discriminate].
  destruct (acquire_token_by_device_flow (msal a) flow !! "access_token")
    as [t|] eqn:Ht; [|discriminate].
  intros [= <-]. right. eauto.
Qed.

Lemma pass_token_issued (a token : string) :
  (try_authority msal a).2 = Return token → issued msal a token.
Proof.
  unfold try_authority.
  pose proof (device_token_issued a token) as Hd.
  destruct (device_attempt a (msal a)) as [evd e]. simpl in Hd.
  unfold silent_attempt.
  destruct (get_accounts (msal a)) as [|acct accts]; [exact Hd|].
  destruct (acquire_token_silent (msal a)) as [x | [r|]] eqn:Hs;
    [exact Hd | | exact Hd].
  destruct (r !! "access_token") as [t|] eqn:Hr; [|exact Hd].
  intros [= <-]. left. eauto.
Qed.

Lemma loop_token_issued (authorities : list string) (last : option string)
    (token : string) :
  (device_code_loop msal authorities last).2 = Returned token →
  ∃ a, a ∈ authorities ∧ issued msal a token.
Proof.
  revert last. induction authorities as [|a rest IH]; intros last; [done|].
  cbn [device_code_loop].
  pose proof (pass_token_issued a) as Hp.
  destruct (try_authority msal a) as [ev e]. simpl in Hp.
  destruct e as [t | detail | x]; cbn [snd].
  - intros [= <-]. exists a. split; [apply list_elem_of_here | by apply Hp].
  - pose proof (IH (Some detail)) as IH'.
    destruct (device_code_loop msal rest (Some detail)) as [ev' e']. cbn [snd] in *.
    intros H. destruct (IH' H) as (b & Hb & Hi).
    exists b. split; [by apply list_elem_of_further | done].
  - discriminate.
Qed.
End passes.

Lemma pass_exception_is_key_error (msal : string → msal_app) (a : string) (x : exn) :
  (try_authority msal a).2 = Uncaught x → x = KeyError (PStr "message").
Proof.
  unfold try_authority.
  destruct (silent_attempt a (msal a)) as [ev [tok|]]; [discriminate|].
  unfold device_attempt.
  destruct (initiate_device_flow (msal a)) as [e | flow]; [discriminate|].
  destruct (flow !! "user_code"); [|discriminate].
  destruct (flow !! "message"); [|by intros [= <-]].
  by destruct (acquire_token_by_device_flow (msal a) flow !! "access_token").
Qed.

Lemma loop_exception_is_key_error (msal : string → msal_app)
    (authorities : list string) (last : option string) (x : exn) :
  (device_code_loop msal authorities last).2 = Failed x →
  x = KeyError (PStr "message").
Proof.
  revert last. induction authorities as [|a rest IH]; intros last; [done|].
  cbn [device_code_loop].
  pose proof (pass_exception_is_key_error msal a) as Hp.
  destruct (try_authority msal a) as [ev e]. simpl in Hp.
  destruct e as [t | detail | y]; cbn [snd]; [discriminate | | ].
  - pose proof (IH (Some detail)) as IH'.
    by destruct (device_code_loop msal rest (Some detail)).
  - intros [= <-]. by apply Hp.
Qed.

(** X5.  In both scripts the calls made to MSAL follow the list of
    authorities: each authority receives at most one call of each kind, in
    the order accounts, silent, device-flow start, device-flow exchange, no
    authority outside the list is contacted, and the authorities contacted
    are an initial part of the list.  A run that ends with a [RuntimeError]
    has contacted every authority of the list. *)
Theorem msal_calls_follow_the_list (msal : string → msal_app)
    (authorities : list string) :
  let run := graph_demo.acquire_token_from msal authorities in
  let run' := create_test_emails.acquire_token_from msal authorities in
  run'.1 = run.1
  ∧ calls run.1 `sublist_of` flat_map protocol authorities
  ∧ lookups run.1 `prefix_of` authorities
  ∧ (∀ msg : string,
       run.2 = Raise (RuntimeError msg) ∨ run'.2 = Raise (RuntimeError msg) →
       lookups run.1 = authorities).
Proof.
  intros run run'. subst run run'.
  unfold graph_demo.acquire_token_from, create_test_emails.acquire_token_from.
  destruct (loop_calls msal authorities None) as (Hc & Hl & Hx).
  pose proof (loop_exception_is_key_error msal authorities None) as Hk.
  destruct (device_code_loop msal authorities None) as [ev e].
  cbn [fst snd] in *.
  destruct e as [t | last | x]; cbn [fst snd]; (split; [reflexivity|]);
    (split; [exact Hc|]); (split; [exact Hl|]); intros msg Hmsg.
  - by destruct Hmsg.
  - by eapply Hx.
  - specialize (Hk x eq_refl). subst x. by destruct Hmsg.
Qed.

(** X6.  A token either script returns is one MSAL handed out for one of
    the listed authorities, as the answer of the silent call or of the
    device-flow exchange: the routine never returns anything else as a
    token. *)
Theorem returned_token_was_issued (msal : string → msal_app)
    (authorities : list string) (token : string) :
  (graph_demo.acquire_token_from msal authorities).2 = Ok token
  ∨ (create_test_emails.acquire_token_from msal authorities).2 = Ok token →
  ∃ a : string, a ∈ authorities ∧ issued msal a token.
Proof.
  unfold graph_demo.acquire_token_from, create_test_emails.acquire_token_from.
  pose proof (loop_token_issued msal authorities None token) as H.
  destruct (device_code_loop msal authorities None) as [ev e]. cbn [snd] in H.
  destruct e; cbn [snd]; intros [[= <-] | [= <-]]; by apply H.
Qed.

Lemma returned_token_was_issued_witness :
  ∃ a : string,
    a ∈ graph_demo.AUTHORITIES ∧ issued msal_second a "tok-device".
Proof.
  apply (returned_token_was_issued msal_second graph_demo.AUTHORITIES "tok-device").
  left. vm_compute. reflexivity.
Defined.

Lemma loop_stops_at_exception (msal : string → msal_app) (pre : list string)
    (a : string) (post : list string) (x : exn) (last : option string) :
  Forall (moves_on msal) pre →
  (try_authority msal a).2 = Uncaught x →
  device_code_loop msal (pre ++ a :: post) last
  = (List.concat (map (fun b => (try_authority msal b).1) pre)
       ++ (try_authority msal a).1,
     Failed x).
Proof.
  intros Hpre Ha. revert last.
  induction Hpre as [|b pre [d Hb] _ IH]; intros last.
  - change ([] ++ a :: post) with (a :: post). cbn [device_code_loop].
    destruct (try_authority msal a) as [ev e]. simpl in Ha. by subst e.
  - change ((b :: pre) ++ a :: post) with (b :: (pre ++ a :: post)).
    rewrite (loop_cons_next msal b _ last d Hb), IH. simpl.
    by rewrite app_assoc.
Qed.

(** X7.  The copy of the routine in [create_test_emails.py] returns the
    first token at once, having contacted only the authorities up to the one
    that issued it; and when every authority has been tried in vain, its
    [RuntimeError] reads [Failed to acquire token. Details: ] followed by
    the detail of the last failure. *)
Theorem seeder_token_acquisition (msal : string → msal_app) :
  (∀ (pre : list string) (a : string) (post : list string) (token : string),
     Forall (moves_on msal) pre →
     (try_authority msal a).2 = Return token →
     create_test_emails.acquire_token_from msal (pre ++ a :: post)
     = (List.concat (map (fun x => (try_authority msal x).1) pre)
          ++ (try_authority msal a).1,
        Ok token))
  ∧ (∀ (init : list string) (a d : string),
       Forall (moves_on msal) init →
       (try_authority msal a).2 = Next d →
       (create_test_emails.acquire_token_from msal (init ++ [a])).2
       = Raise (RuntimeError ("Failed to acquire token. Details: " +:+ d))).
Proof.
  split.
  - intros pre a post token Hpre Ha.
    unfold create_test_emails.acquire_token_from.
    by rewrite (loop_returns_at_first_token msal pre a post token None Hpre Ha).
  - intros init a d Hinit Ha.
    unfold create_test_emails.acquire_token_from.
    pose proof (loop_exhausted msal init a d None Hinit Ha) as Hloop.
    destruct (device_code_loop msal (init ++ [a]) None) as [ev e].
    simpl in Hloop. by subst e.
Qed.

Lemma seeder_token_acquisition_witness :
  (create_test_emails.acquire_token_from msal_second
     (["https://login.microsoftonline.com/consumers"]
      ++ "https://login.microsoftonline.com/common" :: ["https://unused.example"])).2
  = Ok "tok-device"
  ∧ (create_test_emails.acquire_token_from msal_refusing
       (["https://login.microsoftonline.com/consumers"]
        ++ ["https://login.microsoftonline.com/common"])).2
    = Raise (RuntimeError
        "Failed to acquire token. Details: invalid_client: AADSTS7000218: client_secret required").
Proof.
  split.
  - rewrite (proj1 (seeder_token_acquisition msal_second)
               ["https://login.microsoftonline.com/consumers"]
               "https://login.microsoftonline.com/common"
               ["https://unused.example"] "tok-device").
    + reflexivity.
    + constructor; [|constructor]. eexists. vm_compute. reflexivity.
    + vm_compute. reflexivity.
  - apply (proj2 (seeder_token_acquisition msal_refusing)
             ["https://login.microsoftonline.com/consumers"]
             "https://login.microsoftonline.com/common"
             "invalid_client: AADSTS7000218: client_secret required").
    + constructor; [|constructor]. eexists. vm_compute. reflexivity.
    + vm_compute. reflexivity.
Defined.

(** X8.  A device-flow answer that has a [user_code] but no [message] ends
    the whole acquisition, in both scripts, with [KeyError('message')]: the
    token exchange for that authority is not started and the authorities
    after it are not contacted. *)
Theorem missing_message_stops_the_run (msal : string → msal_app)
    (pre : list string) (a : string) (post : list string)
    (ev : list event) (flow : gmap string string) (code : string) :
  Forall (moves_on msal) pre →
  silent_attempt a (msal a) = (ev, None) →
  initiate_device_flow (msal a) = inr flow →
  flow !! "user_code" = Some code →
  flow !! "message" = None →
  let trace := List.concat (map (fun x => (try_authority msal x).1) pre)
               ++ Print ("Trying authority: " +:+ a) :: GetAccounts a :: ev
               ++ [InitiateDeviceFlow a] in
  graph_demo.acquire_token_from msal (pre ++ a :: post)
  = (trace, Raise (KeyError (PStr "message")))
  ∧ create_test_emails.acquire_token_from msal (pre ++ a :: post)
    = (trace, Raise (KeyError (PStr "message"))).
Proof.
  intros Hpre Hsil Hinit Hcode Hmsg trace.
  assert (Hpass : try_authority msal a
                  = (Print ("Trying authority: " +:+ a) :: GetAccounts a :: ev
                       ++ [InitiateDeviceFlow a],
                     Uncaught (KeyError (PStr "message")))).
  { unfold try_authority, device_attempt.
    by rewrite Hsil, Hinit, Hcode, Hmsg. }
  assert (Hx : (try_authority msal a).2 = Uncaught (KeyError (PStr "message")))
    by by rewrite Hpass.
  unfold graph_demo.acquire_token_from, create_test_emails.acquire_token_from.
  rewrite (loop_stops_at_exception msal pre a post _ None Hpre Hx), Hpass.
  split; reflexivity.
Qed.

Lemma missing_message_stops_the_run_witness :
  graph_demo.acquire_token_with_diagnostics msal_mute
  = ([ Print "Trying authority: https://login.microsoftonline.com/consumers";
       GetAccounts "https://login.microsoftonline.com/consumers";
       InitiateDeviceFlow "https://login.microsoftonline.com/consumers" ],
     Raise (KeyError (PStr "message"))).
Proof.
  exact (proj1 (missing_message_stops_the_run msal_mute []
                  "https://login.microsoftonline.com/consumers"
                  ["https://login.microsoftonline.com/common"] []
                  {[ "user_code" := "ABCD1234" ]} "ABCD1234"
                  ltac:(constructor) eq_refl eq_refl eq_refl eq_refl)).
Defined.

Lemma msal_calls_follow_the_list_witness :
  lookups (graph_demo.acquire_token_from msal_refusing graph_demo.AUTHORITIES).1
  = graph_demo.AUTHORITIES.
Proof.
  apply (proj2 (proj2 (proj2 (msal_calls_follow_the_list msal_refusing
                                graph_demo.AUTHORITIES)))
           "Failed to acquire token. Details: invalid_client: AADSTS7000218: client_secret required").
  right. vm_compute. reflexivity.
Defined.

(** * More on the seeder *)

Section seeder_requests.
Import create_test_emails.
Variable remote : Type.
Variable http_post : remote → request → result response * remote.
Variable hdrs : gmap string string.
Variable folder_id : string.



End seeder_requests.

Section seeder_recorded.
Import create_test_emails.
Variable remote : Type.
Variable http_post : remote → request → result response * remote.
Variable hdrs : gmap string string.
Variable folder_id : string.
Hypothesis answered :
  ∀ (w : remote) (q : request),
    ∃ r : response, (http_post w q).1 = Ok r ∧ (ok r = true → is_Some (json r)).

End seeder_recorded.



(** X10.  Whatever the rows and whatever the mailbox does, counts that the
    seeder returns add up to the number of rows: a run that skips a row ends
    in an exception, never in counts that leave the row out. *)
Theorem seeder_counts_add_up (remote : Type)
    (http_post : remote → request → result response * remote)
    (rows : list (gmap string (option string)))
    (hdrs : gmap string string) (folder_id : string) (w w' : remote)
    (created failed : nat) (out : list string) :
  create_test_emails.parse_csv_and_create_emails remote http_post rows hdrs
    folder_id w = (Ok (created, failed), out, w') →
  (created + failed = List.length rows)%nat.
Proof.
  unfold create_test_emails.parse_csv_and_create_emails.
  assert (H : ∀ c f o v,
            create_test_emails.create_rows remote http_post hdrs folder_id rows
              c f o v = (Ok (created, failed), out, w') →
            (created + failed = c + f + List.length rows)%nat).
  { induction rows as [|row rest IH]; intros c f o v.
    - cbn. intros [= <- <- _ _]. lia.
    - cbn [create_test_emails.create_rows].
      destruct (bind (create_test_emails.email_data_of row) _)
        as [[email_data head]|x]; [|discriminate].
      destruct (create_test_emails.create_email_in_folder remote http_post
                  hdrs folder_id email_data v) as [[res printed] v'].
      destruct res as [a|x]; [|discriminate].
      destruct (truthy a); intros Hrun; apply IH in Hrun; cbn; lia. }
  intros Hrun. apply H in Hrun. lia.
Qed.

Lemma seeder_counts_add_up_witness :
  ∃ (out : list string) (seen : nat),
    create_test_emails.parse_csv_and_create_emails nat flaky_post
      [seed_row_1; seed_row_2; seed_row_3] ∅ "AAMk-folder" O
    = (Ok (2%nat, 1%nat), out, seen)
    ∧ (2 + 1 = List.length [seed_row_1; seed_row_2; seed_row_3])%nat.
Proof.
  destruct (create_test_emails.parse_csv_and_create_emails nat flaky_post
              [seed_row_1; seed_row_2; seed_row_3] ∅ "AAMk-folder" O)
    as [[res out] w'] eqn:Hrun.
  assert (Hres : res = Ok (2%nat, 1%nat)).
  { vm_compute in Hrun. by injection Hrun as <- _ _. }
  subst res. exists out, w'. split; [reflexivity|].
  exact (seeder_counts_add_up nat flaky_post [seed_row_1; seed_row_2; seed_row_3]
           ∅ "AAMk-folder" O w' 2 1 out Hrun).
Defined.

(** * More on the renderer *)

Lemma replace_go_absent (old new s : string) :
  contains old s = false → replace_go old new O s = s.
Proof.
  induction s as [|c s IH]; [reflexivity|].
  cbn [contains replace_go]. intros [Hc Hs]%orb_false_iff.
  by rewrite Hc, (IH Hs).
Qed.

Lemma contains_app_l (n s b : string) :
  contains n s = true → contains n (s +:+ b) = true.
Proof.
  rewrite !contains_iff. intros (x & y & ->).
  exists x, (y +:+ b). by rewrite !app_assoc_str.
Qed.

Lemma split_go_head (sep s h : string) (t : list string) :
  split_go sep O s = h :: t → ∃ b, s = h +:+ b.
Proof.
  revert h t. induction s as [|c s IH]; intros h t.
  - intros [= <- <-]. by exists EmptyString.
  - cbn [split_go]. destruct (startswith sep (String c s)).
    + intros [= <- _]. by exists (String c s).
    + destruct (split_go sep O s) as [|h0 t0] eqn:Hs;
        [by destruct (split_go_nonempty sep O s)|].
      cbn [push_head]. intros [= <- <-].
      destruct (IH h0 t0 eq_refl) as [b ->]. by exists b.
Qed.

Lemma split_go_pieces (sep : string) (k : nat) (s p : string) :
  p ∈ split_go sep k s → ∃ a b, s = a +:+ p +:+ b.
Proof.
  revert k. induction s as [|c s IH]; intros k.
  - cbn. intros ->%list_elem_of_singleton. by exists EmptyString, EmptyString.
  - cbn [split_go]. destruct k as [|k].
    + destruct (startswith sep (String c s)).
      * intros [-> | Hp]%elem_of_cons.
        -- by exists EmptyString, (String c s).
        -- destruct (IH _ Hp) as (a & b & ->). by exists (String c a), b.
      * destruct (split_go sep O s) as [|h0 t0] eqn:Hs;
          [by destruct (split_go_nonempty sep O s)|].
        cbn [push_head]. intros [-> | Hp]%elem_of_cons.
        -- destruct (split_go_head sep s h0 t0 Hs) as [b ->].
           by exists EmptyString, b.
        -- destruct (IH O) as (a & b & ->); [rewrite Hs; by right|].
           by exists (String c a), b.
    + intros Hp. destruct (IH _ Hp) as (a & b & ->). by exists (String c a), b.
Qed.

Lemma replace_absent_in_pieces (mark new sep s : string) :
  contains mark s = false →
  map (replace_go mark new O) (split sep s) = split sep s.
Proof.
  intros Hs. rewrite <- (map_id (split sep s)) at 2.
  apply map_ext_in. intros p Hp%list_elem_of_In.
  apply replace_go_absent.
  destruct (contains mark p) eqn:Hc; [|reflexivity].
  destruct (split_go_pieces sep O s p Hp) as (a & b & ->).
  rewrite <- Hs. symmetry. by apply contains_app_r, contains_app_l.
Qed.

(** X11.  A template without the [REPORT_DATA] marker swallows the rows:
    whatever messages were rendered, the call succeeds and the file written
    is the text of the template with the run time filled in and nothing
    else (its line ends written as the platform writes them). *)
Theorem rows_need_the_marker (linesep : string) (fs : gmap string string)
    (now : datetime) (messages : list dict)
    (folder_display stored tpl rows : string) :
  fs !! graph_demo.TEMPLATE_FILE = Some stored →
  read_text stored = Ok tpl →
  contains graph_demo.REPORT_DATA_MARK tpl = false →
  graph_demo.rows_block messages folder_display = Ok rows →
  graph_demo.render_tailwind_dashboard linesep fs now messages folder_display
  = (Ok tt,
     <[graph_demo.OUT_FILE :=
         replace newline linesep
           (replace graph_demo.RUN_TIME_MARK (strftime_seconds now) tpl)]> fs).
Proof.
  intros Hstored Hread Hmark Hrows.
  rewrite render_outcome, Hstored, Hrows, Hread. cbv zeta.
  change (replace graph_demo.REPORT_DATA_MARK rows)
    with (replace_go graph_demo.REPORT_DATA_MARK rows O).
  rewrite (replace_absent_in_pieces _ rows _ tpl Hmark).
  rewrite utf8_valid_split by done.
  rewrite (read_text_valid stored tpl Hread).
  rewrite <- write_newlines_join by apply stamp_lacks_newline.
  change (replace graph_demo.RUN_TIME_MARK (strftime_seconds now) tpl)
    with (replace_go graph_demo.RUN_TIME_MARK (strftime_seconds now) O tpl).
  by rewrite replace_go_join.
Qed.

Lemma rows_need_the_marker_witness :
  graph_demo.render_tailwind_dashboard newline fs_without_marker run_at_noon
    [row_with_script; row_with_surrogate] "DEMO for PNC"
  = (Ok tt,
     <["dashboard.html" := "<h1>Run 2026-11-03 12:00:00 UTC</h1><table></table>"]>
       fs_without_marker).
Proof.
  destruct (graph_demo.rows_block [row_with_script; row_with_surrogate]
              "DEMO for PNC") as [rows|e] eqn:Hrows;
    [|vm_compute in Hrows; discriminate].
  rewrite (rows_need_the_marker newline fs_without_marker run_at_noon
             [row_with_script; row_with_surrogate] "DEMO for PNC"
             "<h1>Run {RUN_TIME}</h1><table></table>"
             "<h1>Run {RUN_TIME}</h1><table></table>" rows
             eq_refl eq_refl eq_refl Hrows).
  reflexivity.
Defined.

Lemma status_labels_keys (s label : string) :
  graph_demo.STATUS_LABELS !! s = Some label →
  s = "filed" ∨ s = "triage" ∨ s = "skipped".
Proof.
  unfold graph_demo.STATUS_LABELS.
  destruct (decide (s = "filed")) as [->|H1]; [by left|].
  destruct (decide (s = "triage")) as [->|H2]; [right; by left|].
  destruct (decide (s = "skipped")) as [->|H3]; [right; by right|].
  rewrite !lookup_insert_ne by done. by rewrite lookup_singleton_ne.
Qed.

Lemma text_cell (m : dict) (k : string) (dflt : pyval) (x : string) :
  dict_get_or m k dflt = PStr x → text_or_absent m k.
Proof.
  unfold dict_get_or, text_or_absent. destruct (m !! k) as [v|]; simpl.
  - intros ->. right. eauto.
  - by left.
Qed.

(** X12.  The renderer builds a row exactly for the dictionaries whose
    [status] is one of [filed], [triage], [skipped] and whose [subject],
    [filed_dir] and [timestamp] are texts or absent; for any other
    dictionary (no status, an unknown status, a [None] subject) it
    raises. *)
Theorem row_is_built_iff_well_formed (folder_display : string) (m : dict) :
  (∃ row : string, graph_demo.row_html folder_display m = Ok row)
  ↔ dashboard_row_ok m.
Proof.
  split; [|apply row_html_returns].
  intros [row (label & subject & dir & time & Hst & Hsub & Hdir & Htime & _)
                %row_html_cells].
  unfold dashboard_row_ok.
  split; [|repeat split; eapply text_cell; eassumption].
  apply bind_ok in Hst as (v & Hv & Hlabel).
  unfold dict_item in Hv. destruct (m !! "status") as [v'|]; [|discriminate].
  injection Hv as ->. unfold graph_demo.status_label_of in Hlabel.
  destruct v as [| | |s| |]; try discriminate.
  destruct (graph_demo.STATUS_LABELS !! s) as [l|] eqn:Hs; [|discriminate].
  destruct (status_labels_keys s l Hs) as [-> | [-> | ->]]; auto.
Qed.

(** X13.  The placeholder row is written exactly when there is no message:
    an empty list gives the single row [No emails were processed.], and a
    list that renders gives that row only if it is empty. *)
Theorem placeholder_iff_no_messages (messages : list dict)
    (folder_display block : string) :
  graph_demo.rows_block messages folder_display = Ok block →
  (block = graph_demo.NO_ROWS ↔ messages = []).
Proof.
  unfold graph_demo.rows_block.
  intros (rows & Hrows & Hblock)%bind_ok.
  destruct messages as [|m rest].
  - injection Hrows as <-. injection Hblock as <-. done.
  - split; [|discriminate]. intros ->. exfalso.
    cbn [map_result] in Hrows.
    apply bind_ok in Hrows as (r & Hr & Hrows).
    apply bind_ok in Hrows as (rs & _ & [= <-]).
    apply row_html_cells in Hr as (l & s & d & t & _ & _ & _ & _ & ->).
    apply (f_equal (fun x => match x with
                             | Ok b => startswith "<tr><td cl" b
                             | Raise _ => false
                             end)) in Hblock.
    destruct rs as [|r' rs]; change (true = false) in Hblock; discriminate.
Qed.

Lemma placeholder_iff_no_messages_witness :
  graph_demo.rows_block [] "DEMO for PNC" = Ok graph_demo.NO_ROWS
  ∧ (graph_demo.NO_ROWS = graph_demo.NO_ROWS ↔ @nil dict = []).
Proof.
  split; [reflexivity|].
  exact (placeholder_iff_no_messages [] "DEMO for PNC" graph_demo.NO_ROWS eq_refl).
Defined.

Lemma row_is_built_iff_well_formed_witness :
  ∃ row : string, graph_demo.row_html "DEMO for PNC" row_with_script = Ok row.
Proof.
  apply (proj2 (row_is_built_iff_well_formed "DEMO for PNC" row_with_script)).
  unfold dashboard_row_ok, text_or_absent.
  split; [right; left; reflexivity|].
  split; [right; eexists; reflexivity|].
  split; [left; reflexivity | right; eexists; reflexivity].
Defined.

Section main_rows.
Import graph_demo.
Variable lower : string → string.
Variable fromisoformat : string → result datetime.
Variable astimezone : datetime → result datetime.

Lemma iso_to_display_text (m : dict) :
  text_or_falsy m "receivedDateTime" →
  ∃ shown : string,
    _iso_to_display fromisoformat astimezone (dict_get m "receivedDateTime")
    = PStr shown.
Proof.
  unfold text_or_falsy, dict_get, _iso_to_display.
  destruct (m !! "receivedDateTime") as [v|]; simpl; [|eauto].
  intros [Hv | [s ->]].
  - rewrite Hv. simpl. eauto.
  - destruct s as [|c s]; simpl; [eauto|].
    destruct (fromisoformat _) as [dt|e]; simpl; [|eauto].
    destruct (astimezone dt); simpl; eauto.
Qed.

Lemma subject_text (m : dict) :
  text_or_falsy m "subject" →
  ∃ s : string, py_or (dict_get m "subject") (PStr "") = PStr s.
Proof.
  unfold text_or_falsy, dict_get, py_or.
  destruct (m !! "subject") as [v|]; simpl; [|eauto].
  intros [Hv | [s ->]].
  - rewrite Hv. eauto.
  - destruct s; simpl; eauto.
Qed.

Lemma dashboard_row_well_formed (m : dict) :
  text_or_falsy m "subject" →
  text_or_falsy m "receivedDateTime" →
  ∃ row : dict,
    dashboard_row lower fromisoformat astimezone m = Ok row
    ∧ dashboard_row_ok row.
Proof.
  intros Hsub Htime. unfold dashboard_row.
  destruct (subject_text m Hsub) as [s ->].
  destruct (iso_to_display_text m Htime) as [shown ->].
  destruct (classify_label_of_text lower m Hsub) as [-> | [-> | ->]];
    cbn [bind]; eexists; (split; [reflexivity|]);
    unfold dashboard_row_ok, text_or_absent;
    repeat (rewrite ?lookup_insert_eq; rewrite ?lookup_insert_ne by done);
    rewrite ?lookup_singleton_eq;
    (split; [auto | repeat split; right; eexists; reflexivity]).
Qed.
End main_rows.

(** X14.  The rows [main] builds always suit the renderer.  For fetched
    messages whose subject and received time are texts or falsy, building
    the rows succeeds, one row per message, and rendering them succeeds: the
    labels the classifier gives are exactly keys of the renderer's label
    table, so the run cannot end in a [KeyError] there. *)
Theorem main_rows_always_render (lower : string → string)
    (fromisoformat : string → result datetime)
    (astimezone : datetime → result datetime) (msgs : list dict) :
  Forall (fun m => text_or_falsy m "subject"
                   ∧ text_or_falsy m "receivedDateTime") msgs →
  ∃ (rows : list dict) (block : string),
    map_result (graph_demo_main.row_of_message lower fromisoformat astimezone)
      (map PDict msgs) = Ok rows
    ∧ List.length rows = List.length msgs
    ∧ Forall dashboard_row_ok rows
    ∧ graph_demo.rows_block rows graph_demo.DEMO_FOLDER_NAME = Ok block.
Proof.
  intros Hmsgs.
  assert (Hrows : ∃ rows,
            map_result (graph_demo_main.row_of_message lower fromisoformat astimezone)
              (map PDict msgs) = Ok rows
            ∧ List.length rows = List.length msgs
            ∧ Forall dashboard_row_ok rows).
  { induction Hmsgs as [|m ms [Hs Ht] _ (rows & Hrows & Hlen & Hok)].
    - exists []. by repeat split.
    - destruct (dashboard_row_well_formed lower fromisoformat astimezone m Hs Ht)
        as (row & Hrow & Hrok).
      exists (row :: rows). cbn [map map_result graph_demo_main.row_of_message].
      rewrite Hrow. cbn [bind]. rewrite Hrows. cbn [bind].
      repeat split; [simpl; by rewrite Hlen | by constructor]. }
  destruct Hrows as (rows & Hrows & Hlen & Hok).
  destruct (rows_block_returns graph_demo.DEMO_FOLDER_NAME rows Hok) as [block Hb].
  by exists rows, block.
Qed.

Lemma main_rows_always_render_witness :
  ∃ (rows : list dict) (block : string),
    map_result (graph_demo_main.row_of_message ascii_lower fromisoformat_basic
                  (astimezone_utc one_hour_east))
      (map PDict [msg_a; msg_no_subject]) = Ok rows
    ∧ List.length rows = 2%nat
    ∧ Forall dashboard_row_ok rows
    ∧ graph_demo.rows_block rows graph_demo.DEMO_FOLDER_NAME = Ok block.
Proof.
  apply (main_rows_always_render ascii_lower fromisoformat_basic
           (astimezone_utc one_hour_east) [msg_a; msg_no_subject]).
  constructor; [|constructor; [|constructor]];
    (split; unfold text_or_falsy; vm_compute;
     first [exact I | right; eexists; reflexivity]).
Defined.

(** * The two [main] functions *)

Section graph_main.
Import graph_demo graph_demo_main.
Variable repr : pyval → string.
Variable lower : string → string.
Variable fromisoformat : string → result datetime.
Variable astimezone : datetime → result datetime.
Variable msal : string → msal_app.


End graph_main.


(** The exception at work: a subject with a lone surrogate in it passes the
    classifier and the row builder, and stops the run when the file, already
    opened and emptied, is written. *)
Example surrogate_empties_the_dashboard :
  (graph_demo_main.main no_repr ascii_lower fromisoformat_basic
     (astimezone_utc one_hour_east) msal_second graph_with_surrogate newline
     (<["dashboard.html" := "<p>the report of yesterday</p>"]> fs_with_template)
     run_at_noon).1.2
  = Crashed (UnicodeEncodeError "utf-8")
  ∧ (graph_demo_main.main no_repr ascii_lower fromisoformat_basic
       (astimezone_utc one_hour_east) msal_second graph_with_surrogate newline
       (<["dashboard.html" := "<p>the report of yesterday</p>"]> fs_with_template)
       run_at_noon).2 !! "dashboard.html"
    = Some EmptyString.
Proof. split; vm_compute; reflexivity. Qed.

Section graph_main_http.
Import graph_demo graph_demo_main.
Variable repr : pyval → string.
Variable lower : string → string.
Variable fromisoformat : string → result datetime.
Variable astimezone : datetime → result datetime.
Variable msal : string → msal_app.

(** X16.  [main] of [graph_demo.py] consults Graph through three reads
    only, each carrying the bearer token it acquired: the profile, the
    lookup of the folder [DEMO for PNC], and the newest 50 messages of the
    folder found.  Two HTTP layers that answer these reads alike give the
    same run; and when no token is acquired, the run does not depend on the
    HTTP layer at all. *)
Theorem main_reads_three_resources (http_get http_get' : request → response)
    (linesep : string) (fs : gmap string string) (now : datetime) :
  (∀ token : string,
     (acquire_token_with_diagnostics msal).2 = Ok token →
     let hdrs : gmap string string := {[ "Authorization" := "Bearer " +:+ token ]} in
     http_get (mk_request "https://graph.microsoft.com/v1.0/me" hdrs None None)
     = http_get' (mk_request "https://graph.microsoft.com/v1.0/me" hdrs None None)
     ∧ http_get (mk_request "https://graph.microsoft.com/v1.0/me/mailFolders" hdrs
                   (Some {[ "$filter" := PStr "displayName eq 'DEMO for PNC'";
                            "$top" := PInt 10 ]}) None)
       = http_get' (mk_request "https://graph.microsoft.com/v1.0/me/mailFolders" hdrs
                      (Some {[ "$filter" := PStr "displayName eq 'DEMO for PNC'";
                               "$top" := PInt 10 ]}) None)
     ∧ ∀ folder_id : string,
         let q := mk_request
                    ("https://graph.microsoft.com/v1.0/me/mailFolders/"
                     +:+ folder_id +:+ "/messages") hdrs
                    (Some {[ "$top" := PInt 50;
                             "$select" := PStr "id,subject,from,receivedDateTime,hasAttachments,conversationId";
                             "$orderby" := PStr "receivedDateTime desc" ]}) None in
         http_get q = http_get' q) →
  main repr lower fromisoformat astimezone msal http_get linesep fs now
  = main repr lower fromisoformat astimezone msal http_get' linesep fs now.
Proof.
  intros Hsame. unfold main.
  destruct (acquire_token_with_diagnostics msal) as [ev [token|x]]; [|reflexivity].
  destruct (Hsame token eq_refl) as (Hme & Hfolder & Hlist).
  assert (H1 : _get_me http_get {[ "Authorization" := "Bearer " +:+ token ]}
               = _get_me http_get' {[ "Authorization" := "Bearer " +:+ token ]}).
  { unfold _get_me, _graph_get.
    change (GRAPH +:+ "/me") with "https://graph.microsoft.com/v1.0/me".
    by rewrite Hme. }
  assert (H2 : _find_mail_folder_id http_get
                 {[ "Authorization" := "Bearer " +:+ token ]} DEMO_FOLDER_NAME
               = _find_mail_folder_id http_get'
                   {[ "Authorization" := "Bearer " +:+ token ]} DEMO_FOLDER_NAME).
  { unfold _find_mail_folder_id, _graph_get.
    change (http_get _) with
      (http_get (mk_request "https://graph.microsoft.com/v1.0/me/mailFolders"
                   {[ "Authorization" := "Bearer " +:+ token ]}
                   (Some {[ "$filter" := PStr "displayName eq 'DEMO for PNC'";
                            "$top" := PInt 10 ]}) None)).
    change (http_get' _) with
      (http_get' (mk_request "https://graph.microsoft.com/v1.0/me/mailFolders"
                    {[ "Authorization" := "Bearer " +:+ token ]}
                    (Some {[ "$filter" := PStr "displayName eq 'DEMO for PNC'";
                             "$top" := PInt 10 ]}) None)).
    by rewrite Hfolder. }
  assert (H3 : ∀ id, _list_messages http_get
                       {[ "Authorization" := "Bearer " +:+ token ]} id TOP
                     = _list_messages http_get'
                         {[ "Authorization" := "Bearer " +:+ token ]} id TOP).
  { intros id. unfold _list_messages, _graph_get.
    specialize (Hlist id). cbv zeta in Hlist.
    change (GRAPH +:+ "/me/mailFolders/" +:+ id +:+ "/messages")
      with ("https://graph.microsoft.com/v1.0/me/mailFolders/" +:+ id +:+ "/messages").
    change (Z.min TOP 100) with 50%Z.
    by rewrite Hlist. }
  rewrite H1, H2.
  destruct (bind (_get_me http_get' _) signed_in_as); [|reflexivity].
  destruct (_find_mail_folder_id http_get' _ DEMO_FOLDER_NAME) as [folder_id|];
    [|reflexivity].
  by rewrite H3.
Qed.
End graph_main_http.

Lemma main_reads_three_resources_witness :
  graph_demo_main.main no_repr ascii_lower fromisoformat_basic
    (astimezone_utc one_hour_east) msal_second graph_answers newline
    fs_with_template run_at_noon
  = graph_demo_main.main no_repr ascii_lower fromisoformat_basic
      (astimezone_utc one_hour_east) msal_second graph_answers_elsewhere newline
      fs_with_template run_at_noon.
Proof.
  apply (main_reads_three_resources no_repr ascii_lower fromisoformat_basic
           (astimezone_utc one_hour_east) msal_second graph_answers
           graph_answers_elsewhere newline fs_with_template run_at_noon).
  intros token _. repeat split; reflexivity.
Defined.

Section graph_main_template.
Import graph_demo graph_demo_main.
Variable repr : pyval → string.
Variable lower : string → string.
Variable fromisoformat : string → result datetime.
Variable astimezone : datetime → result datetime.
Variable msal : string → msal_app.
Variable http_get : request → response.
Variable linesep : string.

(** X17.  A missing template is noticed last.  If a run completes, the same
    run without the template file does everything the complete run did
    before rendering (sign-in, the three reads, classification, the same
    printed lines) and only then ends in [FileNotFoundError], having written
    nothing. *)
Theorem missing_template_is_noticed_last (fs fs' : gmap string string)
    (now : datetime) (tr : list action) :
  main repr lower fromisoformat astimezone msal http_get linesep fs now
  = (tr, Done, fs') →
  ∃ before : list action,
    tr = before ++ [Opened OUT_FILE; Say [PStr "Dashboard saved to:"; PStr OUT_FILE]]
    ∧ main repr lower fromisoformat astimezone msal http_get linesep
        (delete TEMPLATE_FILE fs) now
      = (before,
         Crashed (FileNotFoundError "Template not found: dashboard_template.html"),
         delete TEMPLATE_FILE fs).
Proof.
  unfold main.
  destruct (acquire_token_with_diagnostics msal) as [ev [token|x]]; [|discriminate].
  destruct (bind (_get_me http_get _) signed_in_as) as [upn|x]; [|discriminate].
  destruct (_find_mail_folder_id http_get _ DEMO_FOLDER_NAME) as [folder_id|x];
    [|discriminate].
  destruct (negb (truthy folder_id)); [discriminate|].
  destruct (bind (_list_messages http_get _ _ TOP) _) as [[msgs n]|x];
    [|discriminate].
  destruct (py_iter msgs) as [items|x]; [|discriminate]. cbn [bind].
  destruct (map_result _ items) as [messages|x]; [|discriminate]. cbn [bind].
  destruct (render_tailwind_dashboard linesep fs now messages DEMO_FOLDER_NAME)
    as [[[]|x] fs1]; [|discriminate].
  intros [= <- <-].
  exists (Say [PStr "Starting Microsoft Graph Email Filer Demo..."]
          :: (map Msal ev ++ [Say [PStr "Signed in as:"; upn]])
          ++ [Say [PStr ("Fetched " +:+ str_of_int (Z.of_nat n)
                         +:+ " message(s).")]]).
  split; [reflexivity|].
  unfold render_tailwind_dashboard. by rewrite lookup_delete_eq.
Qed.
End graph_main_template.

Lemma missing_template_is_noticed_last_witness :
  ∃ before : list action,
    graph_demo_main.main no_repr ascii_lower fromisoformat_basic
      (astimezone_utc one_hour_east) msal_second graph_answers newline
      (delete "dashboard_template.html" fs_with_template) run_at_noon
    = (before,
       Crashed (FileNotFoundError "Template not found: dashboard_template.html"),
       delete "dashboard_template.html" fs_with_template)
    ∧ Say [PStr "Fetched 2 message(s)."] ∈ before.
Proof.
  destruct (graph_demo_main.main no_repr ascii_lower fromisoformat_basic
              (astimezone_utc one_hour_east) msal_second graph_answers newline
              fs_with_template run_at_noon) as [[tr e] fs'] eqn:Hrun.
  assert (He : e = Done).
  { apply (f_equal (fun r => r.1.2)) in Hrun. vm_compute in Hrun. by subst e. }
  subst e.
  destruct (missing_template_is_noticed_last no_repr ascii_lower fromisoformat_basic
              (astimezone_utc one_hour_east) msal_second graph_answers newline
              fs_with_template fs' run_at_noon tr Hrun) as (before & Htr & Hmissing).
  exists before. split; [exact Hmissing|].
  apply (f_equal (fun r => r.1.1)) in Hmissing. vm_compute in Hmissing.
  rewrite <- Hmissing. vm_compute. repeat first [apply list_elem_of_here | apply list_elem_of_further].
Defined.

Section seeder_main.
Import create_test_emails create_test_emails_main.
Variable repr : pyval → string.
Variable msal : string → msal_app.
Variable http_get : request → response.
Variable remote : Type.
Variable http_post : remote → request → result response * remote.

(** X18.  [main] of [create_test_emails.py] touches the mailbox only behind
    its three guards.  Without the CSV file it prints its two lines and
    returns: no sign-in is attempted and nothing is sent.  And whenever a
    run leaves the mailbox changed, the file existed, a token was acquired,
    and the folder lookup returned a truthy identifier. *)
Theorem seeder_main_guards
    (csv_files : gmap string (list (gmap string (option string)))) (w : remote) :
  (csv_files !! CSV_FILE = None →
   main repr msal http_get remote http_post csv_files w
   = ([ Say [PStr ("Starting test email creation…" +:+ newline)];
        Say [PStr "ERROR: CSV file 'test_emails.csv' not found!"];
        Say [PStr "Please save your CSV file and update the CSV_FILE path in the script."] ],
      Done, w))
  ∧ (∀ (tr : list action) (e : main_end) (w' : remote),
       main repr msal http_get remote http_post csv_files w = (tr, e, w') →
       w' ≠ w →
       ∃ (rows : list (gmap string (option string))) (token : string)
         (folder_id : pyval),
         csv_files !! CSV_FILE = Some rows
         ∧ (acquire_token_with_diagnostics msal).2 = Ok token
         ∧ find_mail_folder_id http_get {[ "Authorization" := "Bearer " +:+ token ]}
             DEMO_FOLDER_NAME = Ok folder_id
         ∧ truthy folder_id = true).
Proof.
  unfold main. split.
  - by intros ->.
  - intros tr e w'.
    destruct (csv_files !! CSV_FILE) as [rows|]; [|by intros [= _ _ <-]].
    destruct (acquire_token_with_diagnostics msal) as [ev [token|x]];
      [|by intros [= _ _ <-]].
    destruct (find_mail_folder_id http_get _ DEMO_FOLDER_NAME) as [folder_id|x]
      eqn:Hfolder; [|by intros [= _ _ <-]].
    destruct (truthy folder_id) eqn:Htruthy; cbn [negb]; [|by intros [= _ _ <-]].
    intros _ _. exists rows, token, folder_id. by repeat split.
Qed.
End seeder_main.

Lemma seeder_main_guards_witness :
  create_test_emails_main.main no_repr msal_second graph_answers nat flaky_post ∅ O
  = ([ Say [PStr ("Starting test email creation…" +:+ newline)];
       Say [PStr "ERROR: CSV file 'test_emails.csv' not found!"];
       Say [PStr "Please save your CSV file and update the CSV_FILE path in the script."] ],
     Done, O)
  ∧ ∃ (rows : list (gmap string (option string))) (token : string)
      (folder_id : pyval),
      csv_on_disk !! "test_emails.csv" = Some rows
      ∧ (create_test_emails.acquire_token_with_diagnostics msal_second).2 = Ok token
      ∧ create_test_emails.find_mail_folder_id graph_answers
          {[ "Authorization" := "Bearer " +:+ token ]} "DEMO for PNC" = Ok folder_id
      ∧ truthy folder_id = true.
Proof.
  split.
  - apply (proj1 (seeder_main_guards no_repr msal_second graph_answers nat
                    flaky_post ∅ O)). reflexivity.
  - destruct (create_test_emails_main.main no_repr msal_second graph_answers nat
                flaky_post csv_on_disk O) as [[tr e] w'] eqn:Hrun.
    apply (proj2 (seeder_main_guards no_repr msal_second graph_answers nat
                    flaky_post csv_on_disk O) tr e w' Hrun).
    apply (f_equal snd) in Hrun. vm_compute in Hrun. subst w'. discriminate.
Defined.

Section seeder_main_summary.
Import create_test_emails create_test_emails_main.
Variable repr : pyval → string.
Variable msal : string → msal_app.
Variable http_get : request → response.
Variable remote : Type.
Variable http_post : remote → request → result response * remote.

End seeder_main_summary.


(** * Timestamps in the format Graph sends *)

Lemma digit_value_digit (n : nat) : digit_value (digit n) = Some (n mod 10)%nat.
Proof.
  unfold digit_value, digit.
  pose proof (Nat.mod_upper_bound n 10 ltac:(lia)) as Hlt.
  rewrite nat_ascii_embedding by lia.
  assert (H1 : (48 <=? 48 + n mod 10)%nat = true) by (apply Nat.leb_le; lia).
  assert (H2 : (48 + n mod 10 <=? 57)%nat = true) by (apply Nat.leb_le; lia).
  rewrite H1, H2. cbn [andb]. f_equal. lia.
Qed.

Lemma two_digits_pad2 (n : nat) (rest : string) :
  (n < 100)%nat → two_digits (pad2 n +:+ rest) = Some (n, rest).
Proof.
  intros Hn. unfold pad2. rewrite !app_cons, app_empty_l. cbn [two_digits].
  rewrite !digit_value_digit. do 2 f_equal.
  pose proof (Nat.div_mod_eq n 10).
  assert ((n / 10) mod 10 = n / 10)%nat.
  { apply Nat.mod_small. apply Nat.Div0.div_lt_upper_bound. lia. }
  lia.
Qed.

Lemma four_digits_pad4 (n : nat) (rest : string) :
  (n < 100 * 100)%nat → four_digits (pad4 n +:+ rest) = Some (n, rest).
Proof.
  intros Hn. unfold pad4, four_digits.
  change (String (digit (n / 1000)) (String (digit (n / 100)) (pad2 n)) +:+ rest)
    with (String (digit (n / 1000)) (String (digit (n / 100)) (pad2 n +:+ rest))).
  cbn [two_digits]. rewrite !digit_value_digit.
  unfold pad2. rewrite !app_cons, app_empty_l. cbn [two_digits].
  rewrite !digit_value_digit. do 2 f_equal.
  pose proof (Nat.div_mod_eq n 10).
  pose proof (Nat.div_mod_eq (n / 10) 10).
  pose proof (Nat.div_mod_eq (n / 100) 10).
  assert (n / 10 / 10 = n / 100)%nat by (rewrite Nat.Div0.div_div; reflexivity).
  assert (n / 100 / 10 = n / 1000)%nat by (rewrite Nat.Div0.div_div; reflexivity).
  assert ((n / 1000) mod 10 = n / 1000)%nat.
  { apply Nat.mod_small. apply Nat.Div0.div_lt_upper_bound. lia. }
  lia.
Qed.

Lemma lit_app (c : ascii) (x : string) : String c EmptyString +:+ x = String c x.
Proof. reflexivity. Qed.

Lemma split_offset_plus (a b : string) :
  lacks "+" a = true → lacks "-" a = true →
  split_offset (a +:+ String "+" b) = (a, Some (false, b)).
Proof.
  induction a as [|c a IH]; [reflexivity|].
  cbn [lacks]. intros [Hp Ha]%andb_true_iff [Hm Ha']%andb_true_iff.
  rewrite app_cons. cbn [split_offset].
  apply negb_true_iff in Hp, Hm. by rewrite Hp, Hm, IH.
Qed.

Lemma two_digits_pad2_end (n : nat) :
  (n < 100)%nat → two_digits (pad2 n) = Some (n, EmptyString).
Proof.
  intros Hn. rewrite <- (app_empty_r (pad2 n)). by apply two_digits_pad2.
Qed.

Lemma clock_text_parses (dt : datetime) :
  (hour dt < 24 ∧ minute dt < 60 ∧ second dt < 60)%nat →
  parse_hh_mm_ss (clock_text dt) = Some (hour dt, minute dt, second dt).
Proof.
  intros (Hh & Hm & Hs). unfold clock_text, parse_hh_mm_ss, option_bind.
  rewrite two_digits_pad2 by lia. rewrite lit_app.
  cbn [expect]. change (Ascii.eqb ":" ":") with true. cbn match.
  rewrite two_digits_pad2 by lia. rewrite lit_app.
  cbn [expect]. change (Ascii.eqb ":" ":") with true. cbn match.
  by rewrite two_digits_pad2_end by lia.
Qed.

Lemma clock_text_lacks (c : ascii) (dt : datetime) :
  is_digit c = false → Ascii.eqb ":" c = false → lacks c (clock_text dt) = true.
Proof.
  intros Hc Hcolon. unfold clock_text.
  rewrite !lacks_app, !pad2_lacks by done. cbn [lacks]. by rewrite Hcolon.
Qed.

Lemma date_text_lacks (c : ascii) (dt : datetime) :
  is_digit c = false → Ascii.eqb "-" c = false → lacks c (date_text dt) = true.
Proof.
  intros Hc Hdash. unfold date_text.
  rewrite !lacks_app, !pad2_lacks, pad4_lacks by done. cbn [lacks].
  by rewrite Hdash.
Qed.

Lemma graph_timestamp_rewritten (dt : datetime) :
  replace "Z" "+00:00" (graph_timestamp dt)
  = date_text dt +:+ "T" +:+ clock_text dt +:+ "+00:00".
Proof.
  rewrite replace_single. unfold graph_timestamp.
  rewrite !subst_char_app.
  rewrite (subst_char_lacks _ _ (date_text dt)) by by apply date_text_lacks.
  rewrite (subst_char_lacks _ _ (clock_text dt)) by by apply clock_text_lacks.
  reflexivity.
Qed.

Lemma graph_timestamp_parses (dt : datetime) :
  valid_fields dt →
  fromisoformat_basic (date_text dt +:+ "T" +:+ clock_text dt +:+ "+00:00")
  = Ok (mk_datetime (year dt) (month dt) (day dt) (hour dt) (minute dt)
          (second dt) (Some 0%Z)).
Proof.
  intros (Hy & Hmo & Hd & Hh & Hmi & Hs).
  unfold fromisoformat_basic, date_text, option_bind. rewrite !app_assoc_str.
  rewrite four_digits_pad4 by lia. rewrite lit_app.
  cbn [expect]. change (Ascii.eqb "-" "-") with true. cbn match.
  rewrite two_digits_pad2 by lia. rewrite lit_app.
  cbn [expect]. change (Ascii.eqb "-" "-") with true. cbn match.
  rewrite two_digits_pad2.
  2:{ pose proof (days_in_month (year dt) (month dt)).
      assert (days_in_month (year dt) (month dt) ≤ 31)%nat.
      { unfold days_in_month.
        destruct (month dt) as [|[|[|[|[|[|[|[|[|[|[|[|]]]]]]]]]]]];
          try destruct (is_leap _); lia. }
      lia. }
  assert (Hrange : ((1 <=? year dt) && (1 <=? month dt) && (month dt <=? 12)
                    && (1 <=? day dt)
                    && (day dt <=? days_in_month (year dt) (month dt)))%nat = true).
  { repeat (apply andb_true_iff; split); apply Nat.leb_le; lia. }
  rewrite Hrange. cbn [negb]. rewrite lit_app.
  rewrite (split_offset_plus (clock_text dt) "00:00")
    by by apply clock_text_lacks.
  rewrite clock_text_parses by done.
  assert (Hvalid : valid_time (hour dt, minute dt, second dt) = true).
  { unfold valid_time. repeat (apply andb_true_iff; split); apply Nat.ltb_lt; lia. }
  rewrite Hvalid. reflexivity.
Qed.

(** X20.  A timestamp in the format Graph sends, [YYYY-MM-DDTHH:MM:SSZ], is
    displayed with its own date, hour and minute: the seconds are dropped,
    nothing is shifted, and the time zone of the machine plays no part. *)
Theorem graph_timestamp_is_shown_as_is (local_utcoffset : datetime → Z)
    (dt : datetime) :
  valid_fields dt →
  graph_demo._iso_to_display fromisoformat_basic (astimezone_utc local_utcoffset)
    (PStr (graph_timestamp dt))
  = PStr (date_text dt +:+ " " +:+ pad2 (hour dt) +:+ ":" +:+ pad2 (minute dt)
          +:+ " UTC").
Proof.
  intros Hvalid. unfold graph_demo._iso_to_display.
  assert (Htruthy : truthy (PStr (graph_timestamp dt)) = true) by reflexivity.
  rewrite Htruthy. cbn [negb graph_demo.replace_z bind].
  rewrite graph_timestamp_rewritten, (graph_timestamp_parses dt Hvalid).
  cbn [bind astimezone_utc tzinfo]. unfold strftime_minutes, date_text.
  cbn [year month day hour minute]. by rewrite !app_assoc_str.
Qed.

Lemma graph_timestamp_is_shown_as_is_witness :
  graph_demo._iso_to_display fromisoformat_basic (astimezone_utc one_hour_east)
    (PStr "2026-11-03T23:59:58Z") = PStr "2026-11-03 23:59 UTC".
Proof.
  apply (graph_timestamp_is_shown_as_is one_hour_east run_at_night).
  unfold valid_fields. vm_compute. repeat split; lia.
Defined.
